(** * Intelligent personal assistant: a shallow embedding and its properties

    The development follows the Python sources file by file:
    - [Py]           the fragment of Python's builtins the sources rely on
                     (str methods, int parsing, exceptions, try/except);
    - [Webhook]      main.py, the Slack events endpoint;
    - [Orchestrator] src/agents.py, agent factory and request processing;
    - [Weather]      src/tools/weather.py;
    - [Calendar]     src/tools/calendar.py.

    Conventions.  A Python [str] is a Rocq [string]; the character tests
    ([isspace], [lower], [upper]) are those of Python restricted to ASCII.
    A call that may raise returns a [result]; code that talks to a
    collaborator (Slack verifier, Google Calendar, Open-Meteo, Nominatim,
    the agent framework) runs in the monad [prog], which threads the
    object's state, records every outgoing call in a trace and propagates
    exceptions; the answers of the collaborators are arguments of the
    model.  Calls to [logger] are kept only in [Orchestrator], where the
    source has a loop whose sole purpose is logging. *)

From Stdlib Require Import String Ascii ZArith QArith Qabs List Lia Bool DecimalString.
From stdpp Require Import base option gmap strings.

#[local] Open Scope string_scope.
#[local] Open Scope list_scope.
#[local] Open Scope Z_scope.

(* ===================================================================== *)
(** * Python builtins *)
(* ===================================================================== *)

Module Py.

(** ** Exceptions *)

(** The exception classes the sources can meet.  [CancelledError],
    [KeyboardInterrupt] and [SystemExit] derive from [BaseException]
    only; every other class derives from [Exception]. *)
Inductive exc_class :=
| ValueError | KeyError | TypeError | AttributeError | IndexError
| RuntimeError | OverflowError
| HTTPException (status_code : Z)
| OtherException (class_name : string)
| CancelledError | KeyboardInterrupt | SystemExit.

Record exn := Exn { exn_class : exc_class; exn_str : string }.

(** [isinstance(e, Exception)] *)
Definition is_Exception (e : exn) : bool :=
  match exn_class e with
  | CancelledError | KeyboardInterrupt | SystemExit => false
  | _ => true
  end.

Definition is_AttributeError (e : exn) : bool :=
  match exn_class e with AttributeError => true | _ => false end.

Definition is_ValueError (e : exn) : bool :=
  match exn_class e with ValueError => true | _ => false end.

Inductive result (A : Type) :=
| Ok (a : A)
| Raise (e : exn).
Arguments Ok {A} a.
Arguments Raise {A} e.

#[export] Instance result_ret : MRet result := @Ok.
#[export] Instance result_bind : MBind result :=
  fun A B k r => match r with Ok a => k a | Raise e => Raise e end.

(** ** Programs: state, trace of outgoing calls, exceptions *)

Section Prog.
Context {S E : Type}.

Definition prog (A : Type) : Type := S -> S * list E * result A.

Definition ret {A} (a : A) : prog A := fun s => (s, [], Ok a).
Definition raise {A} (e : exn) : prog A := fun s => (s, [], Raise e).
Definition lift {A} (r : result A) : prog A := fun s => (s, [], r).
Definition emit (ev : E) : prog unit := fun s => (s, [ev], Ok tt).
Definition get : prog S := fun s => (s, [], Ok s).
Definition put (s' : S) : prog unit := fun _ => (s', [], Ok tt).

Definition bind {A B} (m : prog A) (k : A -> prog B) : prog B :=
  fun s =>
    match m s with
    | (s1, t1, Ok a) =>
        match k a s1 with (s2, t2, r) => (s2, t1 ++ t2, r) end
    | (s1, t1, Raise e) => (s1, t1, Raise e)
    end.

(** [try: m  except Exception as e: h e] *)
Definition try_except {A} (m : prog A) (h : exn -> prog A) : prog A :=
  fun s =>
    match m s with
    | (s1, t1, Raise e) =>
        if is_Exception e
        then match h e s1 with (s2, t2, r) => (s2, t1 ++ t2, r) end
        else (s1, t1, Raise e)
    | done => done
    end.

(** [try: m  except ValueError: h] *)
Definition try_except_ValueError {A} (m : prog A) (h : prog A) : prog A :=
  fun s =>
    match m s with
    | (s1, t1, Raise e) =>
        if is_ValueError e
        then match h s1 with (s2, t2, r) => (s2, t1 ++ t2, r) end
        else (s1, t1, Raise e)
    | done => done
    end.
End Prog.

Arguments prog : clear implicits.

#[global] Typeclasses Opaque prog.
#[export] Instance prog_ret {S E} : MRet (prog S E) := @ret S E.
#[export] Instance prog_bind {S E} : MBind (prog S E) := fun A B k m => bind m k.

(** Unfolds the monad of programs so that a run can be computed. *)
Ltac run_prog :=
  unfold mbind, mret, prog_bind, prog_ret, result_bind, result_ret,
         bind, ret, lift, raise, emit, get, put,
         try_except, try_except_ValueError in *.

(** ** str methods (ASCII) *)

(** [c.isspace()] on ASCII: TAB, LF, VT, FF, CR, FS, GS, RS, US, SPACE. *)
Definition isspace (c : ascii) : bool :=
  let n := nat_of_ascii c in
  ((9 <=? n)%nat && (n <=? 13)%nat) || ((28 <=? n)%nat && (n <=? 32)%nat).

Fixpoint lstrip (s : string) : string :=
  match s with
  | String c s' => if isspace c then lstrip s' else s
  | EmptyString => EmptyString
  end.

Fixpoint rstrip (s : string) : string :=
  match s with
  | EmptyString => EmptyString
  | String c s' =>
      match rstrip s' with
      | EmptyString => if isspace c then EmptyString else String c EmptyString
      | r => String c r
      end
  end.

(** [s.strip()] *)
Definition strip (s : string) : string := rstrip (lstrip s).

(** [s.split(sep)] for a one-character separator: never empty. *)
Fixpoint split (sep : ascii) (s : string) : list string :=
  match s with
  | EmptyString => [EmptyString]
  | String c s' =>
      if Ascii.eqb c sep then EmptyString :: split sep s'
      else match split sep s' with
           | p :: ps => String c p :: ps
           | [] => [String c EmptyString]
           end
  end.

(** [s.split(sep, 1)]: cut at the first separator only. *)
Fixpoint split1 (sep : ascii) (s : string) : list string :=
  match s with
  | EmptyString => [EmptyString]
  | String c s' =>
      if Ascii.eqb c sep then [EmptyString; s']
      else match split1 sep s' with
           | p :: ps => String c p :: ps
           | [] => [String c EmptyString]
           end
  end.

(** [s.split()]: the maximal runs of non-blank characters. *)
Fixpoint split_ws (s : string) : list string :=
  match s with
  | EmptyString => []
  | String c s' =>
      if isspace c then split_ws s'
      else match s' with
           | EmptyString => [String c EmptyString]
           | String c' _ =>
               if isspace c' then String c EmptyString :: split_ws s'
               else match split_ws s' with
                    | w :: ws => String c w :: ws
                    | [] => [String c EmptyString]
                    end
           end
  end.

Definition lower_char (c : ascii) : ascii :=
  let n := nat_of_ascii c in
  if ((65 <=? n)%nat && (n <=? 90)%nat) then ascii_of_nat (n + 32) else c.

Definition upper_char (c : ascii) : ascii :=
  let n := nat_of_ascii c in
  if ((97 <=? n)%nat && (n <=? 122)%nat) then ascii_of_nat (n - 32) else c.

Fixpoint map_chars (f : ascii -> ascii) (s : string) : string :=
  match s with
  | EmptyString => EmptyString
  | String c s' => String (f c) (map_chars f s')
  end.

Definition lower : string -> string := map_chars lower_char.
Definition upper : string -> string := map_chars upper_char.

(** [s.startswith(p)] *)
Definition startswith (s p : string) : bool := String.prefix p s.

(** [s.endswith(p)] *)
Definition endswith (s p : string) : bool :=
  (String.length p <=? String.length s)%nat
  && String.eqb (substring (String.length s - String.length p) (String.length p) s) p.

(** [sub in s] *)
Fixpoint contains (sub s : string) : bool :=
  String.prefix sub s
  || match s with
     | EmptyString => false
     | String _ s' => contains sub s'
     end.

(** [sep.join(l)] *)
Definition join (sep : string) (l : list string) : string := String.concat sep l.

(** [s.replace(c, empty)] for a one-character pattern. *)
Fixpoint remove_char (c : ascii) (s : string) : string :=
  match s with
  | EmptyString => EmptyString
  | String d s' => if Ascii.eqb d c then remove_char c s' else String d (remove_char c s')
  end.

(** [x in l] for a list of strings. *)
Definition mem (x : string) (l : list string) : bool := existsb (String.eqb x) l.

(** [str(n)] for a natural number and for an integer. *)
Definition str_of_nat (n : nat) : string := NilEmpty.string_of_uint (Nat.to_uint n).
Definition str_of_Z (z : Z) : string :=
  match z with
  | Zneg p => "-" +:+ str_of_nat (Pos.to_nat p)
  | _ => str_of_nat (Z.to_nat z)
  end.

(** ** int(str) *)

Definition digit_val (c : ascii) : option Z :=
  let n := nat_of_ascii c in
  if ((48 <=? n)%nat && (n <=? 57)%nat) then Some (Z.of_nat (n - 48)) else None.

(** Digits, where a single underscore may separate two digits. *)
Fixpoint digits (acc : Z) (after_digit : bool) (s : string) : option Z :=
  match s with
  | EmptyString => if after_digit then Some acc else None
  | String c s' =>
      match digit_val c with
      | Some d => digits (10 * acc + d) true s'
      | None => if Ascii.eqb c "_" && after_digit then digits acc false s' else None
      end
  end.

Definition int_of_str (s : string) : option Z :=
  match strip s with
  | String "-" r => option_map Z.opp (digits 0 false r)
  | String "+" r => digits 0 false r
  | r => digits 0 false r
  end.

(** [int(s)]: [ValueError] on a malformed literal. *)
Definition int (s : string) : result Z :=
  match int_of_str s with
  | Some z => Ok z
  | None => Raise (Exn ValueError ("invalid literal for int() with base 10: '" +:+ s +:+ "'"))
  end.

(** ** Sequences and dicts *)

(** The line feed, and [sep.join] with it. *)
Definition nl : string := String (ascii_of_nat 10) EmptyString.
Definition lines (l : list string) : string := join nl l.

(** [l[a:b]], negative indices counting from the end. *)
Definition slice {A} (l : list A) (a b : Z) : list A :=
  let n := Z.of_nat (length l) in
  let clip i := if i <? 0 then Z.max 0 (i + n) else Z.min i n in
  List.firstn (Z.to_nat (clip b - clip a)) (List.skipn (Z.to_nat (clip a)) l).

(** [l[i]] for [i >= 0] *)
Definition nth_item {A} (l : list A) (i : nat) : result A :=
  match List.nth_error l i with
  | Some x => Ok x
  | None => Raise (Exn IndexError "list index out of range")
  end.

(** [d[key]] for an entry that may be missing *)
Definition item {A} (entry : option A) (key : string) : result A :=
  match entry with
  | Some v => Ok v
  | None => Raise (Exn KeyError ("'" +:+ key +:+ "'"))
  end.

(** ** Dynamically typed values (parsed JSON) *)

#[warnings="-register-all"]
Inductive pyval :=
| VNone
| VBool (b : bool)
| VInt (z : Z)
| VFloat (x : Q)
| VStr (s : string)
| VList (l : list pyval)
| VDict (m : gmap string pyval).

(** [v.get(k)] and [v.get(k, d)]: only a dict has the method. *)
Definition dict_get (v : pyval) (k : string) (d : pyval) : result pyval :=
  match v with
  | VDict m => Ok (default d (m !! k))
  | _ => Raise (Exn AttributeError "object has no attribute 'get'")
  end.

(** [v == s] for a string literal [s]. *)
Definition eq_str (v : pyval) (s : string) : bool :=
  match v with
  | VStr t => String.eqb t s
  | _ => false
  end.

End Py.

Import Py.

(* ===================================================================== *)
(** * main.py: the Slack events endpoint *)
(* ===================================================================== *)

Module Webhook.

(** What the handler reads of the inbound POST: the raw body, the outcome
    of [request.json()], and the two Slack headers ([None] when absent). *)
Record request := {
  body_bytes : string;
  json : result pyval;
  x_slack_signature : option string;
  x_slack_request_timestamp : option string
}.

(** Outgoing calls of the handler, in the order they are made. *)
Inductive call :=
| verifier_is_valid (body timestamp : string) (signature : option string)
| background_tasks_add_task (event : pyval).

(** What FastAPI sends back: the returned dict with status 200, the
    status and detail of a raised [HTTPException], or 500 for any other
    exception. *)
Inductive response :=
| JSONResponse (content : gmap string pyval)
| HTTPError (status : Z) (detail : string)
| InternalServerError.

Definition status_code (r : response) : Z :=
  match r with
  | JSONResponse _ => 200
  | HTTPError c _ => c
  | InternalServerError => 500
  end.

Section Endpoint.
(** [verifier.is_valid(body=..., timestamp=..., signature=...)] *)
Variable is_valid : string -> string -> option string -> bool.
(** [time.time()], in seconds; the float is read as the rational it denotes *)
Variable now : Q.

(** [abs(time.time() - int(ts)) > 60 * 5] *)
Definition too_old (ts : Z) : bool :=
  negb (Qle_bool (Qabs (now - inject_Z ts)) (inject_Z (60 * 5))).

Definition slack_events (req : request) : prog unit call (gmap string pyval) :=
  payload ← lift (json req);
  ty ← lift (dict_get payload "type" VNone);
  if eq_str ty "url_verification" then
    challenge ← lift (dict_get payload "challenge" VNone);
    mret {[ "challenge" := challenge ]}
  else
    match x_slack_request_timestamp req with
    | None => raise (Exn (HTTPException 400) "Invalid timestamp")
    | Some ts =>
        t ← lift (int ts);
        if too_old t then raise (Exn (HTTPException 400) "Invalid timestamp")
        else
          _ ← emit (verifier_is_valid (body_bytes req) ts (x_slack_signature req));
          if negb (is_valid (body_bytes req) ts (x_slack_signature req))
          then raise (Exn (HTTPException 400) "Invalid Slack signature")
          else
            event ← lift (dict_get payload "event" (VDict ∅));
            ety ← lift (dict_get event "type" VNone);
            _ ← (if eq_str ety "app_mention"
                 then emit (background_tasks_add_task event)
                 else mret tt);
            mret {[ "ok" := VBool true ]}
    end.

(** The framework around the handler. *)
Definition respond (r : result (gmap string pyval)) : response :=
  match r with
  | Ok content => JSONResponse content
  | Raise (Exn (HTTPException c) detail) => HTTPError c detail
  | Raise _ => InternalServerError
  end.

(** POST /slack/events: the calls made and the response sent. *)
Definition post_slack_events (req : request) : list call * response :=
  match slack_events req tt with
  | (_, calls, r) => (calls, respond r)
  end.


End Endpoint.

Definition handshake : request :=
  {| body_bytes := "{...}";
     json := Ok (VDict {[ "type" := VStr "url_verification"; "challenge" := VStr "3eZbrw1aB" ]});
     x_slack_signature := None;
     x_slack_request_timestamp := None |}.

Definition mention (ts : string) : request :=
  {| body_bytes := "{...}";
     json := Ok (VDict {[ "type" := VStr "event_callback";
                          "event" := VDict {[ "type" := VStr "app_mention"; "text" := VStr "hi" ]} ]});
     x_slack_signature := Some "v0=abc";
     x_slack_request_timestamp := Some ts |}.

End Webhook.


(* ===================================================================== *)
(** * src/agents.py: agent factory and orchestrator *)
(* ===================================================================== *)

Module Orchestrator.

(** ** Objects coming back from the agent framework *)

(** A Python object as far as [process_request] can tell objects apart:
    [None], a [str], or any other object, known by its truth value and by
    its [str()]. *)
Inductive pyobj :=
| PNone
| PStr (s : string)
| PObj (truth : bool) (repr : string).

(** [bool(o)] *)
Definition truthy (o : pyobj) : bool :=
  match o with
  | PNone => false
  | PStr s => negb (String.eqb s EmptyString)
  | PObj t _ => t
  end.

(** [o is None] *)
Definition is_None (o : pyobj) : bool :=
  match o with PNone => true | _ => false end.

(** [str(o)], as an f-string renders it *)
Definition str (o : pyobj) : string :=
  match o with
  | PNone => "None"
  | PStr s => s
  | PObj _ r => r
  end.

(** Reading an attribute yields a value or, for a property, may raise. *)
Inductive attr :=
| Value (v : pyobj)
| Raises (e : exn).

(** A message record of the collaboration result: its attributes, its
    [__class__.__name__] and its [str()]. *)
Record message := {
  attrs : gmap string attr;
  class_name : string;
  msg_str : string
}.

(** [getattr(msg, name)] *)
Definition getattr (msg : message) (name : string) : result pyobj :=
  match attrs msg !! name with
  | Some (Value v) => Ok v
  | Some (Raises e) => Raise e
  | None => Raise (Exn AttributeError
                     ("'" +:+ class_name msg +:+ "' object has no attribute '" +:+ name +:+ "'"))
  end.

(** [hasattr(msg, name)]: only [AttributeError] means "no". *)
Definition hasattr (msg : message) (name : string) : result bool :=
  match getattr msg name with
  | Ok _ => Ok true
  | Raise e => if is_AttributeError e then Ok false else Raise e
  end.

(** [getattr(msg, name, default)] *)
Definition getattr_default (msg : message) (name : string) (d : pyobj) : result pyobj :=
  match getattr msg name with
  | Ok v => Ok v
  | Raise e => if is_AttributeError e then Ok d else Raise e
  end.

(** The [messages] attribute of a run's result, when it has one. *)
Inductive messages_value :=
| MessagesNone
| MessagesList (l : list message).

Record chat_result := { messages : option messages_value }.

(** ** Agents *)

Definition tool := string.

Record agent := {
  name : string;
  description : string;
  tools : list tool;
  system_message : string;
  reflect_on_tool_use : bool
}.

Inductive level := INFO | WARNING | ERROR.
Definition log_record : Type := level * string.

(** The collaborators of this module: the four tool providers (the whole
    guarded block of each factory function), the local time zone lookup,
    the agent constructor's validation, and the group chat. *)
Record world := {
  gmail_tools : result (list tool);
  weather_tools : result (list tool);
  calendar_tools : result (list tool);
  search_tools : result (list tool);
  get_timezone : result string;
  agent_rejected : agent -> option exn;
  team_rejected : option (list agent) -> string -> option exn;
  team_run : option (list agent) -> string -> string -> result chat_result
}.

Record orchestrator := {
  email_agent : option agent;
  weather_agent : option agent;
  calendar_agent : option agent;
  search_agent : option agent;
  agent_list : option (list agent);
  conversation_context : list (string * string);
  _agents_initialized : bool
}.

(** [PersonalAssistantOrchestrator.__init__] *)
Definition __init__ : orchestrator :=
  {| email_agent := None; weather_agent := None; calendar_agent := None;
     search_agent := None; agent_list := None; conversation_context := [];
     _agents_initialized := false |}.

Section Agents.
(** The prompt templates of src/prompts.py.  None of them contains a
    replacement field, so [.format(timezone=...)] returns them unchanged. *)
Variables email_system_prompt weather_system_prompt calendar_system_prompt
          search_system_prompt final_answer_prompt : string.
Variable w : world.
Context {S : Type}.

Definition logger_info (msg : string) : prog S log_record unit := emit (INFO, msg).
Definition logger_warning (msg : string) : prog S log_record unit := emit (WARNING, msg).
Definition logger_error (msg : string) : prog S log_record unit := emit (ERROR, msg).

(** [AssistantAgent(name=..., description=..., tools=..., ...)] *)
Definition AssistantAgent (a : agent) : result agent :=
  match agent_rejected w a with
  | None => Ok a
  | Some e => Raise e
  end.

(** The common shape of the four factory functions: a guarded tool
    construction that degrades to no tools, then the agent itself. *)
Definition create_agent (label : string) (provider : result (list tool))
    (agent_name agent_description prompt : string) : prog S log_record agent :=
  agent_tools ← try_except
    (ts ← lift provider;
     _ ← logger_info (label +:+ " tools created: " +:+ str_of_nat (length ts));
     mret ts)
    (fun e =>
       _ ← logger_warning (label +:+ " tools creation failed: " +:+ exn_str e);
       mret []);
  _ ← lift (get_timezone w);
  lift (AssistantAgent {| name := agent_name;
                          description := agent_description;
                          tools := agent_tools;
                          system_message := prompt;
                          reflect_on_tool_use := true |}).

Definition create_email_agent : prog S log_record agent :=
  create_agent "Email" (gmail_tools w) "EmailAssistant"
    "An AI assistant that helps you manage your email efficiently. Handles Gmail tasks: read, search, draft or send emails. Only pick me when the user explicitly wants email help."
    email_system_prompt.

Definition create_weather_agent : prog S log_record agent :=
  create_agent "Weather" (weather_tools w) "WeatherAssistant"
    "An AI assistant that helps you get weather information. Answers questions about current weather, rain probability, or forecasts for any city. Pick me for queries like weather in Mumbai or will it rain tomorrow?"
    weather_system_prompt.

Definition create_calendar_agent : prog S log_record agent :=
  create_agent "Calendar" (calendar_tools w) "CalendarAssistant"
    "An AI assistant that helps you manage your calendar efficiently. Manages calendar events or availability. Use me for scheduling, moving, or listing meetings"
    calendar_system_prompt.

Definition create_search_agent : prog S log_record agent :=
  create_agent "Search" (search_tools w) "SearchAssistant"
    "An AI assistant that helps you find information on the web. Handles web searches, news searches, and research queries. Use me for finding current information, news, research, or any web-based queries."
    search_system_prompt.

(** Runs [m] to its end and hands back its outcome instead of raising. *)
Definition settle {A} (m : prog S log_record A) : prog S log_record (result A) :=
  fun s => match m s with (s', t, r) => (s', t, Ok r) end.

(** [await asyncio.gather(a, b, c, d)]: every awaitable runs; the four
    results are returned in argument order, or the exception of a failed
    one is raised (taken here in argument order). *)
Definition gather {A} (a b c d : prog S log_record A)
    : prog S log_record (A * A * A * A) :=
  ra ← settle a; rb ← settle b; rc ← settle c; rd ← settle d;
  match ra, rb, rc, rd with
  | Ok x, Ok y, Ok z, Ok u => mret (x, y, z, u)
  | Raise e, _, _, _ => raise e
  | _, Raise e, _, _ => raise e
  | _, _, Raise e, _ => raise e
  | _, _, _, Raise e => raise e
  end.
End Agents.

Section Requests.
Variables email_system_prompt weather_system_prompt calendar_system_prompt
          search_system_prompt final_answer_prompt : string.
Variable w : world.

#[local] Abbreviation program := (prog orchestrator log_record).

Definition _initialize_agents : program unit :=
  self ← get;
  if _agents_initialized self then mret tt
  else
    _ ← logger_info "Initializing agents with async tools";
    '(e, wa, c, s) ← gather (create_email_agent email_system_prompt w)
                            (create_weather_agent weather_system_prompt w)
                            (create_calendar_agent calendar_system_prompt w)
                            (create_search_agent search_system_prompt w);
    self ← get;
    _ ← put {| email_agent := Some e; weather_agent := Some wa;
               calendar_agent := Some c; search_agent := Some s;
               agent_list := agent_list self;
               conversation_context := conversation_context self;
               _agents_initialized := _agents_initialized self |};
    self ← get;
    _ ← put {| email_agent := email_agent self; weather_agent := weather_agent self;
               calendar_agent := calendar_agent self; search_agent := search_agent self;
               agent_list := Some [e; wa; c; s];
               conversation_context := conversation_context self;
               _agents_initialized := _agents_initialized self |};
    self ← get;
    _ ← put {| email_agent := email_agent self; weather_agent := weather_agent self;
               calendar_agent := calendar_agent self; search_agent := search_agent self;
               agent_list := agent_list self;
               conversation_context := conversation_context self;
               _agents_initialized := true |};
    self ← get;
    logger_info ("Initialized " +:+ str_of_nat (length (default [] (agent_list self)))
                 +:+ " agents successfully").

(** The loop over [("sender", "author", "agent", "role")], and the one
    over [("text", "message", "body")]: the first attribute that exists
    and is not [None], else [None]. *)
Fixpoint first_attr (names : list string) (msg : message) : program pyobj :=
  match names with
  | [] => mret PNone
  | attr_name :: rest =>
      has ← lift (hasattr msg attr_name);
      if (has : bool) then
        val ← try_except (lift (getattr msg attr_name)) (fun _ => mret PNone);
        if is_None val then first_attr rest msg else mret val
      else first_attr rest msg
  end.

Definition agent_name_of (msg : message) : program pyobj :=
  has ← lift (hasattr msg "src");
  if (has : bool) then lift (getattr msg "src")
  else
    agent_name ← first_attr ["sender"; "author"; "agent"; "role"] msg;
    if is_None agent_name then mret (PStr (class_name msg)) else mret agent_name.

Definition content_of (msg : message) : program pyobj :=
  has ← lift (hasattr msg "content");
  content ← (if (has : bool)
             then try_except (lift (getattr msg "content")) (fun _ => mret PNone)
             else mret PNone);
  content ← (if is_None content then first_attr ["text"; "message"; "body"] msg
             else mret content);
  if is_None content then mret (PStr (msg_str msg)) else mret content.

(** [for idx, msg in enumerate(resp_messages): ...] *)
Fixpoint log_steps (idx : nat) (msgs : list message) : program unit :=
  match msgs with
  | [] => mret tt
  | msg :: rest =>
      agent_name ← agent_name_of msg;
      content ← content_of msg;
      _ ← logger_info ("[Step " +:+ str_of_nat (idx + 1) +:+ "] "
                       +:+ str agent_name +:+ ": " +:+ str content);
      log_steps (idx + 1) rest
  end.

(** [a or b] *)
Definition or_else (a b : pyobj) : pyobj := if truthy a then a else b.

(** Lines 199-251: what is made of the run's result. *)
Definition final_response (result : chat_result) : program pyobj :=
  let resp_messages := default MessagesNone (messages result) in
  match resp_messages with
  | MessagesNone | MessagesList [] =>
      _ ← logger_warning "No messages returned from agents";
      mret (PStr "No response generated")
  | MessagesList msgs =>
      _ ← logger_info "Agent Thought Process";
      _ ← log_steps 0 msgs;
      final_msg ← match last msgs with
                  | Some m => mret m
                  | None => raise (Exn IndexError "list index out of range")
                  end;
      content ← lift (getattr_default final_msg "content" PNone);
      let final_content := or_else content (PStr (msg_str final_msg)) in
      _ ← logger_info ("Final response: " +:+ str final_content);
      mret final_content
  end.

(** The body of the [try] statement of [process_request]. *)
Definition try_block (user_input : string) : program pyobj :=
  _ ← logger_info "Starting new request";
  _ ← logger_info ("User input: " +:+ user_input);
  _ ← _initialize_agents;
  self ← get;
  _ ← lift (match team_rejected w (agent_list self) final_answer_prompt with
            | None => Ok tt
            | Some e => Raise e
            end);
  _ ← logger_info "Running multi-agent collaboration";
  result ← lift (team_run w (agent_list self) final_answer_prompt user_input);
  final_response result.

Definition process_request (user_input : string) : program pyobj :=
  try_except (try_block user_input)
    (fun e =>
       _ ← logger_error ("Error during request: " +:+ exn_str e);
       mret (PStr ("Error: " +:+ exn_str e))).

(** The outcome of a call, and the state it leaves. *)
Definition outcome {A} (r : orchestrator * list log_record * result A) : result A := snd r.
Definition state_after {A} (r : orchestrator * list log_record * result A) : orchestrator :=
  fst (fst r).
End Requests.

(** What a factory function yields; it neither reads nor writes the
    orchestrator, so it is run here without one. *)
Definition constructed (m : prog unit log_record agent) : result agent := snd (m tt).
Definition construction_log (m : prog unit log_record agent) : list log_record := snd (fst (m tt)).

(** The four agents, when every construction completes. *)
Definition all_constructed (email_system_prompt weather_system_prompt
    calendar_system_prompt search_system_prompt : string) (w : world)
    : option (agent * agent * agent * agent) :=
  match constructed (create_email_agent email_system_prompt w),
        constructed (create_weather_agent weather_system_prompt w),
        constructed (create_calendar_agent calendar_system_prompt w),
        constructed (create_search_agent search_system_prompt w) with
  | Ok e, Ok wa, Ok c, Ok s => Some (e, wa, c, s)
  | _, _, _, _ => None
  end.

(** Successive calls of [_initialize_agents] on one orchestrator, each in
    its own state of the world; [true] marks a call that built the agent
    list (the flag went from unset to set). *)
Section Calls.
Variables email_system_prompt weather_system_prompt calendar_system_prompt
          search_system_prompt : string.

Definition init_in (w : world) (self : orchestrator) :=
  _initialize_agents email_system_prompt weather_system_prompt calendar_system_prompt
    search_system_prompt w self.

Fixpoint builds (ws : list world) (self : orchestrator) : list bool :=
  match ws with
  | [] => []
  | w :: rest =>
      let self' := state_after (init_in w self) in
      (negb (_agents_initialized self) && _agents_initialized self') :: builds rest self'
  end.
End Calls.

(** How many of the calls built the agent list. *)
Definition number_of_builds (ep wp cp sp : string) (ws : list world) (self : orchestrator) : nat :=
  length (List.filter (fun b : bool => b) (builds ep wp cp sp ws self)).


(** A message none of whose attributes raises when read. *)
Definition plain (msg : message) : Prop :=
  forall a e, attrs msg !! a <> Some (Raises e).

(** A program that raises nothing but exceptions deriving from
    [Exception], and a result, a message and a world of which the same
    holds. *)
Definition contained {A : Type} (m : prog orchestrator log_record A) : Prop :=
  forall s e, snd (m s) = Raise e -> is_Exception e = true.

Definition benign_result {A : Type} (r : result A) : Prop :=
  forall e, r = Raise e -> is_Exception e = true.

Definition benign_message (msg : message) : Prop :=
  forall a e, attrs msg !! a = Some (Raises e) -> is_Exception e = true.

Definition benign_chat (r : chat_result) : Prop :=
  match messages r with
  | Some (MessagesList msgs) => Forall benign_message msgs
  | _ => True
  end.

Record benign (w : world) : Prop := {
  benign_gmail : benign_result (gmail_tools w);
  benign_weather : benign_result (weather_tools w);
  benign_calendar : benign_result (calendar_tools w);
  benign_search : benign_result (search_tools w);
  benign_timezone : benign_result (get_timezone w);
  benign_agent : forall a e, agent_rejected w a = Some e -> is_Exception e = true;
  benign_team : forall l p e, team_rejected w l p = Some e -> is_Exception e = true;
  benign_run : forall l p t, benign_result (team_run w l p t);
  benign_messages : forall l p t r, team_run w l p t = Ok r -> benign_chat r
}.

(** ** Sample worlds *)

Definition text_message (source content : string) : message :=
  {| attrs := {[ "src" := Value (PStr source); "content" := Value (PStr content) ]};
     class_name := "TextMessage";
     msg_str := "source='" +:+ source +:+ "' content='" +:+ content +:+ "'" |}.

Definition calm : world :=
  {| gmail_tools := Raise (Exn (OtherException "FileNotFoundError") "credentials.json");
     weather_tools := Ok ["get_current_weather"; "check_rain_probability"];
     calendar_tools := Ok ["list_events"];
     search_tools := Ok ["web_search"];
     get_timezone := Ok "Asia/Kolkata";
     agent_rejected := fun _ => None;
     team_rejected := fun _ _ => None;
     team_run := fun _ _ task =>
       Ok {| messages := Some (MessagesList [text_message "user" task;
                                             text_message "WeatherAssistant" "Sunny."]) |} |}.

(** The task running the request is cancelled while it awaits the run. *)
Definition cancelled : world :=
  {| gmail_tools := gmail_tools calm; weather_tools := weather_tools calm;
     calendar_tools := calendar_tools calm; search_tools := search_tools calm;
     get_timezone := get_timezone calm; agent_rejected := agent_rejected calm;
     team_rejected := team_rejected calm;
     team_run := fun _ _ _ => Raise (Exn CancelledError EmptyString) |}.

(** The model endpoint refuses the key. *)
Definition unauthorized : world :=
  {| gmail_tools := gmail_tools calm; weather_tools := weather_tools calm;
     calendar_tools := calendar_tools calm; search_tools := search_tools calm;
     get_timezone := get_timezone calm; agent_rejected := agent_rejected calm;
     team_rejected := team_rejected calm;
     team_run := fun _ _ _ => Raise (Exn (OtherException "AuthenticationError") "Incorrect API key") |}.

(** The search agent cannot be constructed. *)
Definition broken_search : world :=
  {| gmail_tools := gmail_tools calm; weather_tools := weather_tools calm;
     calendar_tools := calendar_tools calm; search_tools := search_tools calm;
     get_timezone := get_timezone calm;
     agent_rejected := fun a => if String.eqb (name a) "SearchAssistant"
                                then Some (Exn ValueError "Tool names must be unique")
                                else None;
     team_rejected := team_rejected calm;
     team_run := team_run calm |}.

(** The last message is a multi-modal one: its content is a list. *)
Definition multimodal : world :=
  {| gmail_tools := gmail_tools calm; weather_tools := weather_tools calm;
     calendar_tools := calendar_tools calm; search_tools := search_tools calm;
     get_timezone := get_timezone calm; agent_rejected := agent_rejected calm;
     team_rejected := team_rejected calm;
     team_run := fun _ _ task =>
       Ok {| messages := Some (MessagesList
               [text_message "user" task;
                {| attrs := {[ "src" := Value (PStr "SearchAssistant");
                               "content" := Value (PObj true "['Here it is', <Image>]") ]};
                   class_name := "MultiModalMessage";
                   msg_str := "source='SearchAssistant' content=['Here it is', <Image>]" |}]) |} |}.

(** A message whose [content] property raises when read. *)
Definition faulty_message : world :=
  {| gmail_tools := gmail_tools calm; weather_tools := weather_tools calm;
     calendar_tools := calendar_tools calm; search_tools := search_tools calm;
     get_timezone := get_timezone calm; agent_rejected := agent_rejected calm;
     team_rejected := team_rejected calm;
     team_run := fun _ _ task =>
       Ok {| messages := Some (MessagesList
               [{| attrs := {[ "src" := Value (PStr "user");
                               "content" := Raises (Exn ValueError "content is not available") ]};
                   class_name := "LazyMessage";
                   msg_str := "<LazyMessage>" |}]) |} |}.

(** The run ends with a message whose content is empty. *)
Definition empty_content : world :=
  {| gmail_tools := gmail_tools calm; weather_tools := weather_tools calm;
     calendar_tools := calendar_tools calm; search_tools := search_tools calm;
     get_timezone := get_timezone calm; agent_rejected := agent_rejected calm;
     team_rejected := team_rejected calm;
     team_run := fun _ _ task =>
       Ok {| messages := Some (MessagesList [text_message "user" task;
                                             text_message "SearchAssistant" EmptyString]) |} |}.

End Orchestrator.
(* ===================================================================== *)
(** * src/tools/weather.py *)
(* ===================================================================== *)

Module Weather.

(** [str(p)] for a probability that may be null in the forecast *)
Definition str_of_prob (p : option Z) : string :=
  match p with
  | Some z => str_of_Z z
  | None => "None"
  end.

Definition WEATHER_CODE_DESC : gmap Z string :=
  list_to_map
    [(0, "Clear sky"); (1, "Mainly clear"); (2, "Partly cloudy"); (3, "Overcast");
     (45, "Fog"); (48, "Depositing rime fog"); (51, "Light drizzle"); (53, "Moderate drizzle");
     (55, "Dense drizzle"); (61, "Slight rain"); (63, "Moderate rain"); (65, "Heavy rain");
     (66, "Light freezing rain"); (67, "Heavy freezing rain"); (71, "Slight snow fall");
     (73, "Moderate snow fall"); (75, "Heavy snow fall"); (77, "Snow grains");
     (80, "Slight rain showers"); (81, "Moderate rain showers"); (82, "Violent rain showers");
     (85, "Slight snow showers"); (86, "Heavy snow showers"); (95, "Thunderstorm");
     (96, "Thunderstorm with slight hail"); (99, "Thunderstorm with heavy hail")].

(** The time period of [check_rain_probability] as an hour-index window
    [(start_idx, end_idx, period_name)], for [n] hourly entries and the
    local hour [current_hour]. *)
Definition rain_window (n current_hour : Z) (time_period : string) : Z * Z * string :=
  let period := lower time_period in
  if mem period ["this_evening"; "evening"] then
    (Z.max 0 (18 - current_hour), Z.min n (22 - current_hour + 1), "this evening")
  else if String.eqb period "tonight" then
    (Z.max 0 (22 - current_hour), Z.min n (30 - current_hour + 1), "tonight")
  else if String.eqb period "tomorrow" then
    (24 - current_hour, Z.min n (48 - current_hour), "tomorrow")
  else
    (0, Z.min n (24 - current_hour), "today").

(** The closing line of the rain report. *)
Definition rain_label (max_prob : Z) : string :=
  if 70 <=? max_prob then "• Rain is very likely"
  else if 50 <=? max_prob then "• Rain is likely"
  else if 30 <=? max_prob then "• Rain is possible"
  else "• Rain is unlikely".

(** [max(l)] for a non-empty list of probabilities; comparing with a
    null entry raises. *)
Definition max_of (l : list (option Z)) : result (option Z) :=
  match l with
  | [] => Raise (Exn ValueError "max() arg is an empty sequence")
  | [x] => Ok x
  | x :: rest =>
      match x, mapM (fun y : option Z => y) rest with
      | Some z, Some zs => Ok (Some (fold_left Z.max zs z))
      | _, _ => Raise (Exn TypeError "'>' not supported between instances of 'int' and 'NoneType'")
      end
  end.


(** [l.index(x)], for an [x] that occurs in [l] *)
Fixpoint index_of (x : option Z) (l : list (option Z)) : nat :=
  match l with
  | [] => 0
  | y :: rest => if decide (x = y) then 0%nat else S (index_of x rest)
  end.

Section Tools.
(** Python's floats and the operations the module applies to them:
    [float(s)] ([None] for a [ValueError]), [+], the conversion of an
    [int], [f"{x:.nf}"] and [str(x)]. *)
Context {float : Type}.
Variable float_of_str : string -> option float.
Variable float_add : float -> float -> float.
Variable float_of_int : Z -> float.
Variable format_f : nat -> float -> string.
Variable float_str : float -> string.
(** [datetime.fromisoformat(t).strftime(fmt)] as [strftime fmt t] *)
Variable strftime : string -> string -> result string.
(** [datetime.now().hour] *)
Variable current_hour : Z.

(** One entry of the geocoder's answer. *)
Record place := { lat : option string; lon : option string }.

Record current_block := {
  c_temperature : option float;
  c_windspeed : option float;
  c_weathercode : option Z;
  c_time : option string
}.

(** The hourly and daily blocks, column by column; a missing key is
    [None], and the empty dict has no column at all. *)
Record hourly_block := {
  h_time : option (list string);
  h_temperature_2m : option (list float);
  h_weathercode : option (list Z);
  h_precipitation_probability : option (list (option Z));
  h_precipitation : option (list (option float))
}.

Record daily_block := {
  d_time : option (list string);
  d_temperature_2m_max : option (list float);
  d_temperature_2m_min : option (list float);
  d_precipitation_sum : option (list float);
  d_weathercode : option (list Z)
}.

Definition no_hourly : hourly_block :=
  {| h_time := None; h_temperature_2m := None; h_weathercode := None;
     h_precipitation_probability := None; h_precipitation := None |}.

Definition no_daily : daily_block :=
  {| d_time := None; d_temperature_2m_max := None; d_temperature_2m_min := None;
     d_precipitation_sum := None; d_weathercode := None |}.

(** [not hourly] *)
Definition hourly_is_empty (h : hourly_block) : bool :=
  match h_time h, h_temperature_2m h, h_weathercode h,
        h_precipitation_probability h, h_precipitation h with
  | None, None, None, None, None => true
  | _, _, _, _, _ => false
  end.

(** The forecast provider's JSON answer. *)
Record forecast := {
  current_weather : option current_block;
  hourly : option hourly_block;
  daily : option daily_block
}.

(** The dict returned by [_get_weather_data]. *)
Record weather_data := {
  data_location : string;
  data_current : option current_block;
  data_hourly : hourly_block;
  data_daily : daily_block;
  data_coordinates : float * float
}.

(** The two REST collaborators: the answer to a geocoding query and to a
    forecast query, or the exception of the HTTP client. *)
Record services := {
  nominatim : string -> result (list place);
  open_meteo : float -> float -> result forecast
}.

Inductive call :=
| nominatim_get (q : string)
| open_meteo_get (latitude longitude : float).

Variable sv : services.

#[local] Abbreviation program := (prog unit call).

(** [float(s)] *)
Definition to_float (s : string) : result float :=
  match float_of_str s with
  | Some x => Ok x
  | None => Raise (Exn ValueError ("could not convert string to float: '" +:+ s +:+ "'"))
  end.

Definition _geocode (city : string) : program (float * float) :=
  try_except
    (_ ← emit (nominatim_get city);
     data ← lift (nominatim sv city);
     match data with
     | [] => raise (Exn ValueError ("Could not find location: " +:+ city))
     | first :: _ =>
         lat_s ← lift (item (lat first) "lat");
         lat_f ← lift (to_float lat_s);
         lon_s ← lift (item (lon first) "lon");
         lon_f ← lift (to_float lon_s);
         mret (lat_f, lon_f)
     end)
    (fun e => raise e).

Definition _get_weather_data (location : string) : program weather_data :=
  '(lat_f, lon_f, location_name) ← try_except
    (let parts := map strip (split "," location) in
     match parts with
     | [p1; p2] =>
         try_except_ValueError
           (lat_f ← lift (to_float p1);
            lon_f ← lift (to_float p2);
            mret (lat_f, lon_f, format_f 2 lat_f +:+ "," +:+ format_f 2 lon_f))
           ('(lat_f, lon_f) ← _geocode location;
            mret (lat_f, lon_f, location))
     | _ =>
         '(lat_f, lon_f) ← _geocode location;
         mret (lat_f, lon_f, location)
     end)
    (fun e => raise (Exn RuntimeError ("Location error: " +:+ exn_str e)));
  data ← try_except
    (_ ← emit (open_meteo_get lat_f lon_f);
     lift (open_meteo sv lat_f lon_f))
    (fun e => raise (Exn RuntimeError ("Weather API error: " +:+ exn_str e)));
  mret {| data_location := location_name;
          data_current := current_weather data;
          data_hourly := default no_hourly (hourly data);
          data_daily := default no_daily (daily data);
          data_coordinates := (lat_f, lon_f) |}.

(** [WEATHER_CODE_DESC.get(code, prefix + str(code))] *)
Definition describe (prefix : string) (code : Z) : string :=
  default (prefix +:+ str_of_Z code) (WEATHER_CODE_DESC !! code).

Fixpoint hourly_lines (times : list string) (temps : list float) (codes : list Z)
    (probs : list (option Z)) : result (list string) :=
  match times, temps, codes, probs with
  | t :: times', temp :: temps', code :: codes', prob :: probs' =>
      time_str ← strftime "%H:%M" t;
      rest ← hourly_lines times' temps' codes' probs';
      mret (("  " +:+ time_str +:+ ": " +:+ format_f 1 temp +:+ "°C, "
             +:+ describe "Code " code +:+ ", rain " +:+ str_of_prob prob +:+ "%") :: rest)
  | _, _, _, _ => mret []
  end.

Fixpoint daily_lines (i : nat) (dates : list string) (maxs mins precips : list float)
    (codes : list Z) : list string :=
  match dates, maxs, mins, precips, codes with
  | date :: dates', tmax :: maxs', tmin :: mins', precip :: precips', code :: codes' =>
      if (3 <=? i)%nat then []
      else ("  " +:+ date +:+ ": " +:+ format_f 0 tmin +:+ "-" +:+ format_f 0 tmax +:+ "°C, "
            +:+ describe "Code " code +:+ ", " +:+ format_f 1 precip +:+ "mm")
           :: daily_lines (S i) dates' maxs' mins' precips' codes'
  | _, _, _, _, _ => []
  end.

Definition _format_forecast (data : weather_data) (forecast_type : string) : result string :=
  if String.eqb forecast_type "hourly" then
    let hourly := data_hourly data in
    times ← item (h_time hourly) "time";
    temps ← item (h_temperature_2m hourly) "temperature_2m";
    codes ← item (h_weathercode hourly) "weathercode";
    precip_probs ← item (h_precipitation_probability hourly) "precipitation_probability";
    ls ← hourly_lines (slice times 0 12) (slice temps 0 12) (slice codes 0 12)
                      (slice precip_probs 0 12);
    mret ("Next 12 hours forecast for " +:+ data_location data +:+ ":" +:+ nl +:+ lines ls)
  else if String.eqb forecast_type "tomorrow" then
    let daily := data_daily data in
    dates ← item (d_time daily) "time";
    if (length dates <? 2)%nat
    then mret ("No tomorrow forecast available for " +:+ data_location data)
    else
      date ← nth_item dates 1;
      maxs ← item (d_temperature_2m_max daily) "temperature_2m_max";
      temp_max ← nth_item maxs 1;
      mins ← item (d_temperature_2m_min daily) "temperature_2m_min";
      temp_min ← nth_item mins 1;
      precips ← item (d_precipitation_sum daily) "precipitation_sum";
      precip ← nth_item precips 1;
      codes ← item (d_weathercode daily) "weathercode";
      code ← nth_item codes 1;
      mret ("Tomorrow's forecast for " +:+ data_location data +:+ " (" +:+ date +:+ "):" +:+ nl
            +:+ "• Temperature: " +:+ format_f 0 temp_min +:+ "°C to "
            +:+ format_f 0 temp_max +:+ "°C" +:+ nl
            +:+ "• Conditions: " +:+ describe "Code " code +:+ nl
            +:+ "• Precipitation: " +:+ format_f 1 precip +:+ "mm")
  else
    let daily := data_daily data in
    dates ← item (d_time daily) "time";
    maxs ← item (d_temperature_2m_max daily) "temperature_2m_max";
    mins ← item (d_temperature_2m_min daily) "temperature_2m_min";
    precips ← item (d_precipitation_sum daily) "precipitation_sum";
    codes ← item (d_weathercode daily) "weathercode";
    mret ("3-day forecast for " +:+ data_location data +:+ ":" +:+ nl
          +:+ lines (daily_lines 0 dates maxs mins precips codes)).

(** The part of [get_current_weather] that follows the data fetch. *)
Definition current_weather_text (location : string) (data : weather_data) : result string :=
  match data_current data with
  | None => mret ("No current weather data available for " +:+ location)
  | Some current =>
      temp_c ← item (c_temperature current) "temperature";
      wind_kmh ← item (c_windspeed current) "windspeed";
      code ← item (c_weathercode current) "weathercode";
      t ← item (c_time current) "time";
      timestamp ← strftime "%Y-%m-%d %H:%M UTC" t;
      mret ("Current weather for " +:+ data_location data +:+ " at " +:+ timestamp +:+ ": "
            +:+ float_str temp_c +:+ "°C, " +:+ describe "Weather code " code
            +:+ ", wind " +:+ float_str wind_kmh +:+ " km/h")
  end.

Definition get_current_weather (location : string) : program string :=
  try_except
    (data ← _get_weather_data location;
     lift (current_weather_text location data))
    (fun e => mret ("Error getting weather for " +:+ location +:+ ": " +:+ exn_str e)).

(** The part of [get_weather_forecast] that follows the data fetch. *)
Definition forecast_text (data : weather_data) (forecast_type : string) : result string :=
  if mem (lower forecast_type) ["today"; "hourly"] then _format_forecast data "hourly"
  else if String.eqb (lower forecast_type) "tomorrow" then _format_forecast data "tomorrow"
  else _format_forecast data "daily".

Definition get_weather_forecast (location forecast_type : string) : program string :=
  try_except
    (data ← _get_weather_data location;
     lift (forecast_text data forecast_type))
    (fun e => mret ("Error getting forecast for " +:+ location +:+ ": " +:+ exn_str e)).

(** [sum(l)]: the additions start from the integer 0 and go left to
    right; a null entry raises. *)
Definition sum_of (l : list (option float)) : result float :=
  match mapM (fun y : option float => y) l with
  | Some xs => Ok (fold_left float_add xs (float_of_int 0))
  | None => Raise (Exn TypeError "unsupported operand type(s) for +: 'float' and 'NoneType'")
  end.

(** Lines 238-250: the report. *)
Definition rain_report (location_name period_name : string) (max_prob : Z)
    (total_precip : float) (peak_time : string) : string :=
  "Rain forecast for " +:+ location_name +:+ " " +:+ period_name +:+ ":" +:+ nl
  +:+ "• Maximum rain probability: " +:+ str_of_Z max_prob +:+ "%" +:+ nl
  +:+ "• Expected precipitation: " +:+ format_f 1 total_precip +:+ "mm" +:+ nl
  +:+ "• Peak rain time: " +:+ peak_time +:+ nl
  +:+ rain_label max_prob.

(** The part of [check_rain_probability] that follows the data fetch. *)
Definition rain_probability_text (location : string) (data : weather_data)
    (time_period : string) : result string :=
  let hourly := data_hourly data in
  if hourly_is_empty hourly then mret ("No forecast data available for " +:+ location)
  else
    all_times ← item (h_time hourly) "time";
    let '(start_idx, end_idx, period_name) :=
      rain_window (Z.of_nat (length all_times)) current_hour time_period in
    if (Z.of_nat (length all_times) <=? start_idx) || (end_idx <=? start_idx)
    then mret ("No forecast data available for " +:+ period_name)
    else
      all_probs ← item (h_precipitation_probability hourly) "precipitation_probability";
      let precip_probs := slice all_probs start_idx end_idx in
      all_amounts ← item (h_precipitation hourly) "precipitation";
      let precip_amounts := slice all_amounts start_idx end_idx in
      let times := slice all_times start_idx end_idx in
      max_prob ← (match precip_probs with [] => Ok (Some 0) | _ => max_of precip_probs end);
      total_precip ← (match precip_amounts with
                      | [] => Ok (float_of_int 0)
                      | _ => sum_of precip_amounts
                      end);
      let peak_idx := match precip_probs with [] => 0%nat | _ => index_of max_prob precip_probs end in
      peak_time ← (match times with [] => Ok "unknown" | _ => nth_item times peak_idx end);
      match max_prob with
      | Some p => mret (rain_report (data_location data) period_name p total_precip peak_time)
      | None => Raise (Exn TypeError
                  "'>=' not supported between instances of 'NoneType' and 'int'")
      end.

Definition check_rain_probability (location time_period : string) : program string :=
  try_except
    (data ← _get_weather_data location;
     lift (rain_probability_text location data time_period))
    (fun e => mret ("Error checking rain probability for " +:+ location +:+ ": " +:+ exn_str e)).

Definition geocode_location (location : string) : program string :=
  try_except
    ('(lat_f, lon_f) ← _geocode location;
     mret ("Coordinates for " +:+ location +:+ ": " +:+ format_f 4 lat_f +:+ ", "
           +:+ format_f 4 lon_f))
    (fun e => mret ("Error finding location " +:+ location +:+ ": " +:+ exn_str e)).

(** The calls a run makes, and what it returns. *)
Definition calls {A} (m : program A) : list call := snd (fst (m tt)).
Definition returned {A} (m : program A) : result A := snd (m tt).

(** The location reads as a pair of coordinates. *)
Definition coordinates (location : string) (lat_f lon_f : float) : Prop :=
  exists p1 p2, map strip (split "," location) = [p1; p2]
                /\ float_of_str p1 = Some lat_f /\ float_of_str p2 = Some lon_f.

(** The three weather operations, called on one location. *)
Definition weather_operations (location forecast_type time_period : string)
    : list (program string) :=
  [get_current_weather location;
   get_weather_forecast location forecast_type;
   check_rain_probability location time_period].

Definition geocoder_called (l : list call) : bool :=
  existsb (fun c => match c with nominatim_get _ => true | _ => false end) l.
End Tools.

(** ** Stand-ins for the float operations, over the rationals

    They serve the examples only; the statements below hold for whatever
    the float operations are. *)
Module Rational.

(** Reads integer literals only. *)
Definition float_of_str (s : string) : option Q := option_map inject_Z (int_of_str s).

Fixpoint zeros (n : nat) : string :=
  match n with O => EmptyString | S n' => String "0" (zeros n') end.

(** [n] decimals, rounded to the nearest. *)
Definition format_f (n : nat) (q : Q) : string :=
  let scale := 10 ^ Z.of_nat n in
  let scaled := (2 * Qnum q * scale + Zpos (Qden q)) / (2 * Zpos (Qden q)) in
  let a := Z.abs scaled in
  let frac := str_of_Z (a mod scale) in
  (if scaled <? 0 then "-" else EmptyString) +:+ str_of_Z (a / scale)
  +:+ match n with
      | O => EmptyString
      | _ => "." +:+ zeros (n - String.length frac) +:+ frac
      end.

Definition float_str (q : Q) : string := format_f 1 q.

(** Reads "YYYY-MM-DDTHH:MM" and knows the two formats of the module. *)
Definition strftime (fmt t : string) : result string :=
  if negb (String.length t =? 16)%nat
  then Raise (Exn ValueError ("Invalid isoformat string: '" +:+ t +:+ "'"))
  else if String.eqb fmt "%H:%M" then Ok (substring 11 5 t)
  else Ok (substring 0 10 t +:+ " " +:+ substring 11 5 t +:+ " UTC").

Definition hours (day : string) (from count : nat) : list string :=
  map (fun h => day +:+ "T" +:+ (if (h <? 10)%nat then "0" else EmptyString) +:+ str_of_nat h +:+ ":00")
      (seq from count).

(** A two-day forecast: dry on the first day, rain around noon on the
    second. *)
Definition sample_hourly : @hourly_block Q :=
  {| h_time := Some (hours "2025-06-15" 0 24 ++ hours "2025-06-16" 0 24);
     h_temperature_2m := Some (repeat (21 # 1) 48);
     h_weathercode := Some (repeat 3 48);
     h_precipitation_probability :=
       Some (repeat (Some 10) 24 ++ repeat (Some 20) 11
             ++ [Some 55; Some 80; Some 80; Some 40] ++ repeat (Some 5) 9);
     h_precipitation :=
       Some (repeat (Some (0 # 1)) 35
             ++ [Some (1 # 2); Some (3 # 1); Some (5 # 2); Some (1 # 5)]
             ++ repeat (Some (0 # 1)) 9)%Q |}.

Definition sample_forecast : @forecast Q :=
  {| current_weather := Some {| c_temperature := Some (43 # 2); c_windspeed := Some (7 # 1);
                                c_weathercode := Some 3;
                                c_time := Some "2025-06-15T09:00" |};
     hourly := Some sample_hourly;
     daily := None |}.

Definition sample_services : @services Q :=
  {| nominatim := fun city =>
       if String.eqb city "Paris" then Ok [{| lat := Some "48"; lon := Some "2" |}]
       else Ok [];
     open_meteo := fun _ _ => Ok sample_forecast |}.

Definition get_current_weather :=
  get_current_weather float_of_str format_f float_str strftime sample_services.
Definition get_weather_forecast :=
  get_weather_forecast float_of_str format_f strftime sample_services.
Definition check_rain_probability (current_hour : Z) :=
  check_rain_probability float_of_str Qplus inject_Z format_f current_hour sample_services.
End Rational.

End Weather.
(* ===================================================================== *)
(** * src/tools/calendar.py *)
(* ===================================================================== *)

Module Calendar.

(** ** Resources of the calendar service *)

Record event_start := {
  dateTime : option string;
  date : option string
}.

(** An event of a listing; a key the service left out is [None]. *)
Record event := {
  id : option string;
  summary : option string;
  description : option string;
  start : option event_start
}.

Record entry_point := { uri : option string }.
Record conference_data := { entryPoints : option (list entry_point) }.

(** The answer to an insertion. *)
Record created_event := {
  created_summary : option string;
  conferenceData : option conference_data
}.

(** The body of an insertion.  The constant entries of the dict
    ([conferenceSolutionKey] of type hangoutsMeet, default reminders) are
    left out; [recurrence] is [None] when the dict has no such key. *)
Record event_body := {
  body_summary : string;
  body_description : string;
  body_start : string * string;
  body_end : string * string;
  attendees : list string;
  requestId : string;
  recurrence : option (list string)
}.

(** The arguments of [events().list(...)]. *)
Record list_request := {
  calendarId : string;
  timeMin : string;
  maxResults : Z;
  singleEvents : bool;
  orderBy : option string
}.

Inductive call :=
| get_calendar_service
| events_list (request : list_request)
| events_insert (calendarId : string) (body : event_body)
                (conferenceDataVersion : Z) (sendUpdates : string)
| events_delete (calendarId eventId sendUpdates : string).

(** ** [_parse_input] *)

Definition quote : string := String (ascii_of_nat 34) EmptyString.

(** [s[1:-1]] *)
Definition strip_ends (s : string) : string :=
  substring 1 (String.length s - 2) s.

Definition _parse_input (input_str : string) : string :=
  let s := strip input_str in
  if (startswith s "'" && endswith s "'") || (startswith s quote && endswith s quote)
  then strip_ends s
  else s.

(** ** Recurrence (lines 92-102 of [insert_event]) *)

(** [rec.upper().startswith("RRULE:")] *)
Definition is_rrule (rec : string) : bool := startswith (upper rec) "RRULE:".

(** [toks[0] in ("daily", "weekly") and "until" in toks] *)
Definition is_simple_rule (toks : list string) : bool :=
  match toks with
  | first :: _ => mem first ["daily"; "weekly"] && mem "until" toks
  | [] => false
  end.

Definition recurrence_of (recurrence : option string) : result (option (list string)) :=
  match recurrence with
  | None | Some EmptyString => Ok None
  | Some recurrence =>
      let rec := strip recurrence in
      if is_rrule rec then Ok (Some [rec])
      else
        let toks := split_ws (lower rec) in
        match toks with
        | [] => Raise (Exn IndexError "list index out of range")
        | first :: _ =>
            if is_simple_rule toks then
              let freq := upper first in
              let until_date := remove_char "-" (List.last toks first) +:+ "T000000Z" in
              Ok (Some ["RRULE:FREQ=" +:+ freq +:+ ";UNTIL=" +:+ until_date])
            else Ok None
        end
  end.

Section Tools.
(** Python's [float] and [datetime], as far as the module uses them:
    [float(s)], [datetime.fromisoformat(s)], [dt + timedelta(hours=h)]
    and [dt.isoformat()]. *)
Context {float datetime : Type}.
Variable float_of_str : string -> result float.
Variable fromisoformat : string -> result datetime.
Variable plus_hours : datetime -> float -> result datetime.
Variable isoformat : datetime -> string.
(** [config.DEFAULT_TIMEZONE] *)
Variable default_timezone : string.

(** What the outside world answers during one call of a tool:
    [datetime.utcnow().isoformat()], [str(uuid.uuid4())], the making of
    the service object and the three requests. *)
Record world := {
  utcnow : string;
  uuid4 : string;
  service_failure : option exn;
  list_events_response : list_request -> result (list event);
  insert_response : string -> event_body -> Z -> string -> result created_event;
  delete_response : string -> string -> string -> result unit
}.

Variable w : world.

(** The state of a [CalendarTools] object: whether [self.service] is set. *)
#[local] Abbreviation program := (prog bool call).

Definition _get_service : program unit :=
  service ← get;
  if (service : bool) then mret tt
  else
    _ ← emit get_calendar_service;
    match service_failure w with
    | Some e => raise e
    | None => put true
    end.

(** The lines of the listing, numbered from [i]. *)
Fixpoint event_lines (i : nat) (events : list event) : result (list string) :=
  match events with
  | [] => mret []
  | ev :: rest =>
      st ← item (start ev) "start";
      let start_text := match dateTime st with
                        | Some t => t
                        | None => default "None" (date st)
                        end in
      let summary_text := default "(no title)" (summary ev) in
      let description_text := default EmptyString (description ev) in
      let desc_preview :=
        if String.eqb description_text EmptyString then EmptyString
        else " - " +:+ substring 0 30 description_text +:+ "..." in
      more ← event_lines (S i) rest;
      mret ((str_of_nat i +:+ ". " +:+ start_text +:+ ": " +:+ summary_text +:+ desc_preview)
            :: more)
  end.

Definition list_events (input_str : string) : program string :=
  try_except
    (let input_str := _parse_input input_str in
     match map strip (split "|" input_str) with
     | [cal_id; max_res] =>
         max_res ← lift (int max_res);
         _ ← _get_service;
         let now := utcnow w +:+ "Z" in
         let request := {| calendarId := "primary"; timeMin := now; maxResults := max_res;
                           singleEvents := true; orderBy := Some "startTime" |} in
         _ ← emit (events_list request);
         events ← lift (list_events_response w request);
         match events with
         | [] => mret "No upcoming events found."
         | _ =>
             ls ← lift (event_lines 1 events);
             mret (lines ("Upcoming events:" :: ls))
         end
     | [_] => raise (Exn ValueError "not enough values to unpack (expected 2, got 1)")
     | _ => raise (Exn ValueError "too many values to unpack (expected 2)")
     end)
    (fun e => mret ("Error listing events: " +:+ exn_str e)).

(** [[{"email": e.strip()} for e in emails.split(",") if e.strip()]] *)
Definition attendees_of (emails : string) : list string :=
  List.filter (fun e => negb (String.eqb e EmptyString)) (map strip (split "," emails)).

(** [created.get("conferenceData", {}).get("entryPoints", [{}])[0].get("uri", "No meet link")] *)
Definition meet_link_of (created : created_event) : result string :=
  let entry_points :=
    match conferenceData created with
    | Some cd => default [{| uri := None |}] (entryPoints cd)
    | None => [{| uri := None |}]
    end in
  first ← nth_item entry_points 0;
  mret (default "No meet link" (uri first)).

(** The body sent for six fields. *)
Definition plain_body (summary emails description : string) (start_dt end_dt : datetime)
    : event_body :=
  {| body_summary := summary;
     body_description := description;
     body_start := (isoformat start_dt, default_timezone);
     body_end := (isoformat end_dt, default_timezone);
     attendees := attendees_of emails;
     requestId := uuid4 w;
     recurrence := None |}.

Definition invalid_input : string :=
  "Invalid input. Expected format:" +:+ nl
  +:+ "summary | YYYY-MM-DD | HH:MM | duration-hours | emails | description | [recurrence]".

Definition insert_event (input_str : string) : program string :=
  try_except
    (let input_str := _parse_input input_str in
     let parts := map strip (split "|" input_str) in
     match parts with
     | summary :: date_str :: time_str :: dur :: emails :: description :: rest =>
         match rest with
         | _ :: _ :: _ => mret invalid_input
         | _ =>
             let recurrence := match rest with [r] => Some r | _ => None end in
             start_dt ← lift (fromisoformat (date_str +:+ "T" +:+ time_str));
             hours ← lift (float_of_str dur);
             end_dt ← lift (plus_hours start_dt hours);
             rule ← lift (recurrence_of recurrence);
             let event := {| body_summary := summary;
                             body_description := description;
                             body_start := (isoformat start_dt, default_timezone);
                             body_end := (isoformat end_dt, default_timezone);
                             attendees := attendees_of emails;
                             requestId := uuid4 w;
                             recurrence := rule |} in
             _ ← _get_service;
             _ ← emit (events_insert "primary" event 1 "all");
             created ← lift (insert_response w "primary" event 1 "all");
             meet_link ← lift (meet_link_of created);
             title ← lift (item (created_summary created) "summary");
             mret ("Created event '" +:+ title +:+ "'" +:+ nl
                   +:+ "When: " +:+ date_str +:+ " " +:+ time_str +:+ " (" +:+ dur +:+ "h)" +:+ nl
                   +:+ "Attendees: " +:+ emails +:+ nl
                   +:+ "Meet: " +:+ meet_link)
         end
     | _ => mret invalid_input
     end)
    (fun e => mret ("Error creating event: " +:+ exn_str e)).

(** [scope], from the second field when it starts with "scope=". *)
Definition scope_of (parts : list string) : string :=
  match parts with
  | _ :: second :: _ =>
      if startswith (lower second) "scope="
      then match split1 "=" second with
           | [_; value] => lower (strip value)
           | _ => "one"
           end
      else "one"
  | _ => "one"
  end.

(** [query in event.get("summary", empty).lower()], the default being the empty string *)
Definition title_matches (query : string) (ev : event) : bool :=
  contains query (lower (default EmptyString (summary ev))).

(** [for event in events: ...] of [delete_event], down to its [return]. *)
Fixpoint delete_first_match (query scope : string) (events : list event) : program string :=
  match events with
  | [] => mret ("No event found matching '" +:+ query +:+ "'")
  | ev :: rest =>
      if title_matches query ev then
        event_id ← lift (item (id ev) "id");
        title ← lift (item (summary ev) "summary");
        _ ← emit (events_delete "primary" event_id "all");
        _ ← lift (delete_response w "primary" event_id "all");
        let scope_text := if String.eqb scope "all" then "(entire series)" else EmptyString in
        mret ("Deleted event '" +:+ title +:+ "' " +:+ scope_text)
      else delete_first_match query scope rest
  end.

Definition delete_event (input_str : string) : program string :=
  try_except
    (let input_str := _parse_input input_str in
     let parts := map strip (split "|" input_str) in
     let query := lower (List.hd EmptyString parts) in
     let scope := scope_of parts in
     _ ← _get_service;
     let now := utcnow w +:+ "Z" in
     let request := {| calendarId := "primary"; timeMin := now; maxResults := 50;
                       singleEvents := negb (String.eqb scope "all");
                       orderBy := if String.eqb scope "all" then None else Some "startTime" |} in
     _ ← emit (events_list request);
     events ← lift (list_events_response w request);
     delete_first_match query scope events)
    (fun e => mret ("Error deleting event: " +:+ exn_str e)).

(** The listing request of [delete_event] for an input. *)
Definition deletion_listing (input_str : string) : list_request :=
  let scope := scope_of (map strip (split "|" (_parse_input input_str))) in
  {| calendarId := "primary"; timeMin := utcnow w +:+ "Z"; maxResults := 50;
     singleEvents := negb (String.eqb scope "all");
     orderBy := if String.eqb scope "all" then None else Some "startTime" |}.

(** The calls a run makes, and what it returns, from a given state. *)
Definition calls {A} (m : program A) (service : bool) : list call := snd (fst (m service)).
Definition returned {A} (m : program A) (service : bool) : result A := snd (m service).
End Tools.

(** The fields of an input, as [insert_event], [list_events] and
    [delete_event] read them. *)
Definition fields (input_str : string) : list string :=
  map strip (split "|" (_parse_input input_str)).


Definition deletions (l : list call) : list string :=
  omap (fun c => match c with events_delete _ eventId _ => Some eventId | _ => None end) l.

Definition listings (l : list call) : list list_request :=
  omap (fun c => match c with events_list r => Some r | _ => None end) l.

Definition insertions (l : list call) : list event_body :=
  omap (fun c => match c with events_insert _ body _ _ => Some body | _ => None end) l.

(** Case analysis on what the service answers to a listing. *)
Ltac cases_of_listing :=
  repeat match goal with
         | |- context [list_events_response ?w ?r] =>
             destruct (list_events_response w r) as [[|? ?]|?]; cbn -[event_lines lines]
         | |- context [event_lines ?i ?l] => destruct (event_lines i l); cbn -[event_lines lines]
         | |- context [is_Exception ?e] => destruct (is_Exception e); cbn -[event_lines lines]
         | |- context [service_failure ?w] => destruct (service_failure w); cbn -[event_lines lines]
         end.

(** ** A sample calendar

    Stand-ins for [float] and [datetime] that serve the examples: a
    duration is a whole number of hours, a time is a date and a "HH:MM"
    clock with no carry into the next day. *)
Module Sample.

Definition float_of_str (s : string) : result Z := int s.

Definition fromisoformat (s : string) : result (string * Z * string) :=
  match int (substring 11 2 s) with
  | Ok h =>
      if (String.length s =? 16)%nat
      then Ok (substring 0 11 s, h, substring 13 3 s)
      else Raise (Exn ValueError ("Invalid isoformat string: '" +:+ s +:+ "'"))
  | Raise _ => Raise (Exn ValueError ("Invalid isoformat string: '" +:+ s +:+ "'"))
  end.

Definition plus_hours (dt : string * Z * string) (h : Z) : result (string * Z * string) :=
  let '(d, hh, mm) := dt in
  if (0 <=? hh + h) && (hh + h <? 24) then Ok (d, hh + h, mm)
  else Raise (Exn OverflowError "date value out of range").

Definition isoformat (dt : string * Z * string) : string :=
  let '(d, hh, mm) := dt in
  d +:+ (if hh <? 10 then "0" else EmptyString) +:+ str_of_Z hh +:+ mm +:+ ":00".

Definition on_day (t : string) : option event_start :=
  Some {| dateTime := Some t; date := None |}.

Definition standup : event :=
  {| id := Some "ev1"; summary := Some "Daily Standup";
     description := Some "Daily team sync"; start := on_day "2025-06-16T09:00:00+05:30" |}.
Definition untitled : event :=
  {| id := Some "ev0"; summary := None; description := None;
     start := on_day "2025-06-15T18:00:00+05:30" |}.
Definition review : event :=
  {| id := Some "ev2"; summary := Some "Project Review";
     description := None; start := on_day "2025-06-17T15:00:00+05:30" |}.
Definition standup_again : event :=
  {| id := Some "ev3"; summary := Some "daily standup (retro)";
     description := None; start := on_day "2025-06-18T09:00:00+05:30" |}.

Definition agenda (events : list event) : world :=
  {| utcnow := "2025-06-15T08:00:00";
     uuid4 := "7d9f1c1e-0000-4000-8000-000000000001";
     service_failure := None;
     list_events_response := fun request =>
       Ok (List.firstn (Z.to_nat (maxResults request)) events);
     insert_response := fun _ body _ _ =>
       Ok {| created_summary := Some (body_summary body);
             conferenceData := Some {| entryPoints :=
               Some [{| uri := Some "https://meet.google.com/abc-defg-hij" |}] |} |};
     delete_response := fun _ _ _ => Ok tt |}.

Definition list_events (events : list event) :=
  list_events (agenda events).
Definition insert_event :=
  insert_event float_of_str fromisoformat plus_hours isoformat "Asia/Kolkata" (agenda []).
Definition delete_event (events : list event) :=
  delete_event (agenda events).
End Sample.

End Calendar.
(* ===================================================================== *)
(** * main.py: the background task of a mention *)
(* ===================================================================== *)

Module Mention.
Import Orchestrator.

(** What the task does to the outside, in order: a message posted with
    the Slack client, the request handed to the assistant, a line printed
    on the console. *)
Inductive call :=
| slack_chat_postMessage (channel : pyval) (text : pyobj) (thread_ts : pyval)
| assistant_process_request (user_input : pyval)
| console_print (line : string).

(** The collaborators during one task: whether the n-th post (from 0)
    fails, what the assistant returns for a text, and, for a result that is
    not a [str], the value of [result.get("response", str(result))]. *)
Record world := {
  post_failure : nat -> option exn;
  assistant : pyval -> result pyobj;
  response_of : pyobj -> result pyobj
}.

Definition acknowledgment : string :=
  "I am processing your request, please allow me sometime to respond.".

Definition posting (w : world) (n : nat) : result unit :=
  match post_failure w n with
  | Some e => Raise e
  | None => Ok tt
  end.

Definition handle_app_mention (w : world) (event : pyval) : prog unit call unit :=
  try_except
    (user ← lift (dict_get event "user" VNone);
     channel ← lift (dict_get event "channel" VNone);
     text ← lift (dict_get event "text" (VStr EmptyString));
     ts ← lift (dict_get event "ts" VNone);
     _ ← emit (slack_chat_postMessage channel (PStr acknowledgment) ts);
     _ ← lift (posting w 0);
     _ ← emit (assistant_process_request text);
     result ← lift (assistant w text);
     reply_text ← match result with
                  | PStr _ => mret result
                  | _ => lift (response_of w result)
                  end;
     _ ← emit (slack_chat_postMessage channel reply_text ts);
     _ ← lift (posting w 1);
     mret tt)
    (fun e => emit (console_print ("Error handling app_mention: " +:+ exn_str e))).

Definition calls (w : world) (event : pyval) : list call :=
  snd (fst (handle_app_mention w event tt)).

Definition returned (w : world) (event : pyval) : result unit :=
  snd (handle_app_mention w event tt).

(** The messages posted during a run. *)
Definition posts (l : list call) : list (pyval * pyobj * pyval) :=
  omap (fun c => match c with
                 | slack_chat_postMessage ch tx ts => Some (ch, tx, ts)
                 | _ => None
                 end) l.

(** The texts handed to the assistant during a run. *)
Definition questions (l : list call) : list pyval :=
  omap (fun c => match c with assistant_process_request t => Some t | _ => None end) l.

(** Closes the cases of a run whose calls are known. *)
Ltac thread_leaf em :=
  repeat split; try lia;
  try (intros ch tx ts H;
       repeat (destruct H as [H|H]; [injection H as <- <- <-; eauto|]); contradiction);
  try (intros p [= <-]; reflexivity);
  try contradiction;
  try (intros q [<-|H]; [|contradiction]; exists em; repeat split; eauto).

(** ** Sample tasks *)

Definition mention_event : pyval :=
  VDict {[ "type" := VStr "app_mention"; "user" := VStr "U123"; "channel" := VStr "C042";
           "text" := VStr "<@BOT> will it rain tomorrow?"; "ts" := VStr "1718445600.000100" ]}.

Definition answering (reply : pyobj) : world :=
  {| post_failure := fun _ => None;
     assistant := fun _ => Ok reply;
     response_of := fun o => Raise (Exn AttributeError "object has no attribute 'get'") |}.

Definition offline : world :=
  {| post_failure := fun _ => Some (Exn (OtherException "SlackApiError") "channel_not_found");
     assistant := fun _ => Ok (PStr "unused");
     response_of := fun o => Raise (Exn AttributeError "object has no attribute 'get'") |}.

End Mention.
(* ===================================================================== *)
(** * src/agents.py: status report and factory *)
(* ===================================================================== *)

Module Status.
Import Orchestrator.

(** One entry of [status["agents"]]. *)
Record agent_status := {
  status_description : string;
  tool_count : nat;
  tool_names : list string
}.

Record status := {
  initialized : bool;
  total_agents : nat;
  agents : gmap string agent_status
}.



Section Status.
Variables email_system_prompt weather_system_prompt calendar_system_prompt
          search_system_prompt : string.
Variable w : world.


(** [create_orchestrator]: a new orchestrator, initialized. *)
Definition create_orchestrator : list log_record * result orchestrator :=
  match _initialize_agents email_system_prompt weather_system_prompt calendar_system_prompt
          search_system_prompt w __init__ with
  | (s, t, Ok _) => (t, Ok s)
  | (_, t, Raise e) => (t, Raise e)
  end.
End Status.

(** The four agents of an initialized orchestrator. *)
Definition staffed (self : orchestrator) : Prop :=
  exists e wa c s,
    email_agent self = Some e /\ weather_agent self = Some wa
    /\ calendar_agent self = Some c /\ search_agent self = Some s
    /\ agent_list self = Some [e; wa; c; s]
    /\ name e = "EmailAssistant" /\ name wa = "WeatherAssistant"
    /\ name c = "CalendarAssistant" /\ name s = "SearchAssistant".

(** An orchestrator whose flag tells the truth. *)
Definition ready (self : orchestrator) : Prop :=
  _agents_initialized self = true -> staffed self.

(** A program that leaves the orchestrator as it found it. *)
Definition keeps_state {A : Type} (m : prog orchestrator log_record A) : Prop :=
  forall s, fst (fst (m s)) = s.

(** Successive requests on one orchestrator, each in its own state of
    the world. *)
Fixpoint serve (ep wp cp sp fp : string) (requests : list (world * string))
    (self : orchestrator) : orchestrator :=
  match requests with
  | [] => self
  | (w, user_input) :: rest =>
      serve ep wp cp sp fp rest
        (state_after (process_request ep wp cp sp fp w user_input self))
  end.

(** The tools an agent ends up with. *)
Definition tools_or_none (provider : result (list tool)) : list tool :=
  match provider with
  | Ok ts => ts
  | Raise _ => []
  end.

End Status.
(* ===================================================================== *)
(** * src/tools/calendar.py: the calendars of the account *)
(* ===================================================================== *)

Module Calendars.
Import Calendar.

(** An entry of the calendar list and the answer to a creation; a key the
    service left out is [None]. *)
Record calendar_entry := { entry_summary : option string }.
Record created_calendar := { calendar_id : option string }.

Inductive call :=
| get_calendar_service
| calendarList_list
| calendars_insert (summary timeZone : string).

(** What the outside world answers during one call of a tool: the making
    of the service object, the [items] of the calendar list (when the
    answer has the key) and the answer to a creation. *)
Record world := {
  service_failure : option exn;
  calendar_list_items : result (option (list calendar_entry));
  calendars_insert_response : string -> string -> result created_calendar
}.

Section Tools.
Variable w : world.

Definition _get_service : prog bool call unit :=
  service ← get;
  if (service : bool) then mret tt
  else
    _ ← emit get_calendar_service;
    match service_failure w with
    | Some e => raise e
    | None => put true
    end.

(** [[c['summary'] for c in calendars]] *)
Fixpoint summaries_of (calendars : list calendar_entry) : result (list string) :=
  match calendars with
  | [] => mret []
  | c :: rest =>
      s ← item (entry_summary c) "summary";
      more ← summaries_of rest;
      mret (s :: more)
  end.

Definition list_calendars : prog bool call string :=
  try_except
    (_ ← _get_service;
     _ ← emit calendarList_list;
     items ← lift (calendar_list_items w);
     let calendars := default [] items in
     summaries ← lift (summaries_of calendars);
     mret ("Your calendars:" +:+ nl +:+ lines (map (fun s => "- " +:+ s) summaries)))
    (fun e => mret ("Error listing calendars: " +:+ exn_str e)).

Definition create_calendar (input_str : string) : prog bool call string :=
  try_except
    (let input_str := _parse_input input_str in
     match map strip (split "|" input_str) with
     | [summary; tz] =>
         _ ← _get_service;
         _ ← emit (calendars_insert summary tz);
         created ← lift (calendars_insert_response w summary tz);
         calendar_id ← lift (item (calendar_id created) "id");
         mret ("Created calendar '" +:+ summary +:+ "' with ID: " +:+ calendar_id)
     | [_] => raise (Exn ValueError "not enough values to unpack (expected 2, got 1)")
     | _ => raise (Exn ValueError "too many values to unpack (expected 2)")
     end)
    (fun e => mret ("Error creating calendar: " +:+ exn_str e)).

Definition calls {A} (m : prog bool call A) (service : bool) : list call :=
  snd (fst (m service)).
Definition returned {A} (m : prog bool call A) (service : bool) : result A :=
  snd (m service).
End Tools.

(** An account with the given calendars; a created calendar gets an id
    made of its name. *)
Definition account (names : list (option string)) : world :=
  {| service_failure := None;
     calendar_list_items := Ok (Some (map (fun n => {| entry_summary := n |}) names));
     calendars_insert_response := fun summary _ =>
       Ok {| calendar_id := Some (lower summary +:+ "@group.calendar.google.com") |} |}.

End Calendars.

(* ===================================================================== *)
(** * src/tools/calendar.py: measures of a run *)
(* ===================================================================== *)

Module CalendarRuns.
Import Calendar.

(** How often a run asked for the service object. *)
Definition service_requests (l : list call) : nat :=
  length (List.filter (fun c => match c with get_calendar_service => true | _ => false end) l).

(** The service object is asked for at most once in a call, and only
    when the tools object has none, which it keeps; a call leaves the object
    with a service only if it had one or the service could be made; and when
    it cannot be made, nothing else is requested. *)
Definition caches_service (w : world) (op : prog bool call string) : Prop :=
  (forall service, (service_requests (calls op service) <= 1)%nat)
  /\ service_requests (calls op true) = 0%nat
  /\ fst (fst (op true)) = true
  /\ (fst (fst (op false)) = true -> service_failure w = None)
  /\ (service_failure w <> None ->
      forall c, In c (calls op false) -> c = get_calendar_service).


(** The service creates the event and answers without entry points. *)
Definition no_entry_points : world :=
  {| utcnow := utcnow (Sample.agenda []);
     uuid4 := uuid4 (Sample.agenda []);
     service_failure := None;
     list_events_response := list_events_response (Sample.agenda []);
     insert_response := fun _ body _ _ =>
       Ok {| created_summary := Some (body_summary body);
             conferenceData := Some {| entryPoints := Some [] |} |};
     delete_response := delete_response (Sample.agenda []) |}.

End CalendarRuns.
(* ===================================================================== *)
(** * src/tools/search.py *)
(* ===================================================================== *)

Module Search.

(** One entry of the [results] of an answer, and the answer itself; a key
    the service left out is [None], a key it gave holds a string (a list of
    entries for [results]). *)
Record hit := {
  title : option string;
  url : option string;
  content : option string
}.

Record response := {
  answer : option string;
  results : option (list hit)
}.

(** The payload of a request; its constant entries ([include_answer],
    [include_raw_content], [include_images]) and the API key are left out. *)
Record payload := {
  query : string;
  search_depth : string;
  max_results : Z
}.

Inductive call :=
| tavily_post (json : payload).

(** [len(content) > 200] and [content[:200] + "..."] *)
Definition truncate (content : string) : string :=
  if (200 <? String.length content)%nat then substring 0 200 content +:+ "..." else content.

(** ["-" * n] *)
Fixpoint dashes (n : nat) : string :=
  match n with
  | O => EmptyString
  | S n' => String "-" (dashes n')
  end.

(** The loop of [_format_search_results], numbering from [i]. *)
Fixpoint result_lines (i : nat) (search_results : list hit) : list string :=
  match search_results with
  | [] => []
  | result :: rest =>
      let title := default "No title" (title result) in
      let url := default "No URL" (url result) in
      let content := truncate (default "No content" (content result)) in
      (nl +:+ str_of_nat i +:+ ". " +:+ title)
      :: ("   URL: " +:+ url)
      :: ("   Summary: " +:+ content)
      :: result_lines (S i) rest
  end.

(** [_format_search_results]; on answers of the shape above its body
    raises nothing. *)
Definition _format_search_results (data : response) (query : string) : string :=
  let answer := default EmptyString (answer data) in
  let results := if String.eqb answer EmptyString then [] else ["Answer: " +:+ answer +:+ nl] in
  let search_results := default [] (Search.results data) in
  let results :=
    match search_results with
    | [] => results
    | _ :: _ => results ++ "Search Results:" :: result_lines 1 search_results
    end in
  match results with
  | [] => "No search results found for: " +:+ query
  | _ :: _ => lines results
  end.

(** The loop of [research_search], numbering from [i]. *)
Fixpoint research_lines (i : nat) (search_results : list hit) : list string :=
  match search_results with
  | [] => []
  | result :: rest =>
      let title := default "No title" (title result) in
      let url := default "No URL" (url result) in
      let content := default "No content" (content result) in
      (nl +:+ str_of_nat i +:+ ". " +:+ title)
      :: ("   Source: " +:+ url)
      :: ("   Content: " +:+ content)
      :: ("   " +:+ dashes 80)
      :: research_lines (S i) rest
  end.

(** Lines 118-140 of [research_search]. *)
Definition research_text (data : response) (topic : string) : string :=
  let answer := default EmptyString (answer data) in
  let results := if String.eqb answer EmptyString then [] else ["Research Summary: " +:+ answer +:+ nl] in
  let search_results := default [] (Search.results data) in
  let results :=
    match search_results with
    | [] => results
    | _ :: _ => results ++ "Detailed Research Results:" :: research_lines 1 search_results
    end in
  match results with
  | [] => "No research results found for: " +:+ topic
  | _ :: _ => lines results
  end.

Section Tools.
(** [config.MAX_RESULTS] *)
Variable default_max_results : Z.
(** What the search service answers to a payload, or the exception of
    the HTTP client. *)
Variable tavily : payload -> result response.

Definition _make_tavily_request (query search_depth : string) (max_results : option Z)
    : prog unit call response :=
  let max_results := match max_results with
                     | None => default_max_results
                     | Some n => n
                     end in
  let payload := {| query := query; search_depth := search_depth;
                    max_results := max_results |} in
  try_except
    (_ ← emit (tavily_post payload);
     lift (tavily payload))
    (fun e => raise e).

(** [not query or not query.strip()] *)
Definition blank (query : string) : bool :=
  String.eqb query EmptyString || String.eqb (strip query) EmptyString.

Definition web_search (query : string) : prog unit call string :=
  try_except
    (if blank query then mret "Error: Search query cannot be empty"
     else
       data ← _make_tavily_request query "basic" None;
       mret (_format_search_results data query))
    (fun e => mret ("Error performing web search for '" +:+ query +:+ "': " +:+ exn_str e)).

Definition research_search (topic : string) : prog unit call string :=
  try_except
    (if blank topic then mret "Error: Research topic cannot be empty"
     else
       data ← _make_tavily_request topic "advanced" (Some 10);
       mret (research_text data topic))
    (fun e => mret ("Error performing research search for '" +:+ topic +:+ "': "
                    +:+ exn_str e)).

Definition calls {A} (m : prog unit call A) : list call := snd (fst (m tt)).
Definition returned {A} (m : prog unit call A) : result A := snd (m tt).
End Tools.

(** A service that knows one page about anything. *)
Definition one_page (json : payload) : result response :=
  Ok {| answer := Some ("About " +:+ query json);
        results := Some [{| title := Some "Encyclopedia"; url := Some "https://example.org";
                            content := Some (dashes 250) |}] |}.

End Search.
(* ===================================================================== *)
(** * src/utils.py *)
(* ===================================================================== *)

Module Credentials.

(** A [Credentials] object, as far as the module looks at it. *)
Record credentials := {
  valid : bool;
  expired : bool;
  refresh_token : option string;
  to_json : string
}.

Inductive call :=
| os_path_exists (path : string)
| from_authorized_user_file (path : string)
| creds_refresh (creds : credentials)
| from_client_secrets_file (path : string)
| run_local_server
| token_write (path content : string)
| build_calendar (creds : credentials).

(** The file system and the Google client libraries during one call:
    whether the token file exists and what it holds, what a refresh makes of
    credentials, whether the client secrets load, what the local
    authorization flow returns, whether the token file can be written and
    whether the calendar service can be built. *)
Record world := {
  token_exists : string -> bool;
  stored : string -> result credentials;
  refreshed : credentials -> result credentials;
  client_secrets_failure : string -> option exn;
  authorized : result credentials;
  write_failure : string -> option exn;
  build_failure : credentials -> option exn
}.

(** [creds.refresh_token] as a condition: neither [None] nor empty. *)
Definition has_refresh_token (creds : credentials) : bool :=
  match refresh_token creds with
  | Some (String _ _) => true
  | _ => false
  end.

(** An option that may have failed. *)
Definition failing (failure : option exn) : result unit :=
  match failure with
  | Some e => Raise e
  | None => Ok tt
  end.

Section Utils.
(** [config.GOOGLE_TOKEN_FILE] and [config.GOOGLE_CREDENTIALS_FILE] *)
Variables GOOGLE_TOKEN_FILE GOOGLE_CREDENTIALS_FILE : string.
Variable w : world.

(** The [else] branch: the local authorization flow. *)
Definition authorize (client_secrets_file : string) : prog unit call credentials :=
  _ ← emit (from_client_secrets_file client_secrets_file);
  _ ← lift (failing (client_secrets_failure w client_secrets_file));
  _ ← emit run_local_server;
  lift (authorized w).

Definition get_credentials (token_file client_secrets_file : option string)
    : prog unit call credentials :=
  let token_file := default GOOGLE_TOKEN_FILE token_file in
  let client_secrets_file := default GOOGLE_CREDENTIALS_FILE client_secrets_file in
  _ ← emit (os_path_exists token_file);
  creds ← (if token_exists w token_file
           then
             _ ← emit (from_authorized_user_file token_file);
             loaded ← lift (stored w token_file);
             mret (Some loaded)
           else mret None);
  match creds with
  | Some loaded =>
      if valid loaded then mret loaded
      else
        creds ← (if expired loaded && has_refresh_token loaded
                 then
                   _ ← emit (creds_refresh loaded);
                   lift (refreshed w loaded)
                 else authorize client_secrets_file);
        _ ← emit (token_write token_file (to_json creds));
        _ ← lift (failing (write_failure w token_file));
        mret creds
  | None =>
      creds ← authorize client_secrets_file;
      _ ← emit (token_write token_file (to_json creds));
      _ ← lift (failing (write_failure w token_file));
      mret creds
  end.

Definition get_gmail_service : prog unit call credentials := get_credentials None None.

(** The service object is represented by the credentials it was built
    with. *)
Definition get_calendar_service : prog unit call credentials :=
  creds ← get_credentials None None;
  _ ← emit (build_calendar creds);
  _ ← lift (failing (build_failure w creds));
  mret creds.

Definition calls {A} (m : prog unit call A) : list call := snd (fst (m tt)).
Definition returned {A} (m : prog unit call A) : result A := snd (m tt).
End Utils.

(** What a run did, among the things that matter to the user. *)
Definition refreshes (l : list call) : list credentials :=
  omap (fun c => match c with creds_refresh creds => Some creds | _ => None end) l.

Definition writes (l : list call) : list (string * string) :=
  omap (fun c => match c with token_write path content => Some (path, content) | _ => None end) l.

Definition flows (l : list call) : nat :=
  length (List.filter (fun c => match c with run_local_server => true | _ => false end) l).

(** A machine with a token that has run out and can be refreshed. *)
Definition stale : credentials :=
  {| valid := false; expired := true; refresh_token := Some "1//0g"; to_json := "{old}" |}.

Definition renewed : credentials :=
  {| valid := true; expired := false; refresh_token := Some "1//0g"; to_json := "{new}" |}.

Definition desktop : world :=
  {| token_exists := fun _ => true;
     stored := fun _ => Ok stale;
     refreshed := fun _ => Ok renewed;
     client_secrets_failure := fun _ => None;
     authorized := Raise (Exn (OtherException "OSError") "could not locate runnable browser");
     write_failure := fun _ => None;
     build_failure := fun _ => None |}.

(** Case analysis on everything the world answers during a call. *)
Ltac world_cases w :=
  repeat match goal with
         | |- context [token_exists w ?p] => destruct (token_exists w p) eqn:?; cbn [fst snd]
         | |- context [stored w ?p] => destruct (stored w p) as [?loaded|?x] eqn:?; cbn [fst snd]
         | |- context [valid ?c] => destruct (valid c) eqn:?; cbn [fst snd]
         | |- context [expired ?c && has_refresh_token ?c] =>
             destruct (expired c) eqn:?; destruct (has_refresh_token c) eqn:?;
             cbn [fst snd andb]
         | |- context [refreshed w ?c] =>
             destruct (refreshed w c) as [?fresh|?x] eqn:?; cbn [fst snd]
         | |- context [client_secrets_failure w ?p] =>
             destruct (client_secrets_failure w p) as [?x|] eqn:?; cbn [fst snd failing]
         | |- context [authorized w] =>
             destruct (authorized w) as [?fresh|?x] eqn:?; cbn [fst snd]
         | |- context [write_failure w ?p] =>
             destruct (write_failure w p) as [?x|] eqn:?; cbn [fst snd failing]
         end.

End Credentials.

(* ===================================================================== *)
(** * src/tools/email.py *)
(* ===================================================================== *)

Module Email.
Import Orchestrator.

(** A tool of the agent: a LangChain tool behind its adapter, or a
    function with its description. *)
Inductive tool :=
| LangChainToolAdapter (langchain_tool : string)
| FunctionTool (func description : string).

(** The Gmail client library during one call: the making of the API
    resource, the tools of the toolkit built on it, and the adapter's
    constructor. *)
Record world := {
  build_gmail_resource_service : option exn;
  get_tools : result (list string);
  adapter_failure : string -> option exn
}.

Section Tools.
Variable w : world.

Definition langchain_gmail_tools : prog unit log_record (list string) :=
  try_except
    (_ ← lift (Credentials.failing (build_gmail_resource_service w));
     tools ← lift (get_tools w);
     _ ← emit (INFO, "Created " +:+ str_of_nat (length tools)
                     +:+ " Gmail tools from LangChain toolkit");
     mret tools)
    (fun e =>
       _ ← emit (ERROR, "Error creating Gmail tools: " +:+ exn_str e);
       mret []).

(** [[LangChainToolAdapter(tool) for tool in gmail_tools]] *)
Fixpoint adapters (gmail_tools : list string) : result (list tool) :=
  match gmail_tools with
  | [] => mret []
  | t :: rest =>
      _ ← Credentials.failing (adapter_failure w t);
      more ← adapters rest;
      mret (LangChainToolAdapter t :: more)
  end.

Definition datetime_tool : tool :=
  FunctionTool "get_current_datetime" "Get current date and time in ISO format".

Definition as_function_tools : prog unit log_record (list tool) :=
  try_except
    (gmail_tools ← langchain_gmail_tools;
     gmail_autogen_tools ← lift (adapters gmail_tools);
     let all_tools := gmail_autogen_tools ++ [datetime_tool] in
     _ ← emit (INFO, "Created " +:+ str_of_nat (length all_tools)
                     +:+ " total tools for AutoGen agent ("
                     +:+ str_of_nat (length gmail_autogen_tools)
                     +:+ " Gmail tools + 1 utility tool)");
     mret all_tools)
    (fun e =>
       _ ← emit (ERROR, "Error creating Gmail tools for AutoGen: " +:+ exn_str e);
       mret []).

Definition returned {A} (m : prog unit log_record A) : result A := snd (m tt).
Definition logged {A} (m : prog unit log_record A) : list log_record := snd (fst (m tt)).
End Tools.

End Email.
(* ===================================================================== *)
(** * Properties of the Slack events endpoint *)
(* ===================================================================== *)

Module WebhookFacts.
Import Webhook.

Lemma eq_str_true (v : pyval) (s : string) : eq_str v s = true <-> v = VStr s.
Proof.
  destruct v; simpl; try (split; [discriminate | intros H; discriminate H]).
  rewrite String.eqb_eq. split; [intros -> | intros [= ->]]; reflexivity.
Qed.

Lemma eq_str_false (v : pyval) (s : string) : v <> VStr s -> eq_str v s = false.
Proof.
  intros H. destruct (eq_str v s) eqn:E; [|reflexivity].
  apply eq_str_true in E. contradiction.
Qed.


(** C3.  A payload whose type is url_verification is answered with
    {"challenge": v}, v being the payload's own challenge (None when the
    payload has none), whatever the signature and timestamp headers and the
    verifier say; the verifier is not called and no task is scheduled. *)
Theorem url_verification_echoes_challenge
    (is_valid : string -> string -> option string -> bool) (now : Q)
    (req : request) (m : gmap string pyval) :
  json req = Ok (VDict m) ->
  m !! "type" = Some (VStr "url_verification") ->
  post_slack_events is_valid now req
  = ([], JSONResponse {[ "challenge" := default VNone (m !! "challenge") ]}).
Proof.
  intros Hjson Hty. unfold post_slack_events, slack_events. run_prog.
  rewrite Hjson. simpl. rewrite Hty. simpl. reflexivity.
Qed.

Lemma url_verification_echoes_challenge_witness :
  post_slack_events (fun _ _ _ => false) 0 handshake
  = ([], JSONResponse {[ "challenge" := VStr "3eZbrw1aB" ]}).
Proof.
  exact (url_verification_echoes_challenge (fun _ _ _ => false) 0 handshake
           {[ "type" := VStr "url_verification"; "challenge" := VStr "3eZbrw1aB" ]}
           eq_refl eq_refl).
Defined.




(** A fresh request with a valid signature and a mention event schedules
    exactly one background task, after the verifier was called. *)
Example mention_scheduled :
  post_slack_events (fun _ _ _ => true) (inject_Z 1000) (mention "1000")
  = ([verifier_is_valid "{...}" "1000" (Some "v0=abc");
      background_tasks_add_task (VDict {[ "type" := VStr "app_mention"; "text" := VStr "hi" ]})],
     JSONResponse {[ "ok" := VBool true ]}).
Proof. vm_compute. reflexivity. Qed.

Example bad_signature_rejected :
  post_slack_events (fun _ _ _ => false) (inject_Z 1000) (mention "700")
  = ([verifier_is_valid "{...}" "700" (Some "v0=abc")], HTTPError 400 "Invalid Slack signature").
Proof. vm_compute. reflexivity. Qed.

(** A timestamp header that is not an integer literal makes [int] raise:
    the request is answered with 500, not 400. *)
Example malformed_timestamp :
  post_slack_events (fun _ _ _ => true) (inject_Z 1000) (mention "16e8")
  = ([], InternalServerError).
Proof. vm_compute. reflexivity. Qed.

End WebhookFacts.
(* ===================================================================== *)
(** * Properties of the orchestrator *)
(* ===================================================================== *)

Module OrchestratorFacts.
Import Orchestrator.

Section Initialization.
Variables ep wp cp sp : string.
Variable w : world.

(** A factory function does not touch the state it runs in; its log and
    its outcome do not depend on that state. *)
Lemma create_agent_run {S : Type} label provider n d p (s : S) :
  create_agent w label provider n d p s
  = (s, construction_log (create_agent w label provider n d p),
     constructed (create_agent w label provider n d p)).
Proof.
  unfold constructed, construction_log, create_agent, logger_info, logger_warning, AssistantAgent. run_prog.
  destruct provider as [ts|e]; [|destruct (is_Exception e)];
    destruct (get_timezone w);
    try match goal with |- context [agent_rejected w ?a] => destruct (agent_rejected w a) end;
    reflexivity.
Qed.

Lemma initialize_noop (self : orchestrator) :
  _agents_initialized self = true ->
  init_in ep wp cp sp w self = (self, [], Ok tt).
Proof.
  intros H. unfold init_in, _initialize_agents. run_prog. rewrite H. reflexivity.
Qed.

Lemma initialize_unset (self : orchestrator) :
  _agents_initialized self = false ->
  match all_constructed ep wp cp sp w with
  | Some (e, wa, c, s) =>
      state_after (init_in ep wp cp sp w self)
      = {| email_agent := Some e; weather_agent := Some wa;
           calendar_agent := Some c; search_agent := Some s;
           agent_list := Some [e; wa; c; s];
           conversation_context := conversation_context self;
           _agents_initialized := true |}
      /\ outcome (init_in ep wp cp sp w self) = Ok tt
  | None =>
      state_after (init_in ep wp cp sp w self) = self
      /\ exists x, outcome (init_in ep wp cp sp w self) = Raise x
  end.
Proof.
  intros H.
  unfold all_constructed, init_in, _initialize_agents, gather, settle, logger_info,
    create_email_agent, create_weather_agent, create_calendar_agent, create_search_agent,
    state_after, outcome.
  run_prog. rewrite H. cbn [fst snd].
  rewrite !(create_agent_run (S:=orchestrator)).
  repeat match goal with
         | |- context [constructed ?m] => destruct (constructed m)
         end;
    cbn; eauto.
Qed.

Lemma builds_when_set (ws : list world) : forall self,
  _agents_initialized self = true ->
  number_of_builds ep wp cp sp ws self = 0%nat.
Proof.
  unfold number_of_builds.
  induction ws as [|w' ws IH]; intros self H; [reflexivity|].
  cbn [builds]. rewrite H. cbn [negb andb List.filter].
  apply IH. unfold init_in, _initialize_agents. run_prog. rewrite H. exact H.
Qed.

Lemma builds_at_most_once (ws : list world) : forall self,
  (number_of_builds ep wp cp sp ws self <= 1)%nat.
Proof.
  induction ws as [|w' ws IH]; intros self; [cbn; lia|].
  destruct (_agents_initialized self) eqn:H.
  - rewrite builds_when_set by exact H. lia.
  - unfold number_of_builds in *. cbn [builds]. rewrite H. cbn [negb andb].
    destruct (_agents_initialized (state_after (init_in ep wp cp sp w' self))) eqn:H'.
    + cbn [List.filter length].
      pose proof (builds_when_set ws _ H') as E. unfold number_of_builds in E.
      rewrite E. lia.
    + cbn [List.filter]. apply IH.
Qed.
End Initialization.

(** C5.  [_initialize_agents] is a guarded one-shot transition:
    (1) with the flag set it changes nothing, logs nothing and returns;
    (2) with the flag unset, the flag ends up set exactly when all four
        constructions completed, the agent list being the four agents in
        order; when a construction raises, the orchestrator is left as it
        was (flag unset) and the exception reaches the caller;
    (3) so a later call, in a world where the constructions complete,
        attempts the initialization again and sets the flag;
    (4) over any sequence of calls the agent list is built at most once. *)
Theorem initialization_is_one_shot (ep wp cp sp : string) (w : world) (self : orchestrator) :
  (_agents_initialized self = true -> init_in ep wp cp sp w self = (self, [], Ok tt))
  /\ (_agents_initialized self = false ->
      match all_constructed ep wp cp sp w with
      | Some (e, wa, c, s) =>
          state_after (init_in ep wp cp sp w self)
          = {| email_agent := Some e; weather_agent := Some wa;
               calendar_agent := Some c; search_agent := Some s;
               agent_list := Some [e; wa; c; s];
               conversation_context := conversation_context self;
               _agents_initialized := true |}
          /\ outcome (init_in ep wp cp sp w self) = Ok tt
      | None =>
          state_after (init_in ep wp cp sp w self) = self
          /\ exists x, outcome (init_in ep wp cp sp w self) = Raise x
      end)
  /\ (forall w' : world,
        _agents_initialized self = false ->
        all_constructed ep wp cp sp w = None ->
        all_constructed ep wp cp sp w' <> None ->
        _agents_initialized
          (state_after (init_in ep wp cp sp w' (state_after (init_in ep wp cp sp w self))))
        = true)
  /\ (forall ws : list world, (number_of_builds ep wp cp sp ws self <= 1)%nat).
Proof.
  split; [apply initialize_noop|].
  split; [apply initialize_unset|].
  split; [|intros ws; apply builds_at_most_once].
  intros w' Hself Hw Hw'.
  pose proof (initialize_unset ep wp cp sp w self Hself) as H1. rewrite Hw in H1.
  destruct H1 as [-> _].
  pose proof (initialize_unset ep wp cp sp w' self Hself) as H2.
  destruct (all_constructed ep wp cp sp w') as [[[[e wa] c] s]|]; [|contradiction].
  destruct H2 as [-> _]. reflexivity.
Qed.

Lemma initialization_is_one_shot_witness :
  _agents_initialized
    (state_after (init_in "e" "w" "c" "s" calm
                    (state_after (init_in "e" "w" "c" "s" broken_search __init__))))
  = true.
Proof.
  destruct (initialization_is_one_shot "e" "w" "c" "s" broken_search __init__) as (_ & _ & H & _).
  apply H; [reflexivity | vm_compute; reflexivity | vm_compute; discriminate].
Defined.

Example failed_construction_keeps_flag_unset :
  init_in "e" "w" "c" "s" broken_search __init__
  = (__init__,
     [(INFO, "Initializing agents with async tools");
      (WARNING, "Email tools creation failed: credentials.json");
      (INFO, "Weather tools created: 2");
      (INFO, "Calendar tools created: 1");
      (INFO, "Search tools created: 1")],
     Raise (Exn ValueError "Tool names must be unique")).
Proof. vm_compute. reflexivity. Qed.

Example one_build_in_four_calls :
  builds "e" "w" "c" "s" [broken_search; calm; calm; broken_search] __init__
  = [false; true; false; false].
Proof. vm_compute. reflexivity. Qed.

Section Requests.
Variables ep wp cp sp fp : string.
Variable w : world.

Lemma plain_attr (msg : message) (a : string) :
  plain msg ->
  (exists v, attrs msg !! a = Some (Value v)) \/ attrs msg !! a = None.
Proof.
  intros H. destruct (attrs msg !! a) as [[v|e]|] eqn:E; eauto.
  exfalso. exact (H a e E).
Qed.

Lemma first_attr_plain (msg : message) (s : orchestrator) :
  plain msg ->
  forall names, exists v, first_attr names msg s = (s, [], Ok v).
Proof.
  intros H. induction names as [|a names IH]; [eexists; reflexivity|].
  cbn [first_attr]. unfold hasattr, getattr. run_prog.
  destruct (plain_attr msg a H) as [[v ->] | ->]; cbn -[first_attr].
  - destruct (is_None v).
    + destruct IH as [v' ->]. eexists; reflexivity.
    + eexists; reflexivity.
  - destruct IH as [v' ->]. eexists; reflexivity.
Qed.

Lemma agent_name_of_plain (msg : message) (s : orchestrator) :
  plain msg -> exists v, agent_name_of msg s = (s, [], Ok v).
Proof.
  intros H. unfold agent_name_of, hasattr, getattr. run_prog.
  destruct (plain_attr msg "src" H) as [[v ->] | ->]; cbn -[first_attr]; [eexists; reflexivity|].
  destruct (first_attr_plain msg s H ["sender"; "author"; "agent"; "role"]) as [v ->].
  destruct (is_None v); eexists; reflexivity.
Qed.

Lemma content_of_plain (msg : message) (s : orchestrator) :
  plain msg -> exists v, content_of msg s = (s, [], Ok v).
Proof.
  intros H. unfold content_of, hasattr, getattr. run_prog.
  destruct (plain_attr msg "content" H) as [[v ->] | ->]; cbn -[first_attr].
  - destruct (is_None v) eqn:E.
    + destruct (first_attr_plain msg s H ["text"; "message"; "body"]) as [v' ->].
      destruct (is_None v'); eexists; reflexivity.
    + rewrite E. eexists; reflexivity.
  - destruct (first_attr_plain msg s H ["text"; "message"; "body"]) as [v' ->].
    destruct (is_None v'); eexists; reflexivity.
Qed.




End Requests.

(** ** Which exceptions a request can raise *)

Section Containment.
Variables ep wp cp sp fp : string.
Variable w : world.
Hypothesis Hw : benign w.

Lemma contained_ret {A : Type} (a : A) : contained (mret a).
Proof. intros s e. run_prog. discriminate. Qed.

Lemma contained_emit (r : log_record) : contained (emit r).
Proof. intros s e. run_prog. discriminate. Qed.

Lemma contained_get : contained get.
Proof. intros s e. run_prog. discriminate. Qed.

Lemma contained_put (s' : orchestrator) : contained (put s').
Proof. intros s e. run_prog. discriminate. Qed.

Lemma contained_raise {A : Type} (e : exn) :
  is_Exception e = true -> contained (raise (A := A) e).
Proof. intros H s e'. run_prog. intros [= <-]. exact H. Qed.

Lemma contained_lift {A : Type} (r : result A) : benign_result r -> contained (lift r).
Proof. intros H s e. run_prog. cbn. apply H. Qed.

Lemma contained_bind {A B : Type} (m : prog orchestrator log_record A)
    (k : A -> prog orchestrator log_record B) :
  contained m -> (forall a, contained (k a)) -> contained (m ≫= k).
Proof.
  intros Hm Hk s e. specialize (Hm s). run_prog.
  destruct (m s) as [[s1 t1] [a|e1]]; cbn in *.
  - specialize (Hk a s1 e). destruct (k a s1) as [[s2 t2] r]. exact Hk.
  - intros [= <-]. apply Hm. reflexivity.
Qed.

Lemma contained_try_except {A : Type} (m : prog orchestrator log_record A)
    (h : exn -> prog orchestrator log_record A) :
  contained m -> (forall e, contained (h e)) -> contained (try_except m h).
Proof.
  intros Hm Hh s e. specialize (Hm s). run_prog.
  destruct (m s) as [[s1 t1] [a|e1]]; cbn in *; [discriminate|].
  destruct (is_Exception e1) eqn:E.
  - specialize (Hh e1 s1 e). destruct (h e1 s1) as [[s2 t2] r]. exact Hh.
  - intros [= <-]. apply Hm. reflexivity.
Qed.

Lemma contained_bind_with {A B : Type} (P : A -> Prop)
    (m : prog orchestrator log_record A) (k : A -> prog orchestrator log_record B) :
  contained m ->
  (forall s a, snd (m s) = Ok a -> P a) ->
  (forall a, P a -> contained (k a)) ->
  contained (m ≫= k).
Proof.
  intros Hm HP Hk s e. specialize (Hm s). specialize (HP s). run_prog.
  destruct (m s) as [[s1 t1] [a|e1]]; cbn in *.
  - specialize (Hk a (HP a eq_refl) s1 e). destruct (k a s1) as [[s2 t2] r]. exact Hk.
  - intros [= <-]. apply Hm. reflexivity.
Qed.

Lemma settle_result {A : Type} (m : prog orchestrator log_record A) (s : orchestrator) :
  contained m ->
  exists s1 t1 r, settle m s = (s1, t1, Ok r) /\ benign_result r.
Proof.
  intros Hm. specialize (Hm s). unfold settle.
  destruct (m s) as [[s1 t1] r]. exists s1, t1, r. split; [reflexivity|].
  intros e ->. apply Hm. reflexivity.
Qed.

Lemma contained_gather {A : Type} (a b c d : prog orchestrator log_record A) :
  contained a -> contained b -> contained c -> contained d -> contained (gather a b c d).
Proof.
  intros Ha Hb Hc Hd s e. unfold gather. run_prog.
  destruct (settle_result a s Ha) as (s1 & t1 & ra & -> & Hra).
  destruct (settle_result b s1 Hb) as (s2 & t2 & rb & -> & Hrb).
  destruct (settle_result c s2 Hc) as (s3 & t3 & rc & -> & Hrc).
  destruct (settle_result d s3 Hd) as (s4 & t4 & rd & -> & Hrd).
  destruct ra as [x|ea]; [|cbn; intros [= <-]; apply Hra; reflexivity].
  destruct rb as [y|eb]; [|cbn; intros [= <-]; apply Hrb; reflexivity].
  destruct rc as [z|ec]; [|cbn; intros [= <-]; apply Hrc; reflexivity].
  destruct rd as [u|ed]; [|cbn; intros [= <-]; apply Hrd; reflexivity].
  cbn. discriminate.
Qed.

Lemma contained_create_agent label provider n d p :
  benign_result provider -> contained (create_agent w label provider n d p).
Proof.
  intros Hp. unfold create_agent, logger_info, logger_warning.
  apply contained_bind.
  - apply contained_try_except.
    + apply contained_bind; [apply contained_lift, Hp|]. intros ts.
      apply contained_bind; [apply contained_emit|]. intros _. apply contained_ret.
    + intros e. apply contained_bind; [apply contained_emit|]. intros _. apply contained_ret.
  - intros ts. apply contained_bind; [apply contained_lift, (benign_timezone w Hw)|].
    intros _. apply contained_lift. unfold AssistantAgent. intros e.
    destruct (agent_rejected w _) as [e'|] eqn:E; [|discriminate].
    intros [= <-]. exact (benign_agent w Hw _ _ E).
Qed.

Lemma contained_initialize : contained (_initialize_agents ep wp cp sp w).
Proof.
  unfold _initialize_agents, logger_info.
  apply contained_bind; [apply contained_get|]. intros self.
  destruct (_agents_initialized self); [apply contained_ret|].
  apply contained_bind; [apply contained_emit|]. intros _.
  apply contained_bind.
  - apply contained_gather; apply contained_create_agent; apply Hw.
  - intros [[[e wa] c] s].
    repeat (apply contained_bind;
            [first [apply contained_get | apply contained_put | apply contained_emit]|];
            intros ?).
    apply contained_emit.
Qed.

Lemma benign_getattr (msg : message) (a : string) :
  benign_message msg -> benign_result (getattr msg a).
Proof.
  intros Hm e. unfold getattr. destruct (attrs msg !! a) as [[v|e']|] eqn:E.
  - discriminate.
  - intros [= <-]. exact (Hm a e' E).
  - intros [= <-]. reflexivity.
Qed.

Lemma benign_hasattr (msg : message) (a : string) :
  benign_message msg -> benign_result (hasattr msg a).
Proof.
  intros Hm e. unfold hasattr. pose proof (benign_getattr msg a Hm) as Hg.
  destruct (getattr msg a) as [v|e']; [discriminate|].
  destruct (is_AttributeError e'); [discriminate|].
  intros [= <-]. apply Hg. reflexivity.
Qed.

Lemma benign_getattr_default (msg : message) (a : string) (d : pyobj) :
  benign_message msg -> benign_result (getattr_default msg a d).
Proof.
  intros Hm e. unfold getattr_default. pose proof (benign_getattr msg a Hm) as Hg.
  destruct (getattr msg a) as [v|e']; [discriminate|].
  destruct (is_AttributeError e'); [discriminate|].
  intros [= <-]. apply Hg. reflexivity.
Qed.

Lemma contained_read (msg : message) (a : string) :
  benign_message msg ->
  contained (try_except (lift (getattr msg a)) (fun _ => mret PNone)).
Proof.
  intros Hm. apply contained_try_except.
  - apply contained_lift, benign_getattr, Hm.
  - intros _. apply contained_ret.
Qed.

Lemma contained_first_attr (msg : message) (names : list string) :
  benign_message msg -> contained (first_attr names msg).
Proof.
  intros Hm. induction names as [|a names IH]; cbn [first_attr]; [apply contained_ret|].
  apply contained_bind; [apply contained_lift, benign_hasattr, Hm|]. intros [|]; [|exact IH].
  apply contained_bind; [apply contained_read, Hm|]. intros v.
  destruct (is_None v); [exact IH | apply contained_ret].
Qed.

Lemma contained_agent_name_of (msg : message) :
  benign_message msg -> contained (agent_name_of msg).
Proof.
  intros Hm. unfold agent_name_of.
  apply contained_bind; [apply contained_lift, benign_hasattr, Hm|]. intros [|].
  - apply contained_lift, benign_getattr, Hm.
  - apply contained_bind; [apply contained_first_attr, Hm|]. intros v.
    destruct (is_None v); apply contained_ret.
Qed.

Lemma contained_content_of (msg : message) :
  benign_message msg -> contained (content_of msg).
Proof.
  intros Hm. unfold content_of.
  apply contained_bind; [apply contained_lift, benign_hasattr, Hm|]. intros has.
  apply contained_bind.
  - destruct has; [apply contained_read, Hm | apply contained_ret].
  - intros v. apply contained_bind.
    + destruct (is_None v); [apply contained_first_attr, Hm | apply contained_ret].
    + intros v'. destruct (is_None v'); apply contained_ret.
Qed.

Lemma contained_log_steps (msgs : list message) :
  Forall benign_message msgs -> forall idx, contained (log_steps idx msgs).
Proof.
  induction 1 as [|msg msgs Hm _ IH]; intros idx; cbn [log_steps]; [apply contained_ret|].
  apply contained_bind; [apply contained_agent_name_of, Hm|]. intros n.
  apply contained_bind; [apply contained_content_of, Hm|]. intros c.
  apply contained_bind; [apply contained_emit|]. intros _. apply IH.
Qed.

Lemma contained_final_response (result : chat_result) :
  benign_chat result -> contained (final_response result).
Proof.
  unfold benign_chat, final_response, logger_info, logger_warning.
  destruct (messages result) as [[|msgs]|]; cbn [default from_option id]; intros Hm;
    try (apply contained_bind; [apply contained_emit|]; intros _; apply contained_ret).
  destruct msgs as [|m0 msgs'];
    [apply contained_bind; [apply contained_emit|]; intros _; apply contained_ret|].
  apply contained_bind; [apply contained_emit|]. intros _.
  apply contained_bind; [apply contained_log_steps, Hm|]. intros _.
  apply (contained_bind_with benign_message).
  - destruct (last (m0 :: msgs')); [apply contained_ret | apply contained_raise; reflexivity].
  - intros s final_msg. destruct (last (m0 :: msgs')) as [m|] eqn:Hlast; run_prog; cbn;
      [|discriminate].
    intros [= <-]. rewrite Forall_forall in Hm. apply Hm.
    apply last_Some in Hlast as [l' ->]. apply elem_of_app. right.
    apply list_elem_of_singleton. reflexivity.
  - intros final_msg Hfinal.
    apply contained_bind; [apply contained_lift, benign_getattr_default, Hfinal|].
    intros v. apply contained_bind; [apply contained_emit|]. intros _. apply contained_ret.
Qed.

Lemma contained_try_block (user_input : string) :
  contained (try_block ep wp cp sp fp w user_input).
Proof.
  unfold try_block, logger_info.
  apply contained_bind; [apply contained_emit|]. intros _.
  apply contained_bind; [apply contained_emit|]. intros _.
  apply contained_bind; [apply contained_initialize|]. intros _.
  apply contained_bind; [apply contained_get|]. intros self.
  apply contained_bind.
  - apply contained_lift. intros e.
    destruct (team_rejected w (agent_list self) fp) as [e'|] eqn:E; [|discriminate].
    intros [= <-]. exact (benign_team w Hw _ _ _ E).
  - intros _. apply contained_bind; [apply contained_emit|]. intros _.
    apply (contained_bind_with benign_chat).
    + apply contained_lift, (benign_run w Hw).
    + intros s r. run_prog. cbn. intros H.
      destruct (team_run w (agent_list self) fp user_input) as [r'|] eqn:E; [|discriminate].
      injection H as <-. exact (benign_messages w Hw _ _ _ _ E).
    + intros r Hr. apply contained_final_response, Hr.
Qed.
End Containment.

(** C1, as stated, fails: when the task that runs the request is cancelled
    while it awaits the collaboration run, [CancelledError], which does not
    derive from [Exception], leaves [process_request]. *)
Lemma cancellation_escapes_process_request :
  outcome (process_request "e" "w" "c" "s" "f" cancelled "Weather in Mumbai?" __init__)
  = Raise (Exn CancelledError EmptyString).
Proof. vm_compute. reflexivity. Qed.

(** C1, amended.  [process_request] lets no exception deriving from
    [Exception] escape: when its body returns a value the call returns that
    value; when its body raises an exception deriving from [Exception],
    wherever that happens, the call returns the string "Error: " followed by
    the exception's string form; only an exception outside the [Exception]
    hierarchy goes through.  Hence, in a world whose collaborators raise
    only exceptions deriving from [Exception], the call always returns. *)
Theorem process_request_catches_Exception (ep wp cp sp fp : string) (w : world)
    (user_input : string) (self : orchestrator) :
  let body := try_block ep wp cp sp fp w user_input self in
  let call := process_request ep wp cp sp fp w user_input self in
  match outcome body with
  | Ok v => outcome call = Ok v
  | Raise e =>
      if is_Exception e
      then outcome call = Ok (PStr ("Error: " +:+ exn_str e))
      else outcome call = Raise e
  end
  /\ state_after call = state_after body
  /\ (forall e, outcome call = Raise e -> is_Exception e = false)
  /\ (benign w -> exists v, outcome call = Ok v).
Proof.
  intros body call.
  assert (Hcontained : benign w -> forall e, outcome body = Raise e -> is_Exception e = true).
  { intros Hw e. apply (contained_try_block ep wp cp sp fp w Hw user_input self). }
  revert Hcontained. subst body call.
  unfold process_request, outcome, state_after, logger_error. run_prog.
  destruct (try_block ep wp cp sp fp w user_input self) as [[s t] [v|e]]; cbn; intros Hc.
  - split; [reflexivity|]. split; [reflexivity|]. split; [discriminate|]. eauto.
  - destruct (is_Exception e) eqn:E; cbn.
    + split; [reflexivity|]. split; [reflexivity|]. split; [discriminate|]. eauto.
    + split; [reflexivity|]. split; [reflexivity|]. split.
      * intros e' [= <-]. exact E.
      * intros Hw. rewrite (Hc Hw e eq_refl) in E. discriminate.
Qed.

Lemma process_request_catches_Exception_witness :
  outcome (process_request "e" "w" "c" "s" "f" unauthorized "Weather in Mumbai?" __init__)
  = Ok (PStr "Error: Incorrect API key")
  /\ exists v,
       outcome (process_request "e" "w" "c" "s" "f" unauthorized "Weather in Mumbai?" __init__)
       = Ok v.
Proof.
  destruct (process_request_catches_Exception "e" "w" "c" "s" "f" unauthorized
              "Weather in Mumbai?" __init__) as (H & _ & _ & Hbenign).
  split.
  - vm_compute in H. vm_compute. exact H.
  - apply Hbenign. constructor; cbn;
      try (intros e [= <-]; reflexivity); try (intros e [=]); try discriminate;
      try (intros ? ? ? e [= <-]; reflexivity); try (intros ? ? ? ? [=]).
Defined.

(** An exception of the collaboration run, of the initialization and of
    the response normalization, each turned into an error string. *)
Example run_error_reported :
  outcome (process_request "e" "w" "c" "s" "f" unauthorized "Weather in Mumbai?" __init__)
  = Ok (PStr "Error: Incorrect API key").
Proof. vm_compute. reflexivity. Qed.

Example initialization_error_reported :
  outcome (process_request "e" "w" "c" "s" "f" broken_search "Weather in Mumbai?" __init__)
  = Ok (PStr "Error: Tool names must be unique").
Proof. vm_compute. reflexivity. Qed.

Example normalization_error_reported :
  outcome (process_request "e" "w" "c" "s" "f" faulty_message "Weather in Mumbai?" __init__)
  = Ok (PStr "Error: content is not available").
Proof. vm_compute. reflexivity. Qed.

(** The returned value is the last content as it is, a string or not. *)
Example list_content_returned_as_is :
  outcome (process_request "e" "w" "c" "s" "f" multimodal "Find a picture" __init__)
  = Ok (PObj true "['Here it is', <Image>]").
Proof. vm_compute. reflexivity. Qed.


Lemma text_message_plain (source content : string) : plain (text_message source content).
Proof.
  intros a e H. unfold text_message in H. cbn [attrs] in H.
  apply lookup_insert_Some in H as [[_ H]|[_ H]]; [discriminate|].
  apply lookup_singleton_Some in H as [_ H]. discriminate.
Qed.


(** An empty content is falsy: the string form of the message is returned. *)
Example empty_content_falls_back :
  outcome (process_request "e" "w" "c" "s" "f" empty_content "Anything new?" __init__)
  = Ok (PStr "source='SearchAssistant' content=''").
Proof. vm_compute. reflexivity. Qed.

End OrchestratorFacts.
(* ===================================================================== *)
(** * Properties of the weather tools *)
(* ===================================================================== *)

Module WeatherFacts.
Import Weather.

Section Facts.
Context {float : Type}.
Variable float_of_str : string -> option float.
Variable float_add : float -> float -> float.
Variable float_of_int : Z -> float.
Variable format_f : nat -> float -> string.
Variable float_str : float -> string.
Variable strftime : string -> string -> result string.
Variable current_hour : Z.
Variable sv : @services float.

(** What follows the data fetch in an operation makes no call. *)
Lemma calls_after_fetch (location : string) (k : @weather_data float -> result string)
    (h : exn -> string) :
  calls (try_except (data ← _get_weather_data float_of_str format_f sv location; lift (k data)) (fun e => mret (h e)))
  = calls (_get_weather_data float_of_str format_f sv location).
Proof.
  unfold calls. run_prog.
  destruct (_get_weather_data float_of_str format_f sv location tt) as [[s t] [d|e]]; cbn.
  - destruct (k d) as [v|e]; cbn; [|destruct (is_Exception e); cbn];
      rewrite ?app_nil_r; reflexivity.
  - destruct (is_Exception e); cbn; rewrite ?app_nil_r; reflexivity.
Qed.

Lemma fetch_coordinates (location : string) (lat_f lon_f : float) :
  coordinates float_of_str location lat_f lon_f ->
  calls (_get_weather_data float_of_str format_f sv location) = [open_meteo_get lat_f lon_f].
Proof.
  intros (p1 & p2 & Hparts & H1 & H2).
  unfold calls, _get_weather_data, to_float. rewrite Hparts, H1, H2. run_prog. cbn.
  destruct (open_meteo sv lat_f lon_f) as [d|e]; cbn; [reflexivity|].
  destruct (is_Exception e); reflexivity.
Qed.

Lemma geocode_calls (city : string) :
  exists r, _geocode float_of_str sv city tt = (tt, [nominatim_get city], r).
Proof.
  unfold _geocode, to_float, item. run_prog.
  destruct (nominatim sv city) as [[|[la lo] ps]|e]; cbn.
  - eexists; reflexivity.
  - destruct la as [la|]; cbn; [|eexists; reflexivity].
    destruct (float_of_str la); cbn; [|eexists; reflexivity].
    destruct lo as [lo|]; cbn; [|eexists; reflexivity].
    destruct (float_of_str lo); cbn; eexists; reflexivity.
  - destruct (is_Exception e); cbn; eexists; reflexivity.
Qed.

(** Without coordinates, the first call goes to the geocoder, with the
    location as the query. *)
Lemma fetch_geocodes (location : string) :
  (forall lat_f lon_f, ~ coordinates float_of_str location lat_f lon_f) ->
  exists rest, calls (_get_weather_data float_of_str format_f sv location) = nominatim_get location :: rest.
Proof.
  intros Hno. unfold calls, _get_weather_data.
  destruct (geocode_calls location) as [r Hg].
  assert (Hdirect : exists rest,
    snd (fst ((
      '(lat_f, lon_f, location_name) ← try_except
         ('(lat_f, lon_f) ← _geocode float_of_str sv location;
          mret (lat_f, lon_f, location))
         (fun e => raise (Exn RuntimeError ("Location error: " +:+ exn_str e)));
      data ← try_except
         (_ ← emit (open_meteo_get lat_f lon_f); lift (open_meteo sv lat_f lon_f))
         (fun e => raise (Exn RuntimeError ("Weather API error: " +:+ exn_str e)));
      mret {| data_location := location_name;
              data_current := current_weather data;
              data_hourly := default no_hourly (hourly data);
              data_daily := default no_daily (daily data);
              data_coordinates := (lat_f, lon_f) |}) tt))
    = nominatim_get location :: rest).
  { run_prog. rewrite Hg. destruct r as [[la lo]|e]; cbn.
    - destruct (open_meteo sv la lo) as [d|e]; cbn; [eexists; reflexivity|].
      destruct (is_Exception e); eexists; reflexivity.
    - destruct (is_Exception e); cbn; eexists; reflexivity. }
  destruct (map strip (split "," location)) as [|p1 [|p2 [|p3 ps]]] eqn:Hparts;
    try exact Hdirect.
  unfold to_float. run_prog.
  destruct (float_of_str p1) as [x1|] eqn:H1; cbn.
  - destruct (float_of_str p2) as [x2|] eqn:H2; cbn.
    + exfalso. apply (Hno x1 x2). exists p1, p2. auto.
    + rewrite Hg. destruct r as [[la lo]|e]; cbn.
      * destruct (open_meteo sv la lo) as [d|e]; cbn; [eexists; reflexivity|].
        destruct (is_Exception e); eexists; reflexivity.
      * destruct (is_Exception e); cbn; eexists; reflexivity.
  - rewrite Hg. destruct r as [[la lo]|e]; cbn.
    + destruct (open_meteo sv la lo) as [d|e]; cbn; [eexists; reflexivity|].
      destruct (is_Exception e); eexists; reflexivity.
    + destruct (is_Exception e); cbn; eexists; reflexivity.
Qed.


Lemma operations_calls (location forecast_type time_period : string) :
  Forall (fun op => calls op = calls (_get_weather_data float_of_str format_f sv location))
    (weather_operations float_of_str float_add float_of_int format_f float_str
       strftime current_hour sv location forecast_type time_period).
Proof.
  unfold weather_operations, get_current_weather, get_weather_forecast, check_rain_probability.
  repeat constructor; apply calls_after_fetch.
Qed.
End Facts.

(** ** Slices, maxima and positions *)

Lemma slice_length_le {A : Type} (l : list A) (a b : Z) :
  0 <= a -> a <= b -> (length (slice l a b) <= Z.to_nat (b - a))%nat.
Proof.
  intros Ha Hab. unfold slice. rewrite length_firstn.
  destruct (a <? 0) eqn:Ea; [apply Z.ltb_lt in Ea; lia|].
  destruct (b <? 0) eqn:Eb; [apply Z.ltb_lt in Eb; lia|]. lia.
Qed.










Section RainReport.
Context {float : Type}.
Variable float_of_str : string -> option float.
Variable float_add : float -> float -> float.
Variable float_of_int : Z -> float.
Variable format_f : nat -> float -> string.
Variable current_hour : Z.


End RainReport.



Example rain_tomorrow :
  returned (Rational.check_rain_probability 9 "Paris" "tomorrow")
  = Ok ("Rain forecast for Paris tomorrow:" +:+ nl
        +:+ "• Maximum rain probability: 80%" +:+ nl
        +:+ "• Expected precipitation: 6.2mm" +:+ nl
        +:+ "• Peak rain time: 2025-06-16T12:00" +:+ nl
        +:+ "• Rain is very likely").
Proof. vm_compute. reflexivity. Qed.

(** Late in the evening the window of "this evening" is empty. *)
Example no_evening_left :
  returned (Rational.check_rain_probability 23 "48, 2" "this_evening")
  = Ok "No forecast data available for this evening".
Proof. vm_compute. reflexivity. Qed.

(** C10.  When the location splits at commas into exactly two parts that
    both read as floats, each of [get_current_weather],
    [get_weather_forecast] and [check_rain_probability] makes a single
    call, the forecast request for that latitude and longitude, and none to
    the geocoder; conversely an operation that calls the geocoder was given
    a location that is not of that shape. *)
Theorem coordinates_bypass_geocoder {float : Type} (float_of_str : string -> option float)
    (float_add : float -> float -> float) (float_of_int : Z -> float)
    (format_f : nat -> float -> string) (float_str : float -> string)
    (strftime : string -> string -> result string) (current_hour : Z)
    (sv : @services float) (location forecast_type time_period : string) :
  let operations :=
    weather_operations float_of_str float_add float_of_int format_f float_str
      strftime current_hour sv location forecast_type time_period in
  (forall lat_f lon_f,
     coordinates float_of_str location lat_f lon_f ->
     Forall (fun op => calls op = [open_meteo_get lat_f lon_f]) operations)
  /\ Forall (fun op => geocoder_called (calls op) = true ->
                       forall lat_f lon_f, ~ coordinates float_of_str location lat_f lon_f)
       operations.
Proof.
  intros operations.
  pose proof (operations_calls float_of_str float_add float_of_int format_f float_str
                strftime current_hour sv location forecast_type time_period) as Hops.
  fold operations in Hops.
  assert (Hcoord : forall lat_f lon_f,
     coordinates float_of_str location lat_f lon_f ->
     Forall (fun op => calls op = [open_meteo_get lat_f lon_f]) operations).
  { intros lat_f lon_f Hc. eapply Forall_impl; [exact Hops|].
    intros op ->. apply fetch_coordinates. exact Hc. }
  split; [exact Hcoord|].
  eapply Forall_impl; [exact Hops|].
  intros op Hop Hcalled lat_f lon_f Hc.
  rewrite Hop, (fetch_coordinates _ _ _ _ _ _ Hc) in Hcalled. discriminate.
Qed.

Lemma coordinates_bypass_geocoder_witness :
  Forall (fun op => calls op = [open_meteo_get 48%Q 2%Q])
    [Rational.get_current_weather "48, 2";
     Rational.get_weather_forecast "48, 2" "hourly";
     Rational.check_rain_probability 9 "48, 2" "today"].
Proof.
  apply (proj1 (coordinates_bypass_geocoder (float:=Q) Rational.float_of_str Qplus inject_Z
                  Rational.format_f Rational.float_str Rational.strftime 9
                  Rational.sample_services "48, 2" "hourly" "today")).
  exists "48", "2". repeat split; reflexivity.
Defined.

(** A name, or a pair whose second part is no number, goes to the geocoder. *)
Example city_name_is_geocoded :
  calls (Rational.check_rain_probability 9 "Paris" "tomorrow")
  = [nominatim_get "Paris"; open_meteo_get 48%Q 2%Q].
Proof. vm_compute. reflexivity. Qed.

Example malformed_pair_is_geocoded :
  calls (Rational.get_weather_forecast "48,x" "hourly") = [nominatim_get "48,x"].
Proof. vm_compute. reflexivity. Qed.

End WeatherFacts.
(* ===================================================================== *)
(** * Properties of the calendar tools *)
(* ===================================================================== *)

Module CalendarFacts.
Import Calendar.

(** ** Stripped fields *)

Lemma lstrip_head (s : string) (c : ascii) (r : string) :
  lstrip s = String c r -> isspace c = false.
Proof.
  induction s as [|d s IH]; cbn [lstrip]; [discriminate|].
  destruct (isspace d) eqn:E; [exact IH|]. intros [= <- _]. exact E.
Qed.

Lemma rstrip_head (c : ascii) (s : string) :
  isspace c = false -> exists r, rstrip (String c s) = String c r.
Proof.
  intros E. cbn [rstrip]. destruct (rstrip s); [rewrite E|]; eexists; reflexivity.
Qed.






Lemma field_is_stripped (input_str field : string) :
  In field (fields input_str) -> exists x, field = strip x.
Proof.
  unfold fields. intros H. apply in_map_iff in H as (x & <- & _). exists x. reflexivity.
Qed.



(** ** [insert_event] *)

Section Insert.
Context {float datetime : Type}.
Variable float_of_str : string -> result float.
Variable fromisoformat : string -> result datetime.
Variable plus_hours : datetime -> float -> result datetime.
Variable isoformat : datetime -> string.
Variable default_timezone : string.
Variable w : world.



End Insert.



Example recurrence_dropped :
  Sample.insert_event "Sync | 2025-06-15 | 14:30 | 1 | a@x.com,b@x.com | desc | every monday" false
  = (true,
     [get_calendar_service;
      events_insert "primary"
        {| body_summary := "Sync"; body_description := "desc";
           body_start := ("2025-06-15T14:30:00", "Asia/Kolkata");
           body_end := ("2025-06-15T15:30:00", "Asia/Kolkata");
           attendees := ["a@x.com"; "b@x.com"];
           requestId := "7d9f1c1e-0000-4000-8000-000000000001";
           recurrence := None |} 1 "all"],
     Ok ("Created event 'Sync'" +:+ nl +:+ "When: 2025-06-15 14:30 (1h)" +:+ nl
         +:+ "Attendees: a@x.com,b@x.com" +:+ nl
         +:+ "Meet: https://meet.google.com/abc-defg-hij")).
Proof. vm_compute. reflexivity. Qed.

Example recurrence_kept :
  insertions (calls (Sample.insert_event
    "Sync | 2025-06-15 | 14:30 | 1 | a@x.com | desc | Daily until 2025-12-31") false)
  = [{| body_summary := "Sync"; body_description := "desc";
        body_start := ("2025-06-15T14:30:00", "Asia/Kolkata");
        body_end := ("2025-06-15T15:30:00", "Asia/Kolkata");
        attendees := ["a@x.com"];
        requestId := "7d9f1c1e-0000-4000-8000-000000000001";
        recurrence := Some ["RRULE:FREQ=DAILY;UNTIL=20251231T000000Z"] |}].
Proof. vm_compute. reflexivity. Qed.


(** ** [list_events] *)

Lemma event_lines_length (events : list event) : forall i ls,
  event_lines i events = Ok ls -> length ls = length events.
Proof.
  induction events as [|ev events IH]; intros i ls; cbn [event_lines]; run_prog.
  - intros [= <-]. reflexivity.
  - destruct (item (start ev) "start"); [|discriminate].
    destruct (event_lines (S i) events) as [more|] eqn:E; [|discriminate].
    intros [= <-]. cbn. f_equal. eapply IH. exact E.
Qed.

(** C8.  For an input "<cal_id> | <N>" with N an integer literal,
    [list_events] reads the calendar id and does not use it: every listing
    it requests is for the "primary" calendar, from now on, with
    [maxResults] N, single events ordered by start time, and it is requested
    once when the service is at hand; the whole run is the same for any
    other calendar id; and the returned listing has one line per event of
    the answer, hence at most N when the service honours [maxResults]. *)
Theorem list_events_ignores_calendar_id (w : world) (input_str cal_id max_res : string)
    (n : Z) (service : bool) :
  fields input_str = [cal_id; max_res] ->
  int_of_str max_res = Some n ->
  let request := {| calendarId := "primary"; timeMin := utcnow w +:+ "Z"; maxResults := n;
                    singleEvents := true; orderBy := Some "startTime" |} in
  Forall (fun r => r = request) (listings (calls (list_events w input_str) service))
  /\ (service = true \/ service_failure w = None ->
      listings (calls (list_events w input_str) service) = [request])
  /\ (forall other_input other_id,
        fields other_input = [other_id; max_res] ->
        list_events w other_input service = list_events w input_str service)
  /\ (forall events ls,
        service = true \/ service_failure w = None ->
        list_events_response w request = Ok events ->
        events <> [] ->
        event_lines 1 events = Ok ls ->
        returned (list_events w input_str) service = Ok (lines ("Upcoming events:" :: ls))
        /\ length ls = length events
        /\ (Z.of_nat (length events) <= n -> Z.of_nat (length ls) <= n)).
Proof.
  intros Hfields Hint request.
  split; [|split; [|split]].
  - unfold calls, list_events, _get_service, int. fold (fields input_str).
    rewrite Hfields, Hint. run_prog. cbn -[event_lines lines]. fold request.
    destruct service; cbn -[event_lines lines]; cases_of_listing; repeat constructor.
  - intros Hsvc.
    unfold calls, list_events, _get_service, int. fold (fields input_str).
    rewrite Hfields, Hint. run_prog. cbn -[event_lines lines]. fold request.
    destruct service; cbn -[event_lines lines];
      [|destruct Hsvc as [Hsvc|Hsvc]; [discriminate|]; rewrite Hsvc; cbn -[event_lines lines]];
      cases_of_listing; reflexivity.
  - intros other_input other_id Hother.
    unfold list_events. fold (fields other_input) (fields input_str).
    rewrite Hother, Hfields. reflexivity.
  - intros events ls Hsvc Hresp Hne Hlines.
    split; [|split; [eapply event_lines_length; exact Hlines|]].
    + unfold returned, list_events, _get_service, int. fold (fields input_str).
      rewrite Hfields, Hint. run_prog. cbn -[event_lines lines]. fold request.
      destruct events as [|ev evs]; [contradiction|].
      destruct service; cbn -[event_lines lines];
        [|destruct Hsvc as [Hsvc|Hsvc]; [discriminate|]; rewrite Hsvc; cbn -[event_lines lines]];
        rewrite Hresp; cbn -[event_lines lines]; rewrite Hlines; reflexivity.
    + rewrite (event_lines_length _ _ _ Hlines). tauto.
Qed.

Lemma list_events_ignores_calendar_id_witness :
  listings (calls (Sample.list_events [Sample.standup; Sample.untitled; Sample.review]
                     "work | 2") false)
  = [{| calendarId := "primary"; timeMin := "2025-06-15T08:00:00Z"; maxResults := 2;
        singleEvents := true; orderBy := Some "startTime" |}].
Proof.
  destruct (list_events_ignores_calendar_id
              (Sample.agenda [Sample.standup; Sample.untitled; Sample.review])
              "work | 2" "work" "2" 2 false eq_refl eq_refl) as (_ & H & _).
  apply H. right. reflexivity.
Defined.

Example listing_of_two :
  returned (Sample.list_events [Sample.standup; Sample.untitled; Sample.review] "work | 2") false
  = Ok ("Upcoming events:" +:+ nl
        +:+ "1. 2025-06-16T09:00:00+05:30: Daily Standup - Daily team sync..." +:+ nl
        +:+ "2. 2025-06-15T18:00:00+05:30: (no title)").
Proof. vm_compute. reflexivity. Qed.


(** ** [delete_event] *)

Section Delete.
Variable w : world.

(** The loop deletes the first event whose title contains the query and
    stops there, provided that event carries an id and a title. *)
Lemma delete_first_match_found (query scope : string) (before after : list event)
    (ev : event) (event_id title : string) (service : bool) :
  Forall (fun e => title_matches query e = false) before ->
  title_matches query ev = true ->
  id ev = Some event_id ->
  summary ev = Some title ->
  delete_first_match w query scope (before ++ ev :: after) service
  = (service, [events_delete "primary" event_id "all"],
     match delete_response w "primary" event_id "all" with
     | Ok _ => Ok ("Deleted event '" +:+ title +:+ "' "
                   +:+ (if String.eqb scope "all" then "(entire series)" else EmptyString))
     | Raise e => Raise e
     end).
Proof.
  intros Hbefore Hmatch Hid Htitle.
  induction Hbefore as [|e before He _ IH]; cbn [app delete_first_match].
  - rewrite Hmatch, Hid, Htitle. run_prog. cbn.
    destruct (delete_response w "primary" event_id "all") as [[]|]; reflexivity.
  - rewrite He. exact IH.
Qed.

Lemma delete_first_match_none (query scope : string) (events : list event) (service : bool) :
  Forall (fun e => title_matches query e = false) events ->
  delete_first_match w query scope events service
  = (service, [], Ok ("No event found matching '" +:+ query +:+ "'")).
Proof.
  induction 1 as [|e events He _ IH]; cbn [delete_first_match]; [reflexivity|].
  rewrite He. exact IH.
Qed.

(** [delete_event] on a service at hand: one listing of the upcoming
    events of the primary calendar, at most fifty, recurring events left
    unexpanded exactly when the scope is "all"; then the first event whose
    title contains the query, whatever the case, is deleted and no other. *)
Lemma delete_event_first_match (input_str : string) (before after : list event)
    (ev : event) (event_id title : string) :
  let query := lower (List.hd EmptyString (fields input_str)) in
  list_events_response w (deletion_listing w input_str) = Ok (before ++ ev :: after) ->
  Forall (fun e => title_matches query e = false) before ->
  title_matches query ev = true ->
  id ev = Some event_id ->
  summary ev = Some title ->
  delete_response w "primary" event_id "all" = Ok tt ->
  delete_event w input_str true
  = (true,
     [events_list (deletion_listing w input_str); events_delete "primary" event_id "all"],
     Ok ("Deleted event '" +:+ title +:+ "' "
         +:+ (if String.eqb (scope_of (fields input_str)) "all"
              then "(entire series)" else EmptyString))).
Proof.
  intros query Hlist Hbefore Hmatch Hid Htitle Hdel.
  unfold delete_event, _get_service, deletion_listing in *.
  fold (fields input_str) in *. fold query. run_prog. cbn [fst snd].
  rewrite Hlist.
  rewrite (delete_first_match_found query _ before after ev event_id title true
             Hbefore Hmatch Hid Htitle).
  rewrite Hdel. reflexivity.
Qed.

Lemma delete_event_no_match (input_str : string) (events : list event) :
  let query := lower (List.hd EmptyString (fields input_str)) in
  list_events_response w (deletion_listing w input_str) = Ok events ->
  Forall (fun e => title_matches query e = false) events ->
  delete_event w input_str true
  = (true, [events_list (deletion_listing w input_str)],
     Ok ("No event found matching '" +:+ query +:+ "'")).
Proof.
  intros query Hlist Hnone.
  unfold delete_event, _get_service, deletion_listing in *.
  fold (fields input_str) in *. fold query. run_prog. cbn [fst snd].
  rewrite Hlist. rewrite (delete_first_match_none query _ events true Hnone). reflexivity.
Qed.
End Delete.

Example first_standup_deleted :
  Sample.delete_event [Sample.untitled; Sample.standup; Sample.review; Sample.standup_again]
    "STANDUP" false
  = (true,
     [get_calendar_service;
      events_list {| calendarId := "primary"; timeMin := "2025-06-15T08:00:00Z";
                     maxResults := 50; singleEvents := true; orderBy := Some "startTime" |};
      events_delete "primary" "ev1" "all"],
     Ok "Deleted event 'Daily Standup' ").
Proof. vm_compute. reflexivity. Qed.

Example series_deleted :
  Sample.delete_event [Sample.untitled; Sample.standup; Sample.review; Sample.standup_again]
    "Standup | Scope=ALL" false
  = (true,
     [get_calendar_service;
      events_list {| calendarId := "primary"; timeMin := "2025-06-15T08:00:00Z";
                     maxResults := 50; singleEvents := false; orderBy := None |};
      events_delete "primary" "ev1" "all"],
     Ok "Deleted event 'Daily Standup' (entire series)").
Proof. vm_compute. reflexivity. Qed.

Example nothing_to_delete :
  Sample.delete_event [Sample.untitled; Sample.standup; Sample.review] "lunch" false
  = (true,
     [get_calendar_service;
      events_list {| calendarId := "primary"; timeMin := "2025-06-15T08:00:00Z";
                     maxResults := 50; singleEvents := true; orderBy := Some "startTime" |}],
     Ok "No event found matching 'lunch'").
Proof. vm_compute. reflexivity. Qed.

(** C7.  The claim: [delete_event] deletes exactly the first event of the
    listing whose title contains the query, and answers "No event found"
    when there is none.  The code departs from it on an event without a
    title: the match test reads the title with a default, so the empty query
    matches such an event, but the title is then read without a default and
    the lookup raises; the call deletes nothing, neither this event nor the
    titled one that follows, and returns an error string. *)
Theorem delete_event_untitled_match :
  Sample.delete_event [Sample.untitled; Sample.standup] EmptyString false
  = (true,
     [get_calendar_service;
      events_list {| calendarId := "primary"; timeMin := "2025-06-15T08:00:00Z";
                     maxResults := 50; singleEvents := true; orderBy := Some "startTime" |}],
     Ok "Error deleting event: 'summary'")
  /\ title_matches EmptyString Sample.untitled = true
  /\ deletions (calls (Sample.delete_event [Sample.untitled; Sample.standup] EmptyString) false) = [].
Proof. vm_compute. repeat split. Qed.

End CalendarFacts.
(* ===================================================================== *)
(** * Further properties of main.py *)
(* ===================================================================== *)

Module WebhookMore.
Import Webhook Orchestrator Mention.

Lemma too_old_false (now : Q) (t : Z) :
  (Qabs (now - inject_Z t) <= inject_Z 300)%Q -> too_old now t = false.
Proof.
  intros H. unfold too_old. change (60 * 5) with 300.
  apply Qle_bool_iff in H. rewrite H. reflexivity.
Qed.

Lemma not_url_verification (m : gmap string pyval) :
  m !! "type" <> Some (VStr "url_verification") ->
  eq_str (default VNone (m !! "type")) "url_verification" = false.
Proof.
  intros H. apply WebhookFacts.eq_str_false. intros E. apply H.
  destruct (m !! "type"); cbn in E; [subst; reflexivity | discriminate].
Qed.

(** X1.  A request with a fresh timestamp whose signature the verifier
    refuses is answered 400 "Invalid Slack signature"; the verifier was
    called once, on the raw body and the two headers, and nothing was
    scheduled. *)
Theorem invalid_signature_rejected
    (is_valid : string -> string -> option string -> bool) (now : Q)
    (req : request) (m : gmap string pyval) (ts : string) (t : Z) :
  json req = Ok (VDict m) ->
  m !! "type" <> Some (VStr "url_verification") ->
  x_slack_request_timestamp req = Some ts ->
  int_of_str ts = Some t ->
  (Qabs (now - inject_Z t) <= inject_Z 300)%Q ->
  is_valid (body_bytes req) ts (x_slack_signature req) = false ->
  post_slack_events is_valid now req
  = ([verifier_is_valid (body_bytes req) ts (x_slack_signature req)],
     HTTPError 400 "Invalid Slack signature").
Proof.
  intros Hjson Hty Hts Hint Hfresh Hsig.
  unfold post_slack_events, slack_events, int. run_prog.
  rewrite Hjson. cbn. rewrite (not_url_verification m Hty), Hts, Hint. cbn.
  rewrite (too_old_false _ _ Hfresh), Hsig. reflexivity.
Qed.

Lemma invalid_signature_rejected_witness :
  post_slack_events (fun _ _ _ => false) (inject_Z 1000) (mention "700")
  = ([verifier_is_valid "{...}" "700" (Some "v0=abc")], HTTPError 400 "Invalid Slack signature").
Proof.
  apply (invalid_signature_rejected (fun _ _ _ => false) (inject_Z 1000) (mention "700")
           {[ "type" := VStr "event_callback";
              "event" := VDict {[ "type" := VStr "app_mention"; "text" := VStr "hi" ]} ]}
           "700" 700).
  - reflexivity.
  - vm_compute. discriminate.
  - reflexivity.
  - reflexivity.
  - vm_compute. discriminate.
  - reflexivity.
Defined.

(** X2.  A request with a fresh timestamp and a signature the verifier
    accepts is answered {"ok": true}; a background task is scheduled
    exactly when the type of the payload's event is "app_mention", one task,
    for that event; a payload without event schedules nothing. *)
Theorem verified_request_dispatch
    (is_valid : string -> string -> option string -> bool) (now : Q)
    (req : request) (m em : gmap string pyval) (ts : string) (t : Z) :
  json req = Ok (VDict m) ->
  m !! "type" <> Some (VStr "url_verification") ->
  x_slack_request_timestamp req = Some ts ->
  int_of_str ts = Some t ->
  (Qabs (now - inject_Z t) <= inject_Z 300)%Q ->
  is_valid (body_bytes req) ts (x_slack_signature req) = true ->
  default (VDict ∅) (m !! "event") = VDict em ->
  post_slack_events is_valid now req
  = (verifier_is_valid (body_bytes req) ts (x_slack_signature req)
     :: (if eq_str (default VNone (em !! "type")) "app_mention"
         then [background_tasks_add_task (VDict em)]
         else []),
     JSONResponse {[ "ok" := VBool true ]})
  /\ (eq_str (default VNone (em !! "type")) "app_mention" = true
      <-> em !! "type" = Some (VStr "app_mention")).
Proof.
  intros Hjson Hty Hts Hint Hfresh Hsig Hev.
  unfold post_slack_events, slack_events, int. run_prog.
  rewrite Hjson. cbn. rewrite (not_url_verification m Hty), Hts, Hint. cbn.
  rewrite (too_old_false _ _ Hfresh), Hsig. cbn. rewrite Hev. cbn. split.
  - destruct (eq_str (default VNone (em !! "type")) "app_mention"); reflexivity.
  - rewrite WebhookFacts.eq_str_true. destruct (em !! "type") as [v|]; cbn.
    + split; [intros ->; reflexivity | intros [= ->]; reflexivity].
    + split; discriminate.
Qed.

Lemma verified_request_dispatch_witness :
  post_slack_events (fun _ _ _ => true) (inject_Z 1000) (mention "1000")
  = ([verifier_is_valid "{...}" "1000" (Some "v0=abc");
      background_tasks_add_task (VDict {[ "type" := VStr "app_mention"; "text" := VStr "hi" ]})],
     JSONResponse {[ "ok" := VBool true ]}).
Proof.
  destruct (verified_request_dispatch (fun _ _ _ => true) (inject_Z 1000) (mention "1000")
              {[ "type" := VStr "event_callback";
                 "event" := VDict {[ "type" := VStr "app_mention"; "text" := VStr "hi" ]} ]}
              {[ "type" := VStr "app_mention"; "text" := VStr "hi" ]} "1000" 1000
              eq_refl ltac:(vm_compute; discriminate) eq_refl eq_refl
              ltac:(vm_compute; discriminate) eq_refl eq_refl) as [H _].
  vm_compute in H. vm_compute. exact H.
Defined.

(** X3.  Whatever the request, a background task is scheduled only
    after the verifier accepted the signature of a request whose timestamp
    is an integer within 300 seconds of the current time; the task is for
    the payload's own event and the answer is {"ok": true}. *)
Theorem task_requires_valid_signature
    (is_valid : string -> string -> option string -> bool) (now : Q)
    (req : request) (ev : pyval) :
  In (background_tasks_add_task ev) (fst (post_slack_events is_valid now req)) ->
  exists m ts t,
    json req = Ok (VDict m)
    /\ ev = default (VDict ∅) (m !! "event")
    /\ x_slack_request_timestamp req = Some ts
    /\ int_of_str ts = Some t
    /\ (Qabs (now - inject_Z t) <= inject_Z 300)%Q
    /\ is_valid (body_bytes req) ts (x_slack_signature req) = true
    /\ snd (post_slack_events is_valid now req) = JSONResponse {[ "ok" := VBool true ]}.
Proof.
  unfold post_slack_events, slack_events, int, too_old. run_prog.
  destruct (json req) as [payload|e] eqn:Hjson; cbn; [|contradiction].
  destruct payload as [| | | | | |m]; cbn; try contradiction.
  destruct (eq_str (default VNone (m !! "type")) "url_verification"); cbn; [contradiction|].
  destruct (x_slack_request_timestamp req) as [ts|] eqn:Hts; cbn; [|contradiction].
  destruct (int_of_str ts) as [t|] eqn:Hint; cbn; [|contradiction].
  match goal with
  | |- context [Qle_bool ?a ?b] => destruct (Qle_bool a b) eqn:Hfresh; cbn; [|contradiction]
  end.
  destruct (is_valid (body_bytes req) ts (x_slack_signature req)) eqn:Hsig; cbn;
    [|intros [H|H]; [discriminate|contradiction]].
  destruct (default (VDict ∅) (m !! "event")) as [| | | | | |em] eqn:Hev; cbn;
    try (intros [H|H]; [discriminate|contradiction]).
  destruct (eq_str (default VNone (em !! "type")) "app_mention"); cbn.
  - intros [H|[H|H]]; [discriminate| |contradiction]. injection H as <-.
    exists m, ts, t.
    split; [first [reflexivity | assumption]|]. split; [symmetry; exact Hev|].
    split; [first [reflexivity | assumption]|]. split; [first [reflexivity | assumption]|].
    split; [apply Qle_bool_iff in Hfresh; exact Hfresh|].
    split; first [reflexivity | assumption].
  - intros [H|H]; [discriminate|contradiction].
Qed.

Lemma task_requires_valid_signature_witness :
  exists m ts t,
    json (mention "1000") = Ok (VDict m)
    /\ VDict {[ "type" := VStr "app_mention"; "text" := VStr "hi" ]}
       = default (VDict ∅) (m !! "event")
    /\ x_slack_request_timestamp (mention "1000") = Some ts
    /\ int_of_str ts = Some t
    /\ (Qabs (inject_Z 1000 - inject_Z t) <= inject_Z 300)%Q
    /\ true = true
    /\ snd (post_slack_events (fun _ _ _ => true) (inject_Z 1000) (mention "1000"))
       = JSONResponse {[ "ok" := VBool true ]}.
Proof.
  apply (task_requires_valid_signature (fun _ _ _ => true) (inject_Z 1000) (mention "1000")
           (VDict {[ "type" := VStr "app_mention"; "text" := VStr "hi" ]})).
  vm_compute. right. left. reflexivity.
Defined.

(** ** The background task *)

(** What leaves [try: m  except Exception as e: h e] when the handler
    itself does not raise is outside the [Exception] hierarchy. *)
Lemma try_except_escape {S E A : Type} (m : prog S E A) (h : exn -> prog S E A) (s : S)
    (e : exn) :
  (forall e0 s0, exists v, snd (h e0 s0) = Ok v) ->
  snd (try_except m h s) = Raise e -> is_Exception e = false.
Proof.
  intros Hh. unfold try_except.
  destruct (m s) as [[s1 t1] [v|e0]]; cbn; [discriminate|].
  destruct (is_Exception e0) eqn:He0; cbn.
  - destruct (Hh e0 s1) as [v Hv]. destruct (h e0 s1) as [[s2 t2] r]. cbn in *.
    rewrite Hv. discriminate.
  - intros [= <-]. exact He0.
Qed.

Lemma posting_outcome (w : Mention.world) (n : nat) :
  posting w n = Ok tt \/ exists e, post_failure w n = Some e /\ posting w n = Raise e.
Proof. unfold posting. destruct (post_failure w n); eauto. Qed.

(** X4.  Whatever the event and the collaborators do, the task makes at
    most two posting requests, all of them to the channel and the thread of
    the event itself; the first one is the acknowledgment; the assistant is
    asked at most once, for the text of the event (the empty string when
    the event has none), and only after the acknowledgment was posted. *)
Theorem mention_posts_stay_in_thread (w : Mention.world) (event : pyval) :
  (length (posts (Mention.calls w event)) <= 2)%nat
  /\ (length (questions (Mention.calls w event)) <= 1)%nat
  /\ (forall ch tx ts, In (ch, tx, ts) (posts (Mention.calls w event)) ->
        exists em, event = VDict em
                   /\ ch = default VNone (em !! "channel")
                   /\ ts = default VNone (em !! "ts"))
  /\ (forall p, head (posts (Mention.calls w event)) = Some p ->
        snd (fst p) = PStr acknowledgment)
  /\ (forall q, In q (questions (Mention.calls w event)) ->
        exists em, event = VDict em
                   /\ q = default (VStr EmptyString) (em !! "text")
                   /\ post_failure w 0 = None
                   /\ exists rest, Mention.calls w event
                        = slack_chat_postMessage (default VNone (em !! "channel"))
                            (PStr acknowledgment) (default VNone (em !! "ts"))
                          :: assistant_process_request q :: rest).
Proof.
  unfold Mention.calls, handle_app_mention, posting. run_prog.
  destruct event as [| | | | | |em]; cbn;
    try (repeat split; [lia | lia | contradiction | discriminate | contradiction]).
  destruct (post_failure w 0) as [e0|] eqn:H0; cbn.
  { destruct (is_Exception e0); cbn; thread_leaf em. }
  destruct (assistant w (default (VStr EmptyString) (em !! "text"))) as [result|e1] eqn:H1; cbn.
  2:{ destruct (is_Exception e1); cbn; thread_leaf em. }
  destruct result as [|s|truth repr]; cbn.
  all: try (destruct (response_of w _) as [reply|e2]; cbn).
  all: try (destruct (post_failure w 1) as [e3|]; cbn).
  all: try (match goal with |- context [is_Exception ?e] => destruct (is_Exception e); cbn end).
  all: thread_leaf em.
Qed.

(** X5.  When both posts go through and the assistant returns a string,
    the task makes exactly three calls: the acknowledgment, the request to
    the assistant, and the assistant's string posted as it is to the same
    channel and thread; the task ends normally. *)
Theorem mention_answer_delivered (w : Mention.world) (em : gmap string pyval) (s : string) :
  post_failure w 0 = None ->
  post_failure w 1 = None ->
  assistant w (default (VStr EmptyString) (em !! "text")) = Ok (PStr s) ->
  Mention.calls w (VDict em)
  = [slack_chat_postMessage (default VNone (em !! "channel")) (PStr acknowledgment)
       (default VNone (em !! "ts"));
     assistant_process_request (default (VStr EmptyString) (em !! "text"));
     slack_chat_postMessage (default VNone (em !! "channel")) (PStr s)
       (default VNone (em !! "ts"))]
  /\ Mention.returned w (VDict em) = Ok tt.
Proof.
  intros H0 H1 Ha. split.
  - unfold Mention.calls, handle_app_mention, posting. run_prog. cbn.
    rewrite H0. cbn. rewrite Ha. cbn. rewrite H1. reflexivity.
  - unfold Mention.returned, handle_app_mention, posting. run_prog. cbn.
    rewrite H0. cbn. rewrite Ha. cbn. rewrite H1. reflexivity.
Qed.

Lemma mention_answer_delivered_witness :
  Mention.calls (answering (PStr "Rain is very likely")) mention_event
  = [slack_chat_postMessage (VStr "C042") (PStr acknowledgment) (VStr "1718445600.000100");
     assistant_process_request (VStr "<@BOT> will it rain tomorrow?");
     slack_chat_postMessage (VStr "C042") (PStr "Rain is very likely")
       (VStr "1718445600.000100")].
Proof.
  destruct (mention_answer_delivered (answering (PStr "Rain is very likely"))
              {[ "type" := VStr "app_mention"; "user" := VStr "U123"; "channel" := VStr "C042";
                 "text" := VStr "<@BOT> will it rain tomorrow?";
                 "ts" := VStr "1718445600.000100" ]}
              "Rain is very likely" eq_refl eq_refl eq_refl) as [H _].
  vm_compute in H. vm_compute. exact H.
Defined.

(** X6.  The task never lets an exception deriving from [Exception] out,
    and a failure on the way silences the rest: when the acknowledgment
    cannot be posted, the assistant is not asked and nothing else is posted;
    when the assistant raises, or returns something that is neither a string
    nor a mapping, no answer is posted.  Each time one line is printed and
    the task ends normally. *)
Theorem mention_failure_is_silent (w : Mention.world) (em : gmap string pyval) :
  let ack := slack_chat_postMessage (default VNone (em !! "channel")) (PStr acknowledgment)
               (default VNone (em !! "ts")) in
  let ask := assistant_process_request (default (VStr EmptyString) (em !! "text")) in
  (forall event e, Mention.returned w event = Raise e -> is_Exception e = false)
  /\ (forall e, post_failure w 0 = Some e -> is_Exception e = true ->
        Mention.calls w (VDict em)
        = [ack; console_print ("Error handling app_mention: " +:+ exn_str e)]
        /\ Mention.returned w (VDict em) = Ok tt)
  /\ (forall e, post_failure w 0 = None ->
        assistant w (default (VStr EmptyString) (em !! "text")) = Raise e -> is_Exception e = true ->
        Mention.calls w (VDict em)
        = [ack; ask; console_print ("Error handling app_mention: " +:+ exn_str e)]
        /\ Mention.returned w (VDict em) = Ok tt)
  /\ (forall result e, post_failure w 0 = None ->
        assistant w (default (VStr EmptyString) (em !! "text")) = Ok result ->
        (forall s, result <> PStr s) ->
        response_of w result = Raise e -> is_Exception e = true ->
        Mention.calls w (VDict em)
        = [ack; ask; console_print ("Error handling app_mention: " +:+ exn_str e)]
        /\ Mention.returned w (VDict em) = Ok tt).
Proof.
  intros ack ask. subst ack ask. split; [|split; [|split]].
  - intros event e. unfold Mention.returned, handle_app_mention.
    apply try_except_escape. intros e0 s0. exists tt. reflexivity.
  - intros e H0 He. unfold Mention.calls, Mention.returned, handle_app_mention, posting.
    run_prog. cbn. rewrite H0. cbn. rewrite He. cbn. split; reflexivity.
  - intros e H0 Ha He. unfold Mention.calls, Mention.returned, handle_app_mention, posting.
    run_prog. cbn. rewrite H0. cbn. rewrite Ha. cbn. rewrite He. cbn. split; reflexivity.
  - intros result e H0 Ha Hns Hr He.
    unfold Mention.calls, Mention.returned, handle_app_mention, posting.
    run_prog. cbn. rewrite H0. cbn. rewrite Ha. cbn.
    destruct result as [|s|truth repr]; [|exfalso; exact (Hns s eq_refl)|];
      cbn; rewrite Hr; cbn; rewrite He; cbn; split; reflexivity.
Qed.

Lemma mention_failure_is_silent_witness :
  Mention.calls offline mention_event
  = [slack_chat_postMessage (VStr "C042") (PStr acknowledgment) (VStr "1718445600.000100");
     console_print "Error handling app_mention: channel_not_found"].
Proof.
  destruct (mention_failure_is_silent offline
              {[ "type" := VStr "app_mention"; "user" := VStr "U123"; "channel" := VStr "C042";
                 "text" := VStr "<@BOT> will it rain tomorrow?";
                 "ts" := VStr "1718445600.000100" ]}) as (_ & H & _).
  destruct (H (Exn (OtherException "SlackApiError") "channel_not_found") eq_refl eq_refl)
    as [Hc _].
  vm_compute in Hc. vm_compute. exact Hc.
Defined.

End WebhookMore.
(* ===================================================================== *)
(** * Further properties of src/agents.py *)
(* ===================================================================== *)

Module OrchestratorMore.
Import Orchestrator Status.

Section KeepsState.
Variables ep wp cp sp fp : string.
Variable w : world.

Lemma keeps_ret {A : Type} (a : A) : keeps_state (mret a).
Proof. intros s. reflexivity. Qed.

Lemma keeps_emit (r : log_record) : keeps_state (emit r).
Proof. intros s. reflexivity. Qed.

Lemma keeps_lift {A : Type} (r : result A) : keeps_state (lift r).
Proof. intros s. reflexivity. Qed.

Lemma keeps_raise {A : Type} (e : exn) : keeps_state (raise (A := A) e).
Proof. intros s. reflexivity. Qed.

Lemma keeps_get : keeps_state get.
Proof. intros s. reflexivity. Qed.

Lemma keeps_bind {A B : Type} (m : prog orchestrator log_record A)
    (k : A -> prog orchestrator log_record B) :
  keeps_state m -> (forall a, keeps_state (k a)) -> keeps_state (m ≫= k).
Proof.
  intros Hm Hk s. specialize (Hm s). run_prog.
  destruct (m s) as [[s1 t1] [a|e1]]; cbn in *; [|exact Hm].
  specialize (Hk a s1). destruct (k a s1) as [[s2 t2] r]. cbn in *. congruence.
Qed.

Lemma keeps_try_except {A : Type} (m : prog orchestrator log_record A)
    (h : exn -> prog orchestrator log_record A) :
  keeps_state m -> (forall e, keeps_state (h e)) -> keeps_state (try_except m h).
Proof.
  intros Hm Hh s. specialize (Hm s). run_prog.
  destruct (m s) as [[s1 t1] [a|e1]]; cbn in *; [exact Hm|].
  destruct (is_Exception e1); cbn; [|exact Hm].
  specialize (Hh e1 s1). destruct (h e1 s1) as [[s2 t2] r]. cbn in *. congruence.
Qed.

Lemma keeps_first_attr (msg : message) (names : list string) :
  keeps_state (first_attr names msg).
Proof.
  induction names as [|a names IH]; [apply keeps_ret|].
  cbn [first_attr]. apply keeps_bind; [apply keeps_lift|]. intros [|]; [|exact IH].
  apply keeps_bind.
  - apply keeps_try_except; [apply keeps_lift|]. intros e. apply keeps_ret.
  - intros v. destruct (is_None v); [exact IH | apply keeps_ret].
Qed.

Lemma keeps_agent_name_of (msg : message) : keeps_state (agent_name_of msg).
Proof.
  unfold agent_name_of. apply keeps_bind; [apply keeps_lift|]. intros [|].
  - apply keeps_lift.
  - apply keeps_bind; [apply keeps_first_attr|]. intros v.
    destruct (is_None v); apply keeps_ret.
Qed.

Lemma keeps_content_of (msg : message) : keeps_state (content_of msg).
Proof.
  unfold content_of. apply keeps_bind; [apply keeps_lift|]. intros has.
  apply keeps_bind.
  - destruct has; [|apply keeps_ret].
    apply keeps_try_except; [apply keeps_lift|]. intros e. apply keeps_ret.
  - intros c. apply keeps_bind.
    + destruct (is_None c); [apply keeps_first_attr | apply keeps_ret].
    + intros c'. destruct (is_None c'); apply keeps_ret.
Qed.

Lemma keeps_log_steps (msgs : list message) : forall idx, keeps_state (log_steps idx msgs).
Proof.
  induction msgs as [|msg msgs IH]; intros idx; [apply keeps_ret|].
  cbn [log_steps]. apply keeps_bind; [apply keeps_agent_name_of|]. intros n.
  apply keeps_bind; [apply keeps_content_of|]. intros c.
  apply keeps_bind; [apply keeps_emit|]. intros _. apply IH.
Qed.

Lemma keeps_final_response (result : chat_result) : keeps_state (final_response result).
Proof.
  unfold final_response, logger_warning, logger_info.
  destruct (default MessagesNone (messages result)) as [|[|m0 msgs]].
  - apply keeps_bind; [apply keeps_emit|]. intros _. apply keeps_ret.
  - apply keeps_bind; [apply keeps_emit|]. intros _. apply keeps_ret.
  - apply keeps_bind; [apply keeps_emit|]. intros _.
    apply keeps_bind; [apply keeps_log_steps|]. intros _.
    apply keeps_bind.
    + destruct (last (m0 :: msgs)); [apply keeps_ret | apply keeps_raise].
    + intros final_msg. apply keeps_bind; [apply keeps_lift|]. intros content.
      apply keeps_bind; [apply keeps_emit|]. intros _. apply keeps_ret.
Qed.

(** A request changes the orchestrator only by initializing it. *)
Lemma request_state (user_input : string) (self : orchestrator) :
  state_after (process_request ep wp cp sp fp w user_input self)
  = state_after (init_in ep wp cp sp w self).
Proof.
  assert (Hk : keeps_state
            ((self' ← get;
              _ ← lift (match team_rejected w (agent_list self') fp with
                        | None => Ok tt
                        | Some e => Raise e
                        end);
              _ ← logger_info "Running multi-agent collaboration";
              result ← lift (team_run w (agent_list self') fp user_input);
              final_response result) : prog orchestrator log_record pyobj)).
  { apply keeps_bind; [apply keeps_get|]. intros self'.
    apply keeps_bind; [apply keeps_lift|]. intros _.
    apply keeps_bind; [apply keeps_emit|]. intros _.
    apply keeps_bind; [apply keeps_lift|]. intros result.
    apply keeps_final_response. }
  unfold keeps_state in Hk.
  unfold process_request, try_block, init_in, state_after, logger_info, logger_error in *.
  run_prog. cbn [fst snd] in *.
  destruct (_initialize_agents ep wp cp sp w self) as [[s1 t1] [[]|e1]]; cbn [fst snd].
  - specialize (Hk s1). cbn [fst snd] in Hk.
    match goal with
    | |- context [team_rejected w ?l fp] => destruct (team_rejected w l fp) as [e|]
    end; cbn [fst snd] in *.
    + destruct (is_Exception e); reflexivity.
    + match goal with
      | |- context [team_run w ?l fp user_input] =>
          destruct (team_run w l fp user_input) as [result|e]
      end; cbn [fst snd] in *.
      * destruct (final_response result s1) as [[s2 t2] [v|e]]; cbn [fst snd] in *;
          [exact Hk|]. destruct (is_Exception e); cbn [fst snd]; exact Hk.
      * destruct (is_Exception e); reflexivity.
  - destruct (is_Exception e1); reflexivity.
Qed.
End KeepsState.

Section Factories.
Variable w : world.

(** What a factory returns, when it returns. *)
Lemma constructed_agent label provider n d p (a : agent) :
  constructed (create_agent w label provider n d p) = Ok a ->
  a = {| name := n; description := d; tools := tools_or_none provider;
         system_message := p; reflect_on_tool_use := true |}.
Proof.
  unfold constructed, create_agent, logger_info, logger_warning, AssistantAgent. run_prog.
  destruct provider as [ts|e]; [|destruct (is_Exception e)];
    destruct (get_timezone w); cbn;
    try match goal with |- context [agent_rejected w ?a] => destruct (agent_rejected w a) end;
    cbn; intros [= <-] || discriminate; reflexivity.
Qed.

Lemma agent_is_constructed label provider n d p (tz : string) :
  benign_result provider ->
  get_timezone w = Ok tz ->
  (forall a, agent_rejected w a = None) ->
  constructed (create_agent w label provider n d p)
  = Ok {| name := n; description := d; tools := tools_or_none provider;
          system_message := p; reflect_on_tool_use := true |}.
Proof.
  intros Hp Htz Hagent.
  unfold constructed, create_agent, logger_info, logger_warning, AssistantAgent. run_prog.
  destruct provider as [ts|e]; cbn.
  - rewrite Htz. cbn. rewrite Hagent. reflexivity.
  - rewrite (Hp e eq_refl). cbn. rewrite Htz. cbn. rewrite Hagent. reflexivity.
Qed.
End Factories.

Lemma staffed_after_initialization (ep wp cp sp : string) (w : world) (self : orchestrator) :
  _agents_initialized self = false ->
  _agents_initialized (state_after (init_in ep wp cp sp w self)) = true ->
  staffed (state_after (init_in ep wp cp sp w self)).
Proof.
  intros Hself Hflag.
  pose proof (OrchestratorFacts.initialize_unset ep wp cp sp w self Hself) as H.
  unfold all_constructed, create_email_agent, create_weather_agent, create_calendar_agent,
    create_search_agent in H.
  destruct (constructed (create_agent w "Email" _ _ _ _)) as [e|x] eqn:He;
    [|destruct H as [H _]; rewrite H, Hself in Hflag; discriminate].
  destruct (constructed (create_agent w "Weather" _ _ _ _)) as [wa|x] eqn:Hwa;
    [|destruct H as [H _]; rewrite H, Hself in Hflag; discriminate].
  destruct (constructed (create_agent w "Calendar" _ _ _ _)) as [c|x] eqn:Hc;
    [|destruct H as [H _]; rewrite H, Hself in Hflag; discriminate].
  destruct (constructed (create_agent w "Search" _ _ _ _)) as [s|x] eqn:Hs;
    [|destruct H as [H _]; rewrite H, Hself in Hflag; discriminate].
  destruct H as [-> _].
  apply constructed_agent in He, Hwa, Hc, Hs. subst e wa c s.
  eexists _, _, _, _. cbn. repeat split; reflexivity.
Qed.

Lemma ready_after_initialization (ep wp cp sp : string) (w : world) (self : orchestrator) :
  ready self -> ready (state_after (init_in ep wp cp sp w self)).
Proof.
  intros Hready. destruct (_agents_initialized self) eqn:Hself.
  - rewrite (OrchestratorFacts.initialize_noop ep wp cp sp w self Hself). exact Hready.
  - intros Hflag. apply staffed_after_initialization; assumption.
Qed.

Lemma ready_after_request (ep wp cp sp fp : string) (w : world) (user_input : string)
    (self : orchestrator) :
  ready self -> ready (state_after (process_request ep wp cp sp fp w user_input self)).
Proof.
  intros H. rewrite request_state. apply ready_after_initialization, H.
Qed.

Lemma context_after_initialization (ep wp cp sp : string) (w : world) (self : orchestrator) :
  conversation_context (state_after (init_in ep wp cp sp w self)) = conversation_context self.
Proof.
  destruct (_agents_initialized self) eqn:Hself.
  - rewrite (OrchestratorFacts.initialize_noop ep wp cp sp w self Hself). reflexivity.
  - pose proof (OrchestratorFacts.initialize_unset ep wp cp sp w self Hself) as H.
    destruct (all_constructed ep wp cp sp w) as [[[[e wa] c] s]|]; destruct H as [-> _];
      reflexivity.
Qed.


Lemma initialized_after_success (ep wp cp sp : string) (w : world) (self : orchestrator) :
  outcome (init_in ep wp cp sp w self) = Ok tt ->
  _agents_initialized (state_after (init_in ep wp cp sp w self)) = true.
Proof.
  destruct (_agents_initialized self) eqn:Hself.
  - rewrite (OrchestratorFacts.initialize_noop ep wp cp sp w self Hself). intros _. exact Hself.
  - pose proof (OrchestratorFacts.initialize_unset ep wp cp sp w self Hself) as H.
    destruct (all_constructed ep wp cp sp w) as [[[[e wa] c] s]|].
    + destruct H as [-> _]. reflexivity.
    + destruct H as [_ [x ->]]. discriminate.
Qed.

(** X7.  A request changes the orchestrator only by initializing it: the
    state it leaves is the one [_initialize_agents] leaves, so an
    initialized orchestrator comes out of a request unchanged, whatever the
    request's outcome, and the conversation context is never written.
    Hence whatever requests a new orchestrator served, in whatever worlds,
    its flag tells the truth: when set, the agent list holds the four
    agents, EmailAssistant, WeatherAssistant, CalendarAssistant and
    SearchAssistant in this order; and an orchestrator that
    [create_orchestrator] returns is initialized and holds them. *)
Theorem requests_keep_orchestrator_ready (ep wp cp sp fp : string) :
  (forall w user_input self,
     state_after (process_request ep wp cp sp fp w user_input self)
     = state_after (init_in ep wp cp sp w self))
  /\ (forall w user_input self,
        _agents_initialized self = true ->
        state_after (process_request ep wp cp sp fp w user_input self) = self)
  /\ (forall requests self,
        conversation_context (serve ep wp cp sp fp requests self)
        = conversation_context self)
  /\ (forall requests self,
        _agents_initialized self = true ->
        serve ep wp cp sp fp requests self = self)
  /\ (forall requests, ready (serve ep wp cp sp fp requests __init__))
  /\ (forall w self,
        snd (create_orchestrator ep wp cp sp w) = Ok self ->
        _agents_initialized self = true /\ staffed self).
Proof.
  assert (Hset : forall w user_input self,
            _agents_initialized self = true ->
            state_after (process_request ep wp cp sp fp w user_input self) = self).
  { intros w user_input self H. rewrite request_state.
    rewrite (OrchestratorFacts.initialize_noop ep wp cp sp w self H). reflexivity. }
  split; [intros; apply request_state|]. split; [exact Hset|]. split; [|split; [|split]].
  - induction requests as [|[w user_input] rest IH]; intros self; [reflexivity|].
    cbn [serve]. rewrite IH, request_state. apply context_after_initialization.
  - induction requests as [|[w user_input] rest IH]; intros self H; [reflexivity|].
    cbn [serve]. rewrite (Hset w user_input self H). apply IH, H.
  - assert (Hall : forall requests self, ready self -> ready (serve ep wp cp sp fp requests self)).
    { induction requests as [|[w user_input] rest IH]; intros self H; [exact H|].
      cbn [serve]. apply IH, ready_after_request, H. }
    intros requests. apply Hall. intros H. discriminate.
  - intros w self. unfold create_orchestrator.
    pose proof (initialized_after_success ep wp cp sp w __init__) as Hflag.
    pose proof (staffed_after_initialization ep wp cp sp w __init__ eq_refl) as Hstaffed.
    unfold init_in, outcome, state_after in *.
    destruct (_initialize_agents ep wp cp sp w __init__) as [[s1 t1] [[]|e]]; cbn in *;
      [|discriminate].
    intros [= <-]. split; [|apply Hstaffed]; apply Hflag; reflexivity.
Qed.




(** X9.  A tool provider that fails with an exception deriving from
    [Exception] costs its agent the tools and nothing else: as long as the
    time zone is found and the agent constructor accepts its arguments, the
    four factories return their agents, each with its provider's tools or
    with none, and the initialization of an orchestrator completes. *)
Theorem tool_failure_costs_only_the_tools (ep wp cp sp : string) (w : world) (tz : string) :
  get_timezone w = Ok tz ->
  (forall a, agent_rejected w a = None) ->
  benign_result (gmail_tools w) -> benign_result (weather_tools w) ->
  benign_result (calendar_tools w) -> benign_result (search_tools w) ->
  exists e wa c s,
    all_constructed ep wp cp sp w = Some (e, wa, c, s)
    /\ (name e, tools e, system_message e)
       = ("EmailAssistant", tools_or_none (gmail_tools w), ep)
    /\ (name wa, tools wa, system_message wa)
       = ("WeatherAssistant", tools_or_none (weather_tools w), wp)
    /\ (name c, tools c, system_message c)
       = ("CalendarAssistant", tools_or_none (calendar_tools w), cp)
    /\ (name s, tools s, system_message s)
       = ("SearchAssistant", tools_or_none (search_tools w), sp)
    /\ forall self, _agents_initialized self = false ->
         outcome (init_in ep wp cp sp w self) = Ok tt
         /\ agent_list (state_after (init_in ep wp cp sp w self)) = Some [e; wa; c; s]
         /\ _agents_initialized (state_after (init_in ep wp cp sp w self)) = true.
Proof.
  intros Htz Hagent Hg Hwt Hc Hs.
  pose proof (fun self Hself => OrchestratorFacts.initialize_unset ep wp cp sp w self Hself)
    as Hinit.
  destruct (all_constructed ep wp cp sp w) as [[[[e wa] c] s]|] eqn:Hall;
    unfold all_constructed, create_email_agent, create_weather_agent, create_calendar_agent,
      create_search_agent in Hall;
    erewrite (agent_is_constructed w "Email" (gmail_tools w) _ _ _ tz Hg Htz Hagent) in Hall;
    erewrite (agent_is_constructed w "Weather" (weather_tools w) _ _ _ tz Hwt Htz Hagent) in Hall;
    erewrite (agent_is_constructed w "Calendar" (calendar_tools w) _ _ _ tz Hc Htz Hagent) in Hall;
    erewrite (agent_is_constructed w "Search" (search_tools w) _ _ _ tz Hs Htz Hagent) in Hall;
    [|discriminate].
  injection Hall as <- <- <- <-.
  eexists _, _, _, _. split; [reflexivity|].
  repeat (split; [reflexivity|]).
  intros self Hself. destruct (Hinit self Hself) as [-> ->]. repeat split; reflexivity.
Qed.

Lemma tool_failure_costs_only_the_tools_witness :
  exists e wa c s,
    all_constructed "e" "w" "c" "s" calm = Some (e, wa, c, s)
    /\ tools e = [] /\ tools wa = ["get_current_weather"; "check_rain_probability"].
Proof.
  destruct (tool_failure_costs_only_the_tools "e" "w" "c" "s" calm "Asia/Kolkata")
    as (e & wa & c & s & H & He & Hwa & _).
  - reflexivity.
  - intros a. reflexivity.
  - intros x [= <-]. reflexivity.
  - intros x [=].
  - intros x [=].
  - intros x [=].
  - exists e, wa, c, s. split; [exact H|].
    injection He as _ He _. injection Hwa as _ Hwa _. split; assumption.
Defined.

Lemma prefix_closed (p r : string) : String.prefix p (p +:+ r) = true.
Proof.
  induction p as [|c p IH]; simpl; [destruct r; reflexivity|].
  destruct (ascii_dec c c) as [_|Hne]; [exact IH | contradiction].
Qed.

Lemma append_closed_assoc (a b c : string) : (a +:+ b) +:+ c = a +:+ (b +:+ c).
Proof.
  induction a as [|x a IH]; [reflexivity|].
  change (String x ((a +:+ b) +:+ c) = String x (a +:+ (b +:+ c))). rewrite IH. reflexivity.
Qed.

Lemma log_steps_lines (msgs : list message) :
  Forall plain msgs ->
  forall idx s, exists t,
    log_steps idx msgs s = (s, t, Ok tt)
    /\ length t = length msgs
    /\ forall k r, List.nth_error t k = Some r ->
         fst r = INFO
         /\ startswith (snd r) ("[Step " +:+ str_of_nat (idx + k + 1) +:+ "] ") = true.
Proof.
  induction 1 as [|msg msgs Hmsg _ IH]; intros idx s.
  - exists []. split; [reflexivity|]. split; [reflexivity|]. intros [|k] r; discriminate.
  - cbn [log_steps]. unfold logger_info. run_prog.
    destruct (OrchestratorFacts.agent_name_of_plain msg s Hmsg) as [n ->].
    destruct (OrchestratorFacts.content_of_plain msg s Hmsg) as [c ->].
    destruct (IH (idx + 1)%nat s) as (t & -> & Hlen & Hsteps).
    eexists. split; [reflexivity|]. cbn [app length]. split; [rewrite Hlen; reflexivity|].
    intros [|k] r; cbn [List.nth_error].
    + intros [= <-]. split; [reflexivity|]. cbn [fst snd]. unfold startswith.
      rewrite Nat.add_0_r.
      replace ("[Step " +:+ str_of_nat (idx + 1) +:+ "] " +:+ str n +:+ ": " +:+ str c)
        with (("[Step " +:+ str_of_nat (idx + 1) +:+ "] ") +:+ (str n +:+ ": " +:+ str c)).
      * apply prefix_closed.
      * rewrite !append_closed_assoc. reflexivity.
    + intros Hr. destruct (Hsteps k r Hr) as [H1 H2]. split; [exact H1|].
      replace (idx + S k + 1)%nat with (idx + 1 + k + 1)%nat by lia. exact H2.
Qed.

(** X28.  When the run returns messages whose attributes can be read,
    the log of the normalization is the heading "Agent Thought Process", one
    INFO line for each message in order, the k-th starting with "[Step k] ",
    and the line "Final response: " with the returned value; the
    orchestrator is left as it was. *)
Theorem thought_process_has_a_line_per_message (result : chat_result) (msgs : list message)
    (s : orchestrator) :
  messages result = Some (MessagesList msgs) ->
  msgs <> [] ->
  Forall plain msgs ->
  exists steps v,
    final_response result s
    = (s, (INFO, "Agent Thought Process") :: steps ++ [(INFO, "Final response: " +:+ str v)],
       Ok v)
    /\ length steps = length msgs
    /\ forall k r, List.nth_error steps k = Some r ->
         fst r = INFO
         /\ startswith (snd r) ("[Step " +:+ str_of_nat (k + 1) +:+ "] ") = true.
Proof.
  intros Hm Hne Hplain.
  destruct msgs as [|m0 msgs']; [contradiction|].
  destruct (log_steps_lines (m0 :: msgs') Hplain 0%nat s) as (steps & Hrun & Hlen & Hsteps).
  destruct (last (m0 :: msgs')) as [final_msg|] eqn:Hlast.
  2:{ apply last_None in Hlast. discriminate. }
  assert (Hfinal : plain final_msg).
  { rewrite Forall_forall in Hplain. apply Hplain.
    apply last_Some in Hlast as [l' ->]. apply elem_of_app. right.
    apply list_elem_of_singleton. reflexivity. }
  unfold final_response, logger_info, getattr_default, getattr, or_else. run_prog.
  rewrite Hm. unfold default, from_option, id. cbv beta iota.
  rewrite Hrun, Hlast.
  destruct (OrchestratorFacts.plain_attr final_msg "content" Hfinal) as [[v ->] | ->];
    cbn [fst snd is_AttributeError exn_class];
    eexists steps, _; (split; [rewrite ?app_nil_r; cbn [app]; reflexivity|]);
    (split; [exact Hlen|]); intros k r Hr; apply (Hsteps k r Hr).
Qed.

Lemma thought_process_has_a_line_per_message_witness :
  exists steps v,
    final_response {| messages := Some (MessagesList [text_message "user" "Weather?";
                                                      text_message "WeatherAssistant" "Sunny."]) |}
      __init__
    = (__init__,
       (INFO, "Agent Thought Process") :: steps ++ [(INFO, "Final response: " +:+ str v)],
       Ok v)
    /\ length steps = 2%nat.
Proof.
  destruct (thought_process_has_a_line_per_message
              {| messages := Some (MessagesList [text_message "user" "Weather?";
                                                 text_message "WeatherAssistant" "Sunny."]) |}
              [text_message "user" "Weather?"; text_message "WeatherAssistant" "Sunny."]
              __init__ eq_refl)
    as (steps & v & Hrun & Hlen & _).
  - discriminate.
  - repeat constructor; apply OrchestratorFacts.text_message_plain.
  - exists steps, v. split; [exact Hrun | exact Hlen].
Defined.

Example steps_of_a_run :
  snd (fst (final_response
              {| messages := Some (MessagesList [text_message "user" "Weather?";
                                                 text_message "WeatherAssistant" "Sunny."]) |}
              __init__))
  = [(INFO, "Agent Thought Process");
     (INFO, "[Step 1] user: Weather?");
     (INFO, "[Step 2] WeatherAssistant: Sunny.");
     (INFO, "Final response: Sunny.")].
Proof. vm_compute. reflexivity. Qed.

End OrchestratorMore.
(* ===================================================================== *)
(** * Further properties of src/tools/weather.py *)
(* ===================================================================== *)

Module WeatherMore.
Import Weather.

Section Failures.
Context {float : Type}.
Variable float_of_str : string -> option float.
Variable float_add : float -> float -> float.
Variable float_of_int : Z -> float.
Variable format_f : nat -> float -> string.
Variable float_str : float -> string.
Variable strftime : string -> string -> result string.
Variable current_hour : Z.
Variable sv : @services float.

(** A lookup that fails ends the data fetch after the geocoder call. *)
Lemma fetch_unknown (location : string) (e : exn) :
  (forall lat_f lon_f, ~ coordinates float_of_str location lat_f lon_f) ->
  returned (_geocode float_of_str sv location) = Raise e ->
  is_Exception e = true ->
  _get_weather_data float_of_str format_f sv location tt
  = (tt, [nominatim_get location], Raise (Exn RuntimeError ("Location error: " +:+ exn_str e))).
Proof.
  intros Hno Hg He. unfold returned in Hg.
  destruct (WeatherFacts.geocode_calls float_of_str sv location) as [r Hrun].
  rewrite Hrun in Hg. cbn in Hg. subst r.
  unfold _get_weather_data.
  assert (Hdirect :
    ('(lat_f, lon_f, location_name) ← try_except
       ('(lat_f, lon_f) ← _geocode float_of_str sv location;
        mret (lat_f, lon_f, location))
       (fun e => raise (Exn RuntimeError ("Location error: " +:+ exn_str e)));
     data ← try_except
       (_ ← emit (open_meteo_get lat_f lon_f); lift (open_meteo sv lat_f lon_f))
       (fun e => raise (Exn RuntimeError ("Weather API error: " +:+ exn_str e)));
     mret {| data_location := location_name;
             data_current := current_weather data;
             data_hourly := default no_hourly (hourly data);
             data_daily := default no_daily (daily data);
             data_coordinates := (lat_f, lon_f) |}) tt
    = (tt, [nominatim_get location],
       Raise (Exn RuntimeError ("Location error: " +:+ exn_str e)))).
  { run_prog. rewrite Hrun. cbn. rewrite He. reflexivity. }
  destruct (map strip (split "," location)) as [|p1 [|p2 [|p3 ps]]] eqn:Hparts;
    try exact Hdirect.
  unfold to_float. run_prog.
  destruct (float_of_str p1) as [x1|] eqn:H1; cbn.
  - destruct (float_of_str p2) as [x2|] eqn:H2; cbn.
    + exfalso. apply (Hno x1 x2). exists p1, p2. auto.
    + rewrite Hrun. cbn. rewrite He. reflexivity.
  - rewrite Hrun. cbn. rewrite He. reflexivity.
Qed.

(** An operation whose data fetch fails reports the failure. *)
Lemma failed_fetch_reported (location : string) (k : @weather_data float -> result string)
    (h : exn -> string) (t : list call) (x : exn) :
  _get_weather_data float_of_str format_f sv location tt = (tt, t, Raise x) ->
  is_Exception x = true ->
  calls (try_except (data ← _get_weather_data float_of_str format_f sv location;
                     lift (k data))
           (fun e => mret (h e))) = t
  /\ returned (try_except (data ← _get_weather_data float_of_str format_f sv location;
                           lift (k data))
                 (fun e => mret (h e))) = Ok (h x).
Proof.
  intros Hrun Hx. unfold calls, returned. run_prog. rewrite Hrun. cbn. rewrite Hx. cbn.
  rewrite app_nil_r. split; reflexivity.
Qed.

(** The forecast request of a location given by its coordinates. *)
Lemma fetch_coordinates_run (location : string) (lat_f lon_f : float) :
  coordinates float_of_str location lat_f lon_f ->
  _get_weather_data float_of_str format_f sv location tt
  = (tt, [open_meteo_get lat_f lon_f],
     match open_meteo sv lat_f lon_f with
     | Ok data =>
         Ok {| data_location := format_f 2 lat_f +:+ "," +:+ format_f 2 lon_f;
               data_current := current_weather data;
               data_hourly := default no_hourly (hourly data);
               data_daily := default no_daily (daily data);
               data_coordinates := (lat_f, lon_f) |}
     | Raise e =>
         if is_Exception e
         then Raise (Exn RuntimeError ("Weather API error: " +:+ exn_str e))
         else Raise e
     end).
Proof.
  intros (p1 & p2 & Hparts & H1 & H2).
  unfold _get_weather_data, to_float. rewrite Hparts, H1, H2. run_prog. cbn.
  destruct (open_meteo sv lat_f lon_f) as [d|e]; cbn; [reflexivity|].
  destruct (is_Exception e); reflexivity.
Qed.
End Failures.

(** X10.  When the location does not read as coordinates and its lookup
    fails with an exception deriving from [Exception], each of
    [get_current_weather], [get_weather_forecast] and
    [check_rain_probability] makes the geocoder request and no forecast
    request, and returns its own error text naming the stage: "...:
    Location error: " followed by the exception's string form;
    [geocode_location] returns "Error finding location ...".  A geocoder
    answer without entries is such a failure, "Could not find location:
    ...". *)
Theorem unknown_location_makes_no_forecast_request {float : Type}
    (float_of_str : string -> option float)
    (float_add : float -> float -> float) (float_of_int : Z -> float)
    (format_f : nat -> float -> string) (float_str : float -> string)
    (strftime : string -> string -> result string) (current_hour : Z)
    (sv : @services float) (location forecast_type time_period : string) (e : exn) :
  (forall lat_f lon_f, ~ coordinates float_of_str location lat_f lon_f) ->
  returned (_geocode float_of_str sv location) = Raise e ->
  is_Exception e = true ->
  let failed := fun (op : prog unit call string) (prefix : string) =>
    calls op = [nominatim_get location]
    /\ returned op = Ok (prefix +:+ location +:+ ": Location error: " +:+ exn_str e) in
  failed (get_current_weather float_of_str format_f float_str strftime sv location)
    "Error getting weather for "
  /\ failed (get_weather_forecast float_of_str format_f strftime sv location forecast_type)
       "Error getting forecast for "
  /\ failed (check_rain_probability float_of_str float_add float_of_int format_f current_hour
               sv location time_period)
       "Error checking rain probability for "
  /\ calls (geocode_location float_of_str format_f sv location) = [nominatim_get location]
  /\ returned (geocode_location float_of_str format_f sv location)
     = Ok ("Error finding location " +:+ location +:+ ": " +:+ exn_str e)
  /\ (nominatim sv location = Ok [] ->
      e = Exn ValueError ("Could not find location: " +:+ location)).
Proof.
  intros Hno Hg He failed. subst failed. cbv beta.
  pose proof (fetch_unknown float_of_str format_f sv location e Hno Hg He) as Hrun.
  split; [|split; [|split; [|split; [|split]]]].
  - unfold get_current_weather.
    apply (failed_fetch_reported float_of_str format_f sv location
             (current_weather_text float_str strftime location)
             (fun x => "Error getting weather for " +:+ location +:+ ": " +:+ exn_str x)
             _ _ Hrun eq_refl).
  - unfold get_weather_forecast.
    apply (failed_fetch_reported float_of_str format_f sv location
             (fun d => forecast_text format_f strftime d forecast_type)
             (fun x => "Error getting forecast for " +:+ location +:+ ": " +:+ exn_str x)
             _ _ Hrun eq_refl).
  - unfold check_rain_probability.
    apply (failed_fetch_reported float_of_str format_f sv location
             (fun d => rain_probability_text float_add float_of_int format_f current_hour
                         location d time_period)
             (fun x => "Error checking rain probability for " +:+ location +:+ ": "
                       +:+ exn_str x)
             _ _ Hrun eq_refl).
  - unfold returned in Hg. unfold calls, geocode_location.
    destruct (WeatherFacts.geocode_calls float_of_str sv location) as [r Hr].
    rewrite Hr in Hg. cbn in Hg. subst r. run_prog. rewrite Hr. cbn. rewrite He. reflexivity.
  - unfold returned in *. unfold geocode_location.
    destruct (WeatherFacts.geocode_calls float_of_str sv location) as [r Hr].
    rewrite Hr in Hg. cbn in Hg. subst r. run_prog. rewrite Hr. cbn. rewrite He. reflexivity.
  - intros Hempty. unfold returned, _geocode in Hg. run_prog. rewrite Hempty in Hg.
    cbn in Hg. injection Hg as <-. reflexivity.
Qed.

Lemma unknown_location_makes_no_forecast_request_witness :
  calls (Rational.get_current_weather "Atlantis") = [nominatim_get "Atlantis"]
  /\ returned (Rational.get_current_weather "Atlantis")
     = Ok "Error getting weather for Atlantis: Location error: Could not find location: Atlantis".
Proof.
  destruct (unknown_location_makes_no_forecast_request Rational.float_of_str Qplus inject_Z
              Rational.format_f Rational.float_str Rational.strftime 9
              Rational.sample_services "Atlantis" "today" "today"
              (Exn ValueError "Could not find location: Atlantis")) as [H _].
  - intros lat_f lon_f (p1 & p2 & H & _). vm_compute in H. discriminate.
  - vm_compute. reflexivity.
  - reflexivity.
  - exact H.
Defined.

(** X11.  No weather tool lets an exception deriving from [Exception]
    out: whatever the two services answer, a tool that does not return a
    text was interrupted by an exception outside that hierarchy.  When the
    forecast request for a location given by its coordinates fails, each of
    the three operations has made that one request and returns its error
    text naming the stage, "...: Weather API error: " followed by the
    exception's string form. *)
Theorem weather_tools_return_text {float : Type} (float_of_str : string -> option float)
    (float_add : float -> float -> float) (float_of_int : Z -> float)
    (format_f : nat -> float -> string) (float_str : float -> string)
    (strftime : string -> string -> result string) (current_hour : Z)
    (sv : @services float) (location forecast_type time_period : string) :
  Forall (fun op : prog unit call string =>
            forall e, returned op = Raise e -> is_Exception e = false)
    (weather_operations float_of_str float_add float_of_int format_f float_str
       strftime current_hour sv location forecast_type time_period
     ++ [geocode_location float_of_str format_f sv location])
  /\ (forall lat_f lon_f x,
        coordinates float_of_str location lat_f lon_f ->
        open_meteo sv lat_f lon_f = Raise x ->
        is_Exception x = true ->
        Forall2 (fun (op : prog unit call string) (prefix : string) =>
                   calls op = [open_meteo_get lat_f lon_f]
                   /\ returned op
                      = Ok (prefix +:+ location +:+ ": Weather API error: " +:+ exn_str x))
          (weather_operations float_of_str float_add float_of_int format_f float_str
             strftime current_hour sv location forecast_type time_period)
          ["Error getting weather for "; "Error getting forecast for ";
           "Error checking rain probability for "]).
Proof.
  split.
  - unfold weather_operations, get_current_weather, get_weather_forecast,
      check_rain_probability, geocode_location, returned.
    repeat constructor; intros e; apply WebhookMore.try_except_escape;
      intros e0 s0; eexists; reflexivity.
  - intros lat_f lon_f x Hc Hx He.
    pose proof (fetch_coordinates_run float_of_str format_f sv location lat_f lon_f Hc) as Hrun.
    rewrite Hx, He in Hrun.
    unfold weather_operations, get_current_weather, get_weather_forecast,
      check_rain_probability.
    constructor; [|constructor; [|constructor; [|constructor]]].
    + apply (failed_fetch_reported float_of_str format_f sv location
               (current_weather_text float_str strftime location)
               (fun x => "Error getting weather for " +:+ location +:+ ": " +:+ exn_str x)
               _ _ Hrun eq_refl).
    + apply (failed_fetch_reported float_of_str format_f sv location
               (fun d => forecast_text format_f strftime d forecast_type)
               (fun x => "Error getting forecast for " +:+ location +:+ ": " +:+ exn_str x)
               _ _ Hrun eq_refl).
    + apply (failed_fetch_reported float_of_str format_f sv location
               (fun d => rain_probability_text float_add float_of_int format_f current_hour
                           location d time_period)
               (fun x => "Error checking rain probability for " +:+ location +:+ ": "
                         +:+ exn_str x)
               _ _ Hrun eq_refl).
Qed.

(** The forecast service times out. *)
Example forecast_timeout_reported_for_coordinates :
  returned (get_weather_forecast Rational.float_of_str Rational.format_f Rational.strftime
              {| nominatim := fun _ => Ok [];
                 open_meteo := fun _ _ => Raise (Exn (OtherException "ReadTimeout") "timed out") |}
              "48, 2" "hourly")
  = Ok "Error getting forecast for 48, 2: Weather API error: timed out".
Proof. vm_compute. reflexivity. Qed.

Lemma hourly_lines_length {float : Type} (format_f : nat -> float -> string)
    (strftime : string -> string -> result string) (times : list string) :
  forall temps codes probs ls,
    hourly_lines format_f strftime times temps codes probs = Ok ls ->
    (length ls <= length times)%nat.
Proof.
  induction times as [|t times IH]; intros temps codes probs ls.
  - cbn. intros [= <-]. cbn. lia.
  - destruct temps as [|temp temps]; [cbn; intros [= <-]; cbn; lia|].
    destruct codes as [|code codes]; [cbn; intros [= <-]; cbn; lia|].
    destruct probs as [|prob probs]; [cbn; intros [= <-]; cbn; lia|].
    cbn [hourly_lines]. run_prog.
    destruct (strftime "%H:%M" t); [|discriminate].
    destruct (hourly_lines format_f strftime times temps codes probs) as [rest|] eqn:E;
      [|discriminate].
    intros [= <-]. cbn. specialize (IH _ _ _ _ E). lia.
Qed.

Lemma daily_lines_length {float : Type} (format_f : nat -> float -> string)
    (dates : list string) :
  forall i maxs mins precips codes,
    (length (daily_lines format_f i dates maxs mins precips codes) <= 3 - i)%nat.
Proof.
  induction dates as [|d dates IH]; intros i maxs mins precips codes; [cbn; lia|].
  destruct maxs as [|a maxs]; [cbn; lia|].
  destruct mins as [|b mins]; [cbn; lia|].
  destruct precips as [|c precips]; [cbn; lia|].
  destruct codes as [|k codes]; [cbn; lia|].
  cbn [daily_lines]. destruct (3 <=? i)%nat eqn:E; [cbn; lia|].
  apply Nat.leb_gt in E. cbn [length]. specialize (IH (S i) maxs mins precips codes). lia.
Qed.

Lemma slice_12 {A : Type} (l : list A) : (length (slice l 0 12) <= 12)%nat.
Proof.
  pose proof (WeatherFacts.slice_length_le l 0 12 ltac:(lia) ltac:(lia)) as H.
  change (Z.to_nat (12 - 0)) with 12%nat in H. exact H.
Qed.

(** X12.  A forecast that [get_weather_forecast] returns is its error
    text, or, for the data fetched: under "today" or "hourly" (in any
    letter case) the heading "Next 12 hours forecast" followed by at most
    twelve lines; under "tomorrow" the tomorrow report or the notice that
    there is none; under anything else the heading "3-day forecast" followed
    by at most three lines. *)
Theorem forecast_lists_are_bounded {float : Type} (float_of_str : string -> option float)
    (format_f : nat -> float -> string) (strftime : string -> string -> result string)
    (sv : @services float) (location forecast_type s : string) :
  returned (get_weather_forecast float_of_str format_f strftime sv location forecast_type)
  = Ok s ->
  (exists x, s = "Error getting forecast for " +:+ location +:+ ": " +:+ exn_str x)
  \/ exists data,
       returned (_get_weather_data float_of_str format_f sv location) = Ok data
       /\ if mem (lower forecast_type) ["today"; "hourly"] then
            exists ls, s = "Next 12 hours forecast for " +:+ data_location data +:+ ":" +:+ nl
                           +:+ lines ls
                       /\ (length ls <= 12)%nat
          else if String.eqb (lower forecast_type) "tomorrow" then
            s = "No tomorrow forecast available for " +:+ data_location data
            \/ exists rest, s = "Tomorrow's forecast for " +:+ data_location data +:+ rest
          else
            exists ls, s = "3-day forecast for " +:+ data_location data +:+ ":" +:+ nl
                           +:+ lines ls
                       /\ (length ls <= 3)%nat.
Proof.
  unfold get_weather_forecast, returned. run_prog.
  destruct (_get_weather_data float_of_str format_f sv location tt) as [[u t] [data|x]];
    cbn [fst snd].
  2:{ destruct (is_Exception x); cbn; [|discriminate]. intros [= <-]. left. eauto. }
  destruct (forecast_text format_f strftime data forecast_type) as [v|x] eqn:Htext;
    cbn -[mem lower String.eqb].
  2:{ destruct (is_Exception x); cbn -[mem lower String.eqb]; [|discriminate].
      intros [= <-]. left. eauto. }
  intros [= <-]. right. exists data. split; [reflexivity|].
  unfold forecast_text in Htext.
  destruct (mem (lower forecast_type) ["today"; "hourly"]).
  - unfold _format_forecast in Htext. cbn [String.eqb Ascii.eqb Bool.eqb] in Htext.
    revert Htext. run_prog.
    destruct (item (h_time (data_hourly data)) "time") as [times|]; [|discriminate].
    destruct (item (h_temperature_2m (data_hourly data)) "temperature_2m") as [temps|];
      [|discriminate].
    destruct (item (h_weathercode (data_hourly data)) "weathercode") as [codes|];
      [|discriminate].
    destruct (item (h_precipitation_probability (data_hourly data))
                "precipitation_probability") as [probs|]; [|discriminate].
    destruct (hourly_lines format_f strftime (slice times 0 12) (slice temps 0 12)
                (slice codes 0 12) (slice probs 0 12)) as [ls|] eqn:E; [|discriminate].
    intros [= <-]. cbv iota. exists ls. split; [reflexivity|].
    apply hourly_lines_length in E. pose proof (slice_12 times). lia.
  - destruct (String.eqb (lower forecast_type) "tomorrow").
    + unfold _format_forecast in Htext. cbn [String.eqb Ascii.eqb Bool.eqb] in Htext.
      revert Htext. run_prog.
      destruct (item (d_time (data_daily data)) "time") as [dates|]; [|discriminate].
      destruct (length dates <? 2)%nat; [intros [= <-]; cbv iota; left; reflexivity|].
      destruct (nth_item dates 1) as [date|]; [|discriminate].
      destruct (item (d_temperature_2m_max (data_daily data)) "temperature_2m_max")
        as [maxs|]; [|discriminate].
      destruct (nth_item maxs 1) as [temp_max|]; [|discriminate].
      destruct (item (d_temperature_2m_min (data_daily data)) "temperature_2m_min")
        as [mins|]; [|discriminate].
      destruct (nth_item mins 1) as [temp_min|]; [|discriminate].
      destruct (item (d_precipitation_sum (data_daily data)) "precipitation_sum")
        as [precips|]; [|discriminate].
      destruct (nth_item precips 1) as [precip|]; [|discriminate].
      destruct (item (d_weathercode (data_daily data)) "weathercode") as [codes|];
        [|discriminate].
      destruct (nth_item codes 1) as [code|]; [|discriminate].
      intros [= <-]. cbv iota. right. eexists. reflexivity.
    + unfold _format_forecast in Htext. cbn [String.eqb Ascii.eqb Bool.eqb] in Htext.
      revert Htext. run_prog.
      destruct (item (d_time (data_daily data)) "time") as [dates|]; [|discriminate].
      destruct (item (d_temperature_2m_max (data_daily data)) "temperature_2m_max")
        as [maxs|]; [|discriminate].
      destruct (item (d_temperature_2m_min (data_daily data)) "temperature_2m_min")
        as [mins|]; [|discriminate].
      destruct (item (d_precipitation_sum (data_daily data)) "precipitation_sum")
        as [precips|]; [|discriminate].
      destruct (item (d_weathercode (data_daily data)) "weathercode") as [codes|];
        [|discriminate].
      intros [= <-]. cbv iota. eexists. split; [reflexivity|].
      pose proof (daily_lines_length format_f dates 0 maxs mins precips codes). lia.
Qed.

Lemma forecast_lists_are_bounded_witness :
  match returned (Rational.get_weather_forecast "48, 2" "Hourly") with
  | Ok s =>
      (exists x, s = "Error getting forecast for 48, 2: " +:+ exn_str x)
      \/ exists ls, s = "Next 12 hours forecast for 48.00,2.00:" +:+ nl +:+ lines ls
                    /\ (length ls <= 12)%nat
  | Raise _ => False
  end.
Proof.
  destruct (returned (Rational.get_weather_forecast "48, 2" "Hourly")) as [s|x] eqn:E.
  - destruct (forecast_lists_are_bounded Rational.float_of_str Rational.format_f
                Rational.strftime Rational.sample_services "48, 2" "Hourly" s E)
      as [H | (data & Hdata & H)]; [left; exact H|].
    right. vm_compute in Hdata. injection Hdata as <-. exact H.
  - vm_compute in E. discriminate.
Defined.





End WeatherMore.
(* ===================================================================== *)
(** * Further properties of src/tools/calendar.py *)
(* ===================================================================== *)

Module CalendarMore.
Import Calendar CalendarRuns.

(** ** Strings *)

Lemma rstrip_idempotent (s : string) : rstrip (rstrip s) = rstrip s.
Proof.
  induction s as [|c s IH]; [reflexivity|].
  cbn [rstrip]. destruct (rstrip s) as [|d r] eqn:E.
  - destruct (isspace c) eqn:Ec; [reflexivity|]. cbn [rstrip]. rewrite Ec. reflexivity.
  - cbn [rstrip] in *. rewrite IH. reflexivity.
Qed.

Lemma lstrip_fixed (c : ascii) (s : string) :
  isspace c = false -> lstrip (String c s) = String c s.
Proof. intros E. cbn [lstrip]. rewrite E. reflexivity. Qed.

Lemma strip_idempotent (s : string) : strip (strip s) = strip s.
Proof.
  unfold strip. destruct (lstrip s) as [|c t] eqn:E; [reflexivity|].
  pose proof (CalendarFacts.lstrip_head _ _ _ E) as Hc.
  destruct (CalendarFacts.rstrip_head c t Hc) as [r Hr].
  rewrite Hr, (lstrip_fixed c r Hc), <- Hr. apply rstrip_idempotent.
Qed.

Lemma rstrip_closed (s : string) (c : ascii) :
  isspace c = false -> rstrip (s +:+ String c EmptyString) = s +:+ String c EmptyString.
Proof.
  intros E. induction s as [|d s IH].
  - change (rstrip (EmptyString +:+ String c EmptyString)) with (if isspace c then EmptyString else String c EmptyString).
    rewrite E. reflexivity.
  - simpl. rewrite IH. destruct s; reflexivity.
Qed.

Lemma length_closed (s t : string) :
  String.length (s +:+ t) = (String.length s + String.length t)%nat.
Proof. induction s as [|c s IH]; simpl; [reflexivity | rewrite IH; reflexivity]. Qed.

Lemma substring_all (s : string) : substring 0 (String.length s) s = s.
Proof. induction s as [|c s IH]; simpl; [reflexivity | rewrite IH; reflexivity]. Qed.

Lemma substring_front (s t : string) : substring 0 (String.length s) (s +:+ t) = s.
Proof.
  induction s as [|c s IH]; simpl; [destruct t; reflexivity | rewrite IH; reflexivity].
Qed.

Lemma substring_back (s t : string) :
  substring (String.length s) (String.length t) (s +:+ t) = t.
Proof. induction s as [|c s IH]; simpl; [apply substring_all | exact IH]. Qed.

Lemma endswith_closed (s : string) (c : ascii) : endswith (s +:+ String c EmptyString) (String c EmptyString) = true.
Proof.
  unfold endswith. rewrite length_closed. cbn [String.length].
  replace (String.length s + 1 - 1)%nat with (String.length s) by lia.
  pose proof (substring_back s (String c EmptyString)) as H. cbn [String.length] in H.
  rewrite H, String.eqb_refl, andb_true_r. apply Nat.leb_le. lia.
Qed.

Lemma unquote (q : ascii) (s : string) :
  isspace q = false ->
  q = "'"%char \/ String q EmptyString = quote ->
  _parse_input (String q (s +:+ String q EmptyString)) = s.
Proof.
  intros Hq Hquote. unfold _parse_input, strip.
  rewrite (lstrip_fixed q _ Hq).
  change (String q (s +:+ String q EmptyString)) with (String q s +:+ String q EmptyString).
  rewrite (rstrip_closed (String q s) q Hq).
  assert (Hends : forall p, p = String q EmptyString ->
            startswith (String q s +:+ String q EmptyString) p && endswith (String q s +:+ String q EmptyString) p
            = true).
  { intros p ->. rewrite endswith_closed. unfold startswith. rewrite andb_true_r. simpl.
    destruct (ascii_dec q q) as [_|Hne]; [|contradiction].
    destruct (s +:+ String q EmptyString); reflexivity. }
  replace ((startswith (String q s +:+ String q EmptyString) "'"
            && endswith (String q s +:+ String q EmptyString) "'")
           || (startswith (String q s +:+ String q EmptyString) quote
               && endswith (String q s +:+ String q EmptyString) quote)) with true.
  - unfold strip_ends. rewrite length_closed. simpl.
    replace (String.length s + 1 - 1)%nat with (String.length s) by lia.
    apply substring_front.
  - destruct Hquote as [-> | Hquote].
    + rewrite (Hends "'" eq_refl). reflexivity.
    + rewrite (Hends quote (eq_sym Hquote)). rewrite orb_true_r. reflexivity.
Qed.

(** X14.  [_parse_input] undoes one layer of quoting: a text put between
    two single quotes, or between two double quotes, comes back as it was,
    inner blanks and inner quotes included; and blanks around the input do
    not count. *)
Theorem parse_input_unquotes (s : string) :
  _parse_input ("'" +:+ s +:+ "'") = s
  /\ _parse_input (quote +:+ s +:+ quote) = s
  /\ _parse_input (strip s) = _parse_input s.
Proof.
  split; [|split].
  - apply (unquote "'" s); [reflexivity | left; reflexivity].
  - apply (unquote (ascii_of_nat 34) s); [reflexivity | right; reflexivity].
  - unfold _parse_input. rewrite strip_idempotent. reflexivity.
Qed.

(** ** Malformed inputs *)


Example list_events_without_count :
  Sample.list_events [Sample.standup] "primary" false
  = (false, [], Ok "Error listing events: not enough values to unpack (expected 2, got 1)").
Proof. vm_compute. reflexivity. Qed.

Example list_events_with_a_word :
  Sample.list_events [Sample.standup] "primary | ten" false
  = (false, [], Ok "Error listing events: invalid literal for int() with base 10: 'ten'").
Proof. vm_compute. reflexivity. Qed.

(** ** [delete_event] *)

Lemma delete_first_match_run (w : world) (query scope : string) (events : list event)
    (service : bool) :
  exists t r,
    delete_first_match w query scope events service = (service, t, r)
    /\ (t = []
        \/ exists before ev after event_id,
             events = before ++ ev :: after
             /\ Forall (fun e => title_matches query e = false) before
             /\ title_matches query ev = true
             /\ id ev = Some event_id
             /\ t = [events_delete "primary" event_id "all"]).
Proof.
  induction events as [|ev events IH]; cbn [delete_first_match].
  - eexists _, _. split; [reflexivity|]. left. reflexivity.
  - destruct (title_matches query ev) eqn:Hm.
    + unfold item. run_prog.
      destruct (id ev) as [event_id|] eqn:Hid; cbn.
      * destruct (summary ev) as [title|]; cbn.
        -- destruct (delete_response w "primary" event_id "all") as [[]|x]; cbn;
             (eexists _, _; split; [reflexivity|]; right;
              exists [], ev, events, event_id; repeat split; auto).
        -- eexists _, _. split; [reflexivity|]. left. reflexivity.
      * eexists _, _. split; [reflexivity|]. left. reflexivity.
    + destruct IH as (t & r & Hrun & Ht). exists t, r. split; [exact Hrun|].
      destruct Ht as [-> | (before & ev' & after & event_id & -> & Hb & Hm' & Hid & ->)];
        [left; reflexivity|].
      right. exists (ev :: before), ev', after, event_id. repeat split; auto.
Qed.


(** ** The service object *)

Section Service.
Variable w : world.

Lemma list_events_caches (input_str : string) : caches_service w (list_events w input_str).
Proof.
  unfold caches_service, calls, service_requests, list_events, _get_service, int.
  destruct (map strip (split "|" (_parse_input input_str))) as [|a [|b [|c l]]];
    try (run_prog; cbn; repeat split; intros; first [lia | discriminate | contradiction]).
  destruct (int_of_str b) as [n|];
    [|run_prog; cbn; repeat split; intros; first [lia | discriminate | contradiction]].
  run_prog. cbn -[event_lines lines].
  repeat split; [intros [|]|..]; cbn -[event_lines lines]; cases_of_listing;
    try lia; try reflexivity; try discriminate; try tauto;
    try (intros _ c0 [<-|[]]; reflexivity).
Qed.

Lemma delete_event_caches (input_str : string) : caches_service w (delete_event w input_str).
Proof.
  unfold caches_service, calls, service_requests, delete_event, _get_service.
  set (query := lower (List.hd EmptyString (map strip (split "|" (_parse_input input_str))))).
  set (scope := scope_of (map strip (split "|" (_parse_input input_str)))).
  set (request := {| calendarId := "primary"; timeMin := utcnow w +:+ "Z"; maxResults := 50;
                     singleEvents := negb (String.eqb scope "all");
                     orderBy := if String.eqb scope "all" then None else Some "startTime" |}).
  assert (Hloop : forall s events,
            exists t r, delete_first_match w query scope events s = (s, t, r)
                        /\ List.filter (fun c => match c with
                                                 | get_calendar_service => true
                                                 | _ => false
                                                 end) t = []).
  { intros s events. destruct (delete_first_match_run w query scope events s)
      as (t & r & Hrun & Ht).
    exists t, r. split; [exact Hrun|].
    destruct Ht as [-> | (? & ? & ? & ? & _ & _ & _ & _ & ->)]; reflexivity. }
  run_prog. cbn [fst snd].
  repeat split; [intros [|]|..]; cbn [fst snd];
    repeat match goal with
           | |- context [service_failure w] =>
               destruct (service_failure w) as [x|]; cbn [fst snd]
           | |- context [list_events_response w request] =>
               destruct (list_events_response w request) as [events|x]; cbn [fst snd]
           | |- context [delete_first_match w query scope ?events ?s] =>
               destruct (Hloop s events) as (t & r & -> & Ht); cbn [fst snd]
           | |- context [match ?r with Ok _ => _ | Raise _ => _ end] =>
               destruct r as [v|x]; cbn [fst snd]
           | |- context [is_Exception ?x] => destruct (is_Exception x); cbn [fst snd]
           end;
    cbn [app List.filter length]; rewrite ?app_nil_r, ?Ht; cbn [length];
    try lia; try reflexivity; try discriminate; try tauto;
    try (intros _ c0 [<-|[]]; reflexivity).
Qed.

End Service.

Section InsertService.
Context {float datetime : Type}.
Variable float_of_str : string -> result float.
Variable fromisoformat : string -> result datetime.
Variable plus_hours : datetime -> float -> result datetime.
Variable isoformat : datetime -> string.
Variable default_timezone : string.
Variable w : world.

Lemma insert_event_caches (input_str : string) :
  caches_service w (insert_event float_of_str fromisoformat plus_hours isoformat
                      default_timezone w input_str).
Proof.
  unfold caches_service, calls, service_requests, insert_event, _get_service, meet_link_of,
    nth_item, item.
  destruct (map strip (split "|" (_parse_input input_str)))
    as [|a [|b [|c [|d [|e [|f [|g [|h l]]]]]]]];
    try (run_prog; cbn; repeat split; intros; first [lia | discriminate | contradiction]);
    run_prog;
    (destruct (fromisoformat (b +:+ "T" +:+ c)) as [start_dt|x]; cbn [fst snd];
     [|destruct (is_Exception x); cbn; repeat split; intros;
       first [lia | discriminate | contradiction]]);
    (destruct (float_of_str d) as [hours|x]; cbn [fst snd];
     [|destruct (is_Exception x); cbn; repeat split; intros;
       first [lia | discriminate | contradiction]]);
    (destruct (plus_hours start_dt hours) as [end_dt|x]; cbn [fst snd];
     [|destruct (is_Exception x); cbn; repeat split; intros;
       first [lia | discriminate | contradiction]]);
    match goal with
    | |- context [recurrence_of ?r] =>
        destruct (recurrence_of r) as [rule|x]; cbn [fst snd];
        [|destruct (is_Exception x); cbn; repeat split; intros;
          first [lia | discriminate | contradiction]]
    end;
    (repeat split; [intros [|]|..]; cbn [fst snd];
     repeat match goal with
            | |- context [service_failure w] =>
                destruct (service_failure w) as [x|]; cbn [fst snd]
            | |- context [insert_response w ?a ?b ?c ?d] =>
                destruct (insert_response w a b c d) as [created|x]; cbn [fst snd]
            | |- context [conferenceData ?c] =>
                destruct (conferenceData c) as [[[[|p ps]|]]|]; cbn
            | |- context [created_summary ?c] => destruct (created_summary c); cbn
            | |- context [is_Exception ?x] => destruct (is_Exception x); cbn [fst snd]
            end;
     cbn; try lia; try reflexivity; try discriminate; try tauto;
     try (intros _ c0 [<-|[]]; reflexivity)).
Qed.
End InsertService.

(** X17.  Each of [list_events], [insert_event] and [delete_event] asks
    for the service object at most once, and not at all on a tools object
    that has one, which it keeps; the object comes out with a service only
    if it had one or the service could be made; and when the service cannot
    be made, the call requests nothing else. *)
Theorem calendar_service_is_cached {float datetime : Type}
    (float_of_str : string -> result float) (fromisoformat : string -> result datetime)
    (plus_hours : datetime -> float -> result datetime) (isoformat : datetime -> string)
    (default_timezone : string) (w : world) (listing insertion deletion : string) :
  Forall (fun op : prog bool call string =>
            (forall service, (service_requests (calls op service) <= 1)%nat)
            /\ service_requests (calls op true) = 0%nat
            /\ fst (fst (op true)) = true
            /\ (fst (fst (op false)) = true -> service_failure w = None)
            /\ (service_failure w <> None ->
                forall c, In c (calls op false) -> c = get_calendar_service))
    [list_events w listing;
     insert_event float_of_str fromisoformat plus_hours isoformat default_timezone w insertion;
     delete_event w deletion].
Proof.
  change (Forall (caches_service w)
            [list_events w listing;
             insert_event float_of_str fromisoformat plus_hours isoformat default_timezone w
               insertion;
             delete_event w deletion]).
  constructor; [apply list_events_caches|].
  constructor; [apply insert_event_caches|].
  constructor; [apply delete_event_caches|]. constructor.
Qed.

(** ** [insert_event] *)



Example attendees_of_a_loose_list :
  attendees_of " alice@company.com , ,bob@company.com," = ["alice@company.com"; "bob@company.com"].
Proof. vm_compute. reflexivity. Qed.

Section Created.
Context {float datetime : Type}.
Variable float_of_str : string -> result float.
Variable fromisoformat : string -> result datetime.
Variable plus_hours : datetime -> float -> result datetime.
Variable isoformat : datetime -> string.
Variable default_timezone : string.
Variable w : world.

(** A six-field input whose event the service creates. *)
Lemma insert_after_creation (plain_input : string)
    (summary date_str time_str dur emails description : string) (service : bool)
    (start_dt end_dt : datetime) (hours : float) (created : created_event) :
  fields plain_input = [summary; date_str; time_str; dur; emails; description] ->
  fromisoformat (date_str +:+ "T" +:+ time_str) = Ok start_dt ->
  float_of_str dur = Ok hours ->
  plus_hours start_dt hours = Ok end_dt ->
  service = true \/ service_failure w = None ->
  insert_response w "primary"
    (plain_body isoformat default_timezone w summary emails description start_dt end_dt)
    1 "all" = Ok created ->
  insertions (calls (insert_event float_of_str fromisoformat plus_hours isoformat
                       default_timezone w plain_input) service)
  = [plain_body isoformat default_timezone w summary emails description start_dt end_dt]
  /\ returned (insert_event float_of_str fromisoformat plus_hours isoformat
                 default_timezone w plain_input) service
     = match meet_link_of created, item (created_summary created) "summary" with
       | Ok meet_link, Ok title =>
           Ok ("Created event '" +:+ title +:+ "'" +:+ nl
               +:+ "When: " +:+ date_str +:+ " " +:+ time_str +:+ " (" +:+ dur +:+ "h)" +:+ nl
               +:+ "Attendees: " +:+ emails +:+ nl
               +:+ "Meet: " +:+ meet_link)
       | Raise x, _ | Ok _, Raise x =>
           if is_Exception x then Ok ("Error creating event: " +:+ exn_str x) else Raise x
       end.
Proof.
  intros H6 Hstart Hdur Hend Hsvc Hcreated.
  unfold returned, calls, insert_event, _get_service, plain_body in *.
  fold (fields plain_input). rewrite H6. run_prog.
  rewrite Hstart, Hdur, Hend. cbn [recurrence_of].
  destruct service.
  - rewrite Hcreated. cbn [fst snd].
    destruct (meet_link_of created) as [m|x]; cbn [fst snd].
    + destruct (item (created_summary created) "summary") as [t|x]; cbn [fst snd];
        [split; reflexivity|]. destruct (is_Exception x); split; reflexivity.
    + destruct (is_Exception x); split; reflexivity.
  - destruct Hsvc as [Hsvc | Hsvc]; [discriminate|]. rewrite Hsvc.
    rewrite Hcreated. cbn [fst snd].
    destruct (meet_link_of created) as [m|x]; cbn [fst snd].
    + destruct (item (created_summary created) "summary") as [t|x]; cbn [fst snd];
        [split; reflexivity|]. destruct (is_Exception x); split; reflexivity.
    + destruct (is_Exception x); split; reflexivity.
Qed.
End Created.

(** X19.  An error text of [insert_event] does not mean that nothing was
    created.  For a well-formed six-field input whose insertion the service
    carries out, the event is requested once, and the call still returns
    "Error creating event: ..." when the answer has an empty list of entry
    points ("list index out of range") or, the meet link being found, no
    title ("'summary'"). *)
Theorem error_after_event_creation {float datetime : Type}
    (float_of_str : string -> result float) (fromisoformat : string -> result datetime)
    (plus_hours : datetime -> float -> result datetime) (isoformat : datetime -> string)
    (default_timezone : string) (w : world) (plain_input : string)
    (summary date_str time_str dur emails description : string) (service : bool)
    (start_dt end_dt : datetime) (hours : float) (created : created_event) :
  let insert := insert_event float_of_str fromisoformat plus_hours isoformat
                  default_timezone w plain_input in
  fields plain_input = [summary; date_str; time_str; dur; emails; description] ->
  fromisoformat (date_str +:+ "T" +:+ time_str) = Ok start_dt ->
  float_of_str dur = Ok hours ->
  plus_hours start_dt hours = Ok end_dt ->
  service = true \/ service_failure w = None ->
  insert_response w "primary"
    (plain_body isoformat default_timezone w summary emails description start_dt end_dt)
    1 "all" = Ok created ->
  insertions (calls insert service)
  = [plain_body isoformat default_timezone w summary emails description start_dt end_dt]
  /\ (conferenceData created = Some {| entryPoints := Some [] |} ->
      returned insert service = Ok "Error creating event: list index out of range")
  /\ (forall meet_link,
        meet_link_of created = Ok meet_link ->
        created_summary created = None ->
        returned insert service = Ok "Error creating event: 'summary'").
Proof.
  intros insert H6 Hstart Hdur Hend Hsvc Hcreated. subst insert.
  destruct (insert_after_creation float_of_str fromisoformat plus_hours isoformat
              default_timezone w plain_input summary date_str time_str dur emails description
              service start_dt end_dt hours created H6 Hstart Hdur Hend Hsvc Hcreated)
    as [Hcalls Hret].
  split; [exact Hcalls|]. split.
  - intros Hcd. rewrite Hret. unfold meet_link_of. rewrite Hcd. reflexivity.
  - intros meet_link Hlink Htitle. rewrite Hret, Hlink, Htitle. reflexivity.
Qed.

Lemma error_after_event_creation_witness :
  insertions (calls (insert_event Sample.float_of_str Sample.fromisoformat Sample.plus_hours
                       Sample.isoformat "Asia/Kolkata" no_entry_points
                       "Sync | 2025-06-15 | 14:30 | 1 | a@x.com | desc") false)
  = [plain_body Sample.isoformat "Asia/Kolkata" no_entry_points "Sync" "a@x.com" "desc"
       ("2025-06-15T", 14, ":30") ("2025-06-15T", 15, ":30")]
  /\ returned (insert_event Sample.float_of_str Sample.fromisoformat Sample.plus_hours
                 Sample.isoformat "Asia/Kolkata" no_entry_points
                 "Sync | 2025-06-15 | 14:30 | 1 | a@x.com | desc") false
     = Ok "Error creating event: list index out of range".
Proof.
  destruct (error_after_event_creation Sample.float_of_str Sample.fromisoformat
              Sample.plus_hours Sample.isoformat "Asia/Kolkata" no_entry_points
              "Sync | 2025-06-15 | 14:30 | 1 | a@x.com | desc"
              "Sync" "2025-06-15" "14:30" "1" "a@x.com" "desc" false
              ("2025-06-15T", 14, ":30") ("2025-06-15T", 15, ":30") 1
              {| created_summary := Some "Sync";
                 conferenceData := Some {| entryPoints := Some [] |} |})
    as (Hcalls & Hempty & _).
  - reflexivity.
  - reflexivity.
  - reflexivity.
  - reflexivity.
  - right. reflexivity.
  - reflexivity.
  - split; [exact Hcalls | apply Hempty; reflexivity].
Defined.

(** ** Recurrence *)




Example weekly_rule :
  recurrence_of (Some "Weekly UNTIL 2025-12-31")
  = Ok (Some ["RRULE:FREQ=WEEKLY;UNTIL=20251231T000000Z"]).
Proof. vm_compute. reflexivity. Qed.

End CalendarMore.
(* ===================================================================== *)
(** * Properties of the calendar list tools *)
(* ===================================================================== *)

Module CalendarsFacts.
Import Calendar Calendars.

Lemma summaries_of_all (calendars : list calendar_entry) (names : list string) :
  map entry_summary calendars = map Some names -> summaries_of calendars = Ok names.
Proof.
  revert names. induction calendars as [|c cs IH]; intros [|n ns]; cbn; try discriminate.
  - reflexivity.
  - intros [= Hc Hcs]. unfold item. rewrite Hc. run_prog. rewrite (IH ns Hcs). reflexivity.
Qed.

Lemma summaries_of_untitled (calendars : list calendar_entry) :
  In {| entry_summary := None |} calendars ->
  summaries_of calendars = Raise (Exn KeyError "'summary'").
Proof.
  induction calendars as [|c cs IH]; [contradiction|].
  intros [-> | Hin]; cbn; run_prog; [reflexivity|].
  destruct (item (entry_summary c) "summary") as [s|x] eqn:E.
  - rewrite (IH Hin). reflexivity.
  - unfold item in E. destruct (entry_summary c); [discriminate|].
    injection E as <-. reflexivity.
Qed.

(** X21.  [create_calendar] wants exactly two fields.  With any other
    number it makes no call and returns its error text.  With two, and a
    service at hand or to be had, it requests one calendar, with the two
    fields stripped of surrounding blanks as name and time zone, and reports
    the id of the answer, or the missing id as an error after the calendar
    was requested. *)
Theorem create_calendar_needs_two_fields (w : world) (input_str : string) (service : bool) :
  (length (fields input_str) <> 2%nat ->
     create_calendar w input_str service
     = (service, [],
        Ok ("Error creating calendar: "
            +:+ (if (length (fields input_str) <? 2)%nat
                 then "not enough values to unpack (expected 2, got 1)"
                 else "too many values to unpack (expected 2)"))))
  /\ (forall summary tz created,
        fields input_str = [summary; tz] ->
        service = true \/ service_failure w = None ->
        calendars_insert_response w summary tz = Ok created ->
        create_calendar w input_str service
        = (true,
           (if service then [] else [get_calendar_service]) ++ [calendars_insert summary tz],
           match calendar_id created with
           | Some new_id =>
               Ok ("Created calendar '" +:+ summary +:+ "' with ID: " +:+ new_id)
           | None => Ok "Error creating calendar: 'id'"
           end)
        /\ strip summary = summary /\ strip tz = tz).
Proof.
  split.
  - intros Hlen. unfold create_calendar. fold (fields input_str).
    destruct (fields input_str) as [|a [|b [|c l]]] eqn:E; cbn in Hlen |- *;
      try reflexivity; try contradiction.
    unfold fields in E. destruct (split "|" (_parse_input input_str)) eqn:Es; [|discriminate].
    destruct (_parse_input input_str); cbn in Es; [discriminate|].
    destruct (Ascii.eqb _ _); [discriminate|]. destruct (split "|" _); discriminate.
  - intros summary tz created Hf Hsvc Hresp. split.
    + unfold create_calendar, _get_service, item. fold (fields input_str). rewrite Hf.
      run_prog.
      destruct service; cbn [fst snd].
      * rewrite Hresp. cbn. destruct (calendar_id created); reflexivity.
      * destruct Hsvc as [Hsvc|Hsvc]; [discriminate|]. rewrite Hsvc. cbn [fst snd].
        rewrite Hresp. cbn. destruct (calendar_id created); reflexivity.
    + assert (Hs : In summary (fields input_str)) by (rewrite Hf; left; reflexivity).
      assert (Ht : In tz (fields input_str)) by (rewrite Hf; right; left; reflexivity).
      destruct (CalendarFacts.field_is_stripped _ _ Hs) as [x ->].
      destruct (CalendarFacts.field_is_stripped _ _ Ht) as [y ->].
      split; apply CalendarMore.strip_idempotent.
Qed.

Lemma create_calendar_needs_two_fields_witness :
  create_calendar (account []) "'Team Events |  Asia/Kolkata '" false
  = (true, [get_calendar_service; calendars_insert "Team Events" "Asia/Kolkata"],
     Ok "Created calendar 'Team Events' with ID: team events@group.calendar.google.com").
Proof.
  destruct (create_calendar_needs_two_fields (account [])
              "'Team Events |  Asia/Kolkata '" false) as [_ H].
  destruct (H "Team Events" "Asia/Kolkata"
              {| calendar_id := Some "team events@group.calendar.google.com" |})
    as [Hrun _].
  - reflexivity.
  - right. reflexivity.
  - reflexivity.
  - exact Hrun.
Defined.

(** X22.  With a service at hand or to be had, [list_calendars] makes one
    request for the calendar list and returns the heading followed by one
    line "- name" for each calendar, in the order of the answer; an answer
    without "items" lists nothing.  A single calendar without a name turns
    the whole listing into the error text "Error listing calendars:
    'summary'". *)
Theorem list_calendars_one_line_each (w : world) (service : bool)
    (items : option (list calendar_entry)) :
  service = true \/ service_failure w = None ->
  calendar_list_items w = Ok items ->
  calls (list_calendars w) service
  = (if service then [] else [get_calendar_service]) ++ [calendarList_list]
  /\ (forall names,
        map entry_summary (default [] items) = map Some names ->
        returned (list_calendars w) service
        = Ok ("Your calendars:" +:+ nl +:+ lines (map (fun s => "- " +:+ s) names)))
  /\ (In {| entry_summary := None |} (default [] items) ->
      returned (list_calendars w) service = Ok "Error listing calendars: 'summary'").
Proof.
  intros Hsvc Hitems.
  assert (Hrun : list_calendars w service
                 = (true, (if service then [] else [get_calendar_service])
                          ++ [calendarList_list],
                    match summaries_of (default [] items) with
                    | Ok summaries =>
                        Ok ("Your calendars:" +:+ nl
                            +:+ lines (map (fun s => "- " +:+ s) summaries))
                    | Raise x =>
                        if is_Exception x
                        then Ok ("Error listing calendars: " +:+ exn_str x)
                        else Raise x
                    end)).
  { unfold list_calendars, _get_service. run_prog.
    destruct service; cbn [fst snd].
    - rewrite Hitems. cbn [fst snd].
      destruct (summaries_of (default [] items)) as [l|x]; cbn [fst snd]; [reflexivity|].
      destruct (is_Exception x); reflexivity.
    - destruct Hsvc as [Hsvc|Hsvc]; [discriminate|]. rewrite Hsvc. cbn [fst snd].
      rewrite Hitems. cbn [fst snd].
      destruct (summaries_of (default [] items)) as [l|x]; cbn [fst snd]; [reflexivity|].
      destruct (is_Exception x); reflexivity. }
  unfold calls, returned. rewrite Hrun. cbn [fst snd]. split; [reflexivity|]. split.
  - intros names Hnames. rewrite (summaries_of_all _ _ Hnames). reflexivity.
  - intros Hin. rewrite (summaries_of_untitled _ Hin). reflexivity.
Qed.

Lemma list_calendars_one_line_each_witness :
  returned (list_calendars (account [Some "Work"; Some "Family"])) false
  = Ok ("Your calendars:" +:+ nl +:+ "- Work" +:+ nl +:+ "- Family")
  /\ returned (list_calendars (account [Some "Work"; None])) true
     = Ok "Error listing calendars: 'summary'".
Proof.
  split.
  - destruct (list_calendars_one_line_each (account [Some "Work"; Some "Family"]) false
                (Some [{| entry_summary := Some "Work" |}; {| entry_summary := Some "Family" |}])
                ltac:(right; reflexivity) eq_refl) as (_ & H & _).
    apply (H ["Work"; "Family"]). reflexivity.
  - destruct (list_calendars_one_line_each (account [Some "Work"; None]) true
                (Some [{| entry_summary := Some "Work" |}; {| entry_summary := None |}])
                ltac:(left; reflexivity) eq_refl) as (_ & _ & H).
    apply H. right. left. reflexivity.
Defined.

End CalendarsFacts.
(* ===================================================================== *)
(** * Properties of the search tools *)
(* ===================================================================== *)

Module SearchFacts.
Import Search.




Example padded_query_sent_as_it_is :
  calls (web_search 5 one_page "  rocq prover ")
  = [tavily_post {| query := "  rocq prover "; search_depth := "basic"; max_results := 5 |}].
Proof. vm_compute. reflexivity. Qed.

Example blank_topic :
  research_search 5 one_page "   " tt = (tt, [], Ok "Error: Research topic cannot be empty").
Proof. vm_compute. reflexivity. Qed.

Lemma lines_head (c : ascii) (s : string) (rest : list string) :
  exists r, lines (String c s :: rest) = String c r.
Proof.
  unfold lines, join. destruct rest as [|x rest]; simpl; eexists; reflexivity.
Qed.

(** X24.  Either search says that it found nothing exactly when the
    answer of the service has neither a summary (missing or empty) nor a
    result (missing or none). *)
Theorem nothing_found_is_said (data : response) (query : string) :
  (_format_search_results data query = "No search results found for: " +:+ query
   <-> default EmptyString (answer data) = EmptyString /\ default [] (results data) = [])
  /\ (research_text data query = "No research results found for: " +:+ query
      <-> default EmptyString (answer data) = EmptyString /\ default [] (results data) = []).
Proof.
  unfold _format_search_results, research_text.
  destruct (default EmptyString (answer data)) as [|c a] eqn:Ea;
    destruct (default [] (results data)) as [|h hs] eqn:Er;
    cbn [String.eqb app]; split; split;
    try (intros _; split; reflexivity); try (intros _; reflexivity);
    try (intros [H1 H2]; discriminate).
  - destruct (lines_head "S" "earch Results:" (result_lines 1 (h :: hs))) as [r Hr].
    change ("Search Results:" :: result_lines 1 (h :: hs))
      with (String "S" "earch Results:" :: result_lines 1 (h :: hs)).
    rewrite Hr. discriminate.
  - destruct (lines_head "D" "etailed Research Results:" (research_lines 1 (h :: hs)))
      as [r Hr].
    change ("Detailed Research Results:" :: research_lines 1 (h :: hs))
      with (String "D" "etailed Research Results:" :: research_lines 1 (h :: hs)).
    rewrite Hr. discriminate.
  - destruct (lines_head "A" ("nswer: " +:+ String c a +:+ nl) []) as [r Hr].
    change ["Answer: " +:+ String c a +:+ nl]
      with [String "A" ("nswer: " +:+ String c a +:+ nl)].
    rewrite Hr. discriminate.
  - destruct (lines_head "R" ("esearch Summary: " +:+ String c a +:+ nl) []) as [r Hr].
    change ["Research Summary: " +:+ String c a +:+ nl]
      with [String "R" ("esearch Summary: " +:+ String c a +:+ nl)].
    rewrite Hr. discriminate.
  - destruct (lines_head "A" ("nswer: " +:+ String c a +:+ nl)
                ("Search Results:" :: result_lines 1 (h :: hs))) as [r Hr].
    change (("Answer: " +:+ String c a +:+ nl)
            :: "Search Results:" :: result_lines 1 (h :: hs))
      with (String "A" ("nswer: " +:+ String c a +:+ nl)
            :: "Search Results:" :: result_lines 1 (h :: hs)).
    rewrite Hr. discriminate.
  - destruct (lines_head "R" ("esearch Summary: " +:+ String c a +:+ nl)
                ("Detailed Research Results:" :: research_lines 1 (h :: hs))) as [r Hr].
    change (("Research Summary: " +:+ String c a +:+ nl)
            :: "Detailed Research Results:" :: research_lines 1 (h :: hs))
      with (String "R" ("esearch Summary: " +:+ String c a +:+ nl)
            :: "Detailed Research Results:" :: research_lines 1 (h :: hs)).
    rewrite Hr. discriminate.
Qed.








End SearchFacts.
(* ===================================================================== *)
(** * Properties of src/utils.py and src/tools/email.py *)
(* ===================================================================== *)

Module CredentialsFacts.
Import Credentials.

(** X26.  [get_credentials] renews credentials at most once and in one
    way: it refreshes or runs the local authorization flow, never both, so a
    refresh that fails is not followed by the flow, and its exception
    reaches the caller.  The token file is written at most once, only after
    a refresh or a flow that succeeded, and with the JSON form of the
    credentials then returned.  Credentials are returned without a write
    only when the token file held valid ones, and those are returned as they
    are after two calls, the existence test and the loading.
    [get_calendar_service] does what [get_gmail_service] does and then, with
    the credentials obtained, builds the service. *)
Theorem credentials_renewed_once (GOOGLE_TOKEN_FILE GOOGLE_CREDENTIALS_FILE : string)
    (w : world) (token_file client_secrets_file : option string) :
  let path := default GOOGLE_TOKEN_FILE token_file in
  let run := get_credentials GOOGLE_TOKEN_FILE GOOGLE_CREDENTIALS_FILE w token_file
               client_secrets_file in
  (length (refreshes (calls run)) + flows (calls run) <= 1)%nat
  /\ (length (writes (calls run)) <= 1)%nat
  /\ (forall file content, In (file, content) (writes (calls run)) ->
        file = path
        /\ (length (refreshes (calls run)) + flows (calls run) = 1)%nat
        /\ forall creds, returned run = Ok creds -> content = to_json creds)
  /\ (forall creds, returned run = Ok creds ->
        (writes (calls run) = [(path, to_json creds)])
        \/ (writes (calls run) = [] /\ token_exists w path = true
            /\ stored w path = Ok creds /\ valid creds = true))
  /\ (forall loaded, token_exists w path = true -> stored w path = Ok loaded ->
        valid loaded = true ->
        run tt = (tt, [os_path_exists path; from_authorized_user_file path], Ok loaded))
  /\ (forall loaded e, token_exists w path = true -> stored w path = Ok loaded ->
        valid loaded = false -> expired loaded = true -> has_refresh_token loaded = true ->
        refreshed w loaded = Raise e ->
        run tt = (tt, [os_path_exists path; from_authorized_user_file path;
                       creds_refresh loaded], Raise e))
  /\ calls (get_calendar_service GOOGLE_TOKEN_FILE GOOGLE_CREDENTIALS_FILE w)
     = calls (get_gmail_service GOOGLE_TOKEN_FILE GOOGLE_CREDENTIALS_FILE w)
       ++ match returned (get_gmail_service GOOGLE_TOKEN_FILE GOOGLE_CREDENTIALS_FILE w) with
          | Ok creds => [build_calendar creds]
          | Raise _ => []
          end.
Proof.
  intros path run. subst run.
  assert (Hbuild : calls (get_calendar_service GOOGLE_TOKEN_FILE GOOGLE_CREDENTIALS_FILE w)
                   = calls (get_gmail_service GOOGLE_TOKEN_FILE GOOGLE_CREDENTIALS_FILE w)
                     ++ match returned (get_gmail_service GOOGLE_TOKEN_FILE
                                          GOOGLE_CREDENTIALS_FILE w) with
                        | Ok creds => [build_calendar creds]
                        | Raise _ => []
                        end).
  { unfold calls, returned, get_calendar_service, get_gmail_service. run_prog.
    destruct (get_credentials GOOGLE_TOKEN_FILE GOOGLE_CREDENTIALS_FILE w None None tt)
      as [[u t] [creds|x]]; cbn [fst snd]; [|rewrite app_nil_r; reflexivity].
    destruct (failing (build_failure w creds)); reflexivity. }
  unfold calls, returned, get_credentials, authorize, refreshes, writes, flows.
  fold path. run_prog. cbn [fst snd].
  split; [|split; [|split; [|split; [|split; [|split; [|exact Hbuild]]]]]].
  - world_cases w; cbn; lia.
  - world_cases w; cbn; lia.
  - intros file content. world_cases w; cbn; try contradiction;
      intros [[= <- <-]|[]]; (split; [reflexivity|]); (split; [reflexivity|]);
      intros creds [= <-]; reflexivity.
  - intros creds. world_cases w; cbn; try discriminate; intros [= <-];
      first [congruence | auto 8].
  - intros loaded He Hs Hv. rewrite He. cbn [fst snd]. rewrite Hs. cbn [fst snd].
    rewrite Hv. reflexivity.
  - intros loaded e He Hs Hv Hx Ht Hr. rewrite He. cbn [fst snd]. rewrite Hs. cbn [fst snd].
    rewrite Hv, Hx, Ht. cbn [fst snd andb]. rewrite Hr. reflexivity.
Qed.

Example stale_token_refreshed :
  get_credentials "token.json" "credentials.json" desktop None None tt
  = (tt, [os_path_exists "token.json"; from_authorized_user_file "token.json";
          creds_refresh stale; token_write "token.json" "{new}"],
     Ok renewed).
Proof. vm_compute. reflexivity. Qed.

End CredentialsFacts.

Module EmailFacts.
Import Orchestrator Email.

Lemma adapters_of (w : world) (gmail_tools : list string) (l : list tool) :
  adapters w gmail_tools = Ok l -> l = map LangChainToolAdapter gmail_tools.
Proof.
  revert l. induction gmail_tools as [|t rest IH]; intros l; cbn [adapters]; run_prog.
  - intros [= <-]. reflexivity.
  - destruct (Credentials.failing (adapter_failure w t)); [|discriminate].
    destruct (adapters w rest) as [more|]; [|discriminate].
    intros [= <-]. cbn. rewrite (IH more eq_refl). reflexivity.
Qed.

(** X27.  [as_function_tools] lets no exception deriving from
    [Exception] out, and what it returns is the empty list or the Gmail
    tools, each behind its adapter and in the toolkit's order, followed by
    the date-and-time tool.  When the Gmail resource or the toolkit fails
    with such an exception the agent still gets the date-and-time tool, and
    only that. *)
Theorem gmail_tools_end_with_datetime (w : world) :
  (forall e, returned (as_function_tools w) = Raise e -> is_Exception e = false)
  /\ (forall l, returned (as_function_tools w) = Ok l ->
        l = []
        \/ exists gmail_tools,
             l = map LangChainToolAdapter gmail_tools ++ [datetime_tool]
             /\ (get_tools w = Ok gmail_tools \/ gmail_tools = []))
  /\ (forall e,
        build_gmail_resource_service w = Some e
        \/ (build_gmail_resource_service w = None /\ get_tools w = Raise e) ->
        is_Exception e = true ->
        returned (as_function_tools w) = Ok [datetime_tool]).
Proof.
  split; [|split].
  - intros e. unfold returned, as_function_tools. apply WebhookMore.try_except_escape.
    intros e0 s0. eexists. reflexivity.
  - intros l. unfold returned, as_function_tools, langchain_gmail_tools. run_prog.
    destruct (build_gmail_resource_service w) as [x|]; cbn [fst snd Credentials.failing].
    + destruct (is_Exception x) eqn:Hx; cbn; rewrite ?Hx; cbn; [|discriminate].
      intros [= <-]. right. exists []. split; [reflexivity | right; reflexivity].
    + destruct (get_tools w) as [gmail_tools|x]; cbn [fst snd].
      * destruct (adapters w gmail_tools) as [more|x] eqn:Ha; cbn [fst snd].
        -- intros [= <-]. right. exists gmail_tools.
           rewrite (adapters_of w gmail_tools more Ha). split; [reflexivity | left; reflexivity].
        -- destruct (is_Exception x); cbn; [|discriminate]. intros [= <-]. left. reflexivity.
      * destruct (is_Exception x) eqn:Hx; cbn; rewrite ?Hx; cbn; [|discriminate].
        intros [= <-]. right. exists []. split; [reflexivity | right; reflexivity].
  - intros e [H|[Hb H]] He; unfold returned, as_function_tools, langchain_gmail_tools;
      run_prog.
    + rewrite H. cbn. rewrite He. reflexivity.
    + rewrite Hb. cbn [fst snd Credentials.failing]. rewrite H. cbn. rewrite He. reflexivity.
Qed.

End EmailFacts.
